(** * CMIP5 coverage provider (msc_pygeoapi/provider/cmip5_xarray.py)

    A shallow embedding of [CMIP5Provider] and [open_data].  The provider is
    a Python object whose attributes are mutated by [query]; it is modelled
    by a record threaded through a state-and-exception monad.  The array
    library (xarray, numpy) and the helpers inherited from pygeoapi are
    collaborators: they are the fields of the class [Host]. *)

From Stdlib Require Import String Ascii List ZArith Bool Lia DecimalString.
Import ListNotations.
Local Open Scope string_scope.
Local Open Scope Z_scope.

(** ** Python strings *)

Module PyStr.

(** [old in s] for strings. *)
Fixpoint contains (p s : string) : bool :=
  match s with
  | EmptyString => String.prefix p s
  | String _ s' => String.prefix p s || contains p s'
  end.

(** [str.replace(old, new)] with a non-empty [old]: the matches are taken
    leftmost first and do not overlap.  [skip] counts the characters of
    the current match that are still to be dropped. *)
Fixpoint replace_from (old new : string) (skip : nat) (s : string) : string :=
  match s with
  | EmptyString => EmptyString
  | String c s' =>
      match skip with
      | S k => replace_from old new k s'
      | O =>
          if String.prefix old s
          then new ++ replace_from old new (Nat.pred (String.length old)) s'
          else String c (replace_from old new O s')
      end
  end.

(** With an empty [old], Python inserts [new] before every character and at
    the end. *)
Fixpoint intersperse (new s : string) : string :=
  match s with
  | EmptyString => new
  | String c s' => new ++ String c (intersperse new s')
  end.

Definition replace (old new s : string) : string :=
  match old with
  | EmptyString => intersperse new s
  | String _ _ => replace_from old new O s
  end.

Definition lower_ascii (c : ascii) : ascii :=
  let n := nat_of_ascii c in
  if (Nat.leb 65 n && Nat.leb n 90)%bool then ascii_of_nat (n + 32) else c.

(** [str.lower()] on ASCII text. *)
Fixpoint lower (s : string) : string :=
  match s with
  | EmptyString => EmptyString
  | String c s' => String (lower_ascii c) (lower s')
  end.

Fixpoint zeros (n : nat) : string :=
  match n with
  | O => EmptyString
  | S k => String "0" (zeros k)
  end.

(** [str.zfill(width)]: a leading sign stays in front of the padding. *)
Definition zfill (width : nat) (s : string) : string :=
  let pad := zeros (width - String.length s) in
  match s with
  | String c s' =>
      if (Ascii.eqb c "+" || Ascii.eqb c "-")%bool
      then String c (pad ++ s')
      else pad ++ s
  | EmptyString => pad
  end.

(** [str(n)] for an integer. *)
Definition of_Z (z : Z) : string := NilZero.string_of_int (Z.to_int z).

End PyStr.

(** ** Python values, containers and exceptions *)

(** The exception classes that occur: the three kinds of the host framework
    and the built-in ones that the interpreter or the array library raises. *)
Inductive exn : Set :=
| ProviderConnectionError
| ProviderQueryError
| ProviderNoDataError
| KeyError
| IndexError
| AttributeError
| TypeError
| ValueError
| LibraryError.

Inductive res (A : Type) : Type :=
| Ok (a : A)
| Raise (e : exn).
Arguments Ok {A} a.
Arguments Raise {A} e.

(** A [dict] keeps insertion order, which [for key, val in subsets.items()]
    observes. *)
Definition dict (A : Type) : Type := list (string * A).

Module Dict.
Section Ops.
Context {A : Type}.

Fixpoint get (k : string) (d : dict A) : option A :=
  match d with
  | [] => None
  | (k', v) :: d' => if String.eqb k k' then Some v else get k d'
  end.

(** [k in d] *)
Definition mem (k : string) (d : dict A) : bool :=
  match get k d with Some _ => true | None => false end.

(** [d.pop(k)] *)
Fixpoint pop (k : string) (d : dict A) : dict A :=
  match d with
  | [] => []
  | (k', v) :: d' => if String.eqb k k' then d' else (k', v) :: pop k d'
  end.

(** [d[k] = v] *)
Fixpoint set (k : string) (v : A) (d : dict A) : dict A :=
  match d with
  | [] => [(k, v)]
  | (k', v') :: d' =>
      if String.eqb k k' then (k', v) :: d' else (k', v') :: set k v d'
  end.

Definition keys (d : dict A) : list string := map fst d.
End Ops.
End Dict.

(** Truth value of a list: [if bbox], [not range_subset]. *)
Definition truthy {A : Type} (l : list A) : bool :=
  match l with [] => false | _ :: _ => true end.

(** [l[0]], [l[1]], ... and [l[-1]] *)
Definition item {A : Type} (l : list A) (i : nat) : res A :=
  match nth_error l i with Some a => Ok a | None => Raise IndexError end.

Definition item_last {A : Type} (l : list A) : res A :=
  match rev l with a :: _ => Ok a | [] => Raise IndexError end.

(** The values that the request parser puts in [subsets] and [bbox]. *)
Inductive pyval (F : Type) : Type :=
| PyInt (z : Z)
| PyFloat (f : F)
| PyStr (s : string).
Arguments PyInt {F} z.
Arguments PyFloat {F} f.
Arguments PyStr {F} s.

(** ** The dataset as the provider reads it *)

Record Coordinate (V : Type) : Type := {
  values : list V;
  attrs : dict string
}.
Arguments values {V} _.
Arguments attrs {V} _.

Record DataVariable : Type := {
  shape : list nat;
  var_attrs : dict string
}.

Record Dataset (V : Type) : Type := {
  coords : dict (Coordinate V);
  variables : dict DataVariable;
  dims : dict nat
}.
Arguments coords {V} _.
Arguments variables {V} _.
Arguments dims {V} _.

(** An entry of [query_params]: [slice(a, b)] or a single label. *)
Inductive qparam (F : Type) : Type :=
| Slice (start stop : pyval F)
| Point (label : string).
Arguments Slice {F} start stop.
Arguments Point {F} label.

(** ** Collaborators *)

Class Host : Type := {
  (** a numpy scalar held by a coordinate *)
  sample : Type;
  (** a Python float of the request *)
  pyfloat : Type;
  (** [a > b] *)
  sample_gt : sample -> sample -> bool;
  (** [np.abs(a - b)] *)
  sample_absdiff : sample -> sample -> res sample;
  (** [d.astype('datetime64[M]').astype(int)]; [None] when it raises *)
  astype_M : sample -> option Z;
  (** [d.astype('datetime64[Y]').astype(int)]; [None] when it raises *)
  astype_Y : sample -> option Z;
  (** [str(f)] and [f == n] for a float *)
  float_str : pyfloat -> string;
  float_eq_Z : pyfloat -> Z -> bool;
  (** [xarray.open_mfdataset] *)
  open_mfdataset : string -> res (Dataset sample);
  _convert_float32_to_float64 : Dataset sample -> res (Dataset sample);
  (** [ds[[*names]]] *)
  getitem : Dataset sample -> list string -> res (Dataset sample);
  (** [ds.loc[query_params]] *)
  loc : Dataset sample -> dict (qparam pyfloat) -> res (Dataset sample);
  (** [XarrayProvider.get_time_coverage_duration] *)
  get_time_coverage_duration : Dataset sample -> string -> res string
}.

(** ** Logging and calls that leave the provider *)

Inductive level : Set := DEBUG | WARNING | ERROR.

Inductive event {H : Host} : Type :=
| Log (l : level) (msg : string)
| LogExn (l : level) (e : exn)
| LogParams (q : dict (qparam pyfloat))
| OpenCall (locator : string)
| LocCall (q : dict (qparam pyfloat)).

(** ** State and exceptions *)

Definition M (St A : Type) : Type := St -> res A * St.

Definition ret {St A} (a : A) : M St A := fun s => (Ok a, s).

Definition bind {St A B} (m : M St A) (k : A -> M St B) : M St B :=
  fun s =>
    match m s with
    | (Ok a, s') => k a s'
    | (Raise e, s') => (Raise e, s')
    end.

Definition raise {St A} (e : exn) : M St A := fun s => (Raise e, s).

(** [try: m except Exception as err: h err]; what [m] did to the state
    before it raised stays done. *)
Definition try_except {St A} (m : M St A) (h : exn -> M St A) : M St A :=
  fun s =>
    match m s with
    | (Ok a, s') => (Ok a, s')
    | (Raise e, s') => h e s'
    end.

Definition lift {St A} (r : res A) : M St A := fun s => (r, s).

Declare Scope py_scope.
Delimit Scope py_scope with py.
Notation "x <- m ;; k" := (bind m (fun x => k))
  (at level 100, m at next level, right associativity) : py_scope.
Notation "m ;; k" := (bind m (fun _ => k))
  (at level 100, right associativity) : py_scope.
Local Open Scope py_scope.

(** [s.split(sep)] for a one-character separator. *)
Fixpoint split_on (sep : ascii) (s : string) : list string :=
  match s with
  | EmptyString => [EmptyString]
  | String c s' =>
      let r := split_on sep s' in
      if Ascii.eqb c sep then EmptyString :: r
      else match r with
           | h :: t => String c h :: t
           | [] => [String c EmptyString]
           end
  end.

(** ** The provider *)

Section Provider.
Context {H : Host}.

Local Abbreviation dataset := (Dataset sample).
Local Abbreviation value := (pyval pyfloat).
Local Abbreviation params := (dict (qparam pyfloat)).

(** [str(v)] *)
Definition py_str (v : value) : string :=
  match v with
  | PyInt z => PyStr.of_Z z
  | PyFloat f => float_str f
  | PyStr s => s
  end.

(** [v == 'text'] and [v == n] *)
Definition eq_str (v : value) (s : string) : bool :=
  match v with PyStr s' => String.eqb s' s | _ => false end.

Definition eq_int (v : value) (n : Z) : bool :=
  match v with
  | PyInt z => Z.eqb z n
  | PyFloat f => float_eq_Z f n
  | PyStr _ => false
  end.

(** [v.replace(old, new)]: only a [str] has the method. *)
Definition method_replace (v : value) (old new : string) : res string :=
  match v with
  | PyStr s => Ok (PyStr.replace old new s)
  | _ => Raise AttributeError
  end.

Record restime_t : Type := {
  restime_value : Z;
  restime_period : string
}.

Record properties : Type := {
  bbox : list sample;
  time_range : list (option string);
  bbox_crs : string;
  crs_type : string;
  x_axis_label : string;
  y_axis_label : string;
  time_axis_label : string;
  width : nat;
  height : nat;
  time : nat;
  time_duration : string;
  bbox_units : string;
  resx : sample;
  resy : sample;
  restime : option restime_t;
  inverse_flattening : option string;
  prop_axes : list string;
  prop_fields : list string
}.

(** The attributes of a constructed [CMIP5Provider].  [_data] is [None]
    when [open_data] returned [None]. *)
Record provider : Type := {
  data : string;
  _data : option dataset;
  x_field : string;
  y_field : string;
  time_field : string;
  _coverage_properties : properties;
  axes : list string;
  fields : list string
}.

Record state : Type := {
  self : provider;
  trace : list event
}.

Definition emit {A} (tr : A -> list event) (set : A -> list event -> A)
    (e : event) : M A unit :=
  fun s => (Ok tt, set s (tr s ++ [e])%list).

(** *** [open_data] *)

(** The function catches whatever the library raises, logs it and falls
    off its end: the caller receives [None]. *)
Definition open_data (locator : string) : M (list event) (option dataset) :=
  try_except
    (emit (fun t => t) (fun _ t => t) (OpenCall locator) ;;
     d <- lift (open_mfdataset locator) ;;
     d' <- lift (_convert_float32_to_float64 d) ;;
     ret (Some d'))
    (fun err =>
       emit (fun t => t) (fun _ t => t) (LogExn ERROR err) ;;
       ret None).

(** *** [_to_datetime_string] *)

Definition int64_wrap (z : Z) : Z := (z + 2 ^ 63) mod 2 ^ 64 - 2 ^ 63.

(** [self] is read for its locator only. *)
Definition _to_datetime_string (locator : string) (datetime_ : sample)
    : M (list event) (option string) :=
  try_except
    (if PyStr.contains "monthly_ens" locator then
       m <- lift (match astype_M datetime_ with
                  | Some m => Ok m | None => Raise AttributeError end) ;;
       let month := int64_wrap (m mod 12 + 1) in
       y <- lift (match astype_Y datetime_ with
                  | Some y => Ok y | None => Raise AttributeError end) ;;
       let year := int64_wrap (y + 1970) in
       ret (Some (PyStr.of_Z year ++ "-" ++ PyStr.zfill 2 (PyStr.of_Z month)))
     else
       y <- lift (match astype_Y datetime_ with
                  | Some y => Ok y | None => Raise AttributeError end) ;;
       ret (Some (PyStr.of_Z (int64_wrap (y + 1970)))))
    (fun err =>
       emit (fun t => t) (fun _ t => t) (LogExn ERROR err) ;;
       ret None).

(** *** [get_time_resolution] *)

Definition lookup_coord (d : dataset) (name : string)
    : res (Coordinate sample) :=
  match Dict.get name (coords d) with
  | Some c => Ok c
  | None => Raise KeyError
  end.

Definition lookup_dim (d : dataset) (name : string) : res nat :=
  match Dict.get name (dims d) with
  | Some n => Ok n
  | None => Raise KeyError
  end.

Definition get_time_resolution (locator : string) (d : dataset)
    (time_field : string) : res (option restime_t) :=
  match lookup_coord d time_field with
  | Raise e => Raise e
  | Ok c =>
      if Nat.ltb 1 (List.length (values c)) then
        let period :=
          if PyStr.contains "monthly_ens" locator then "month" else "year" in
        Ok (Some {| restime_value := 1; restime_period := period |})
      else Ok None
  end.

(** *** [_get_coverage_properties] *)

(** The loop over [self._data.coords]: the three roles found so far. *)
Fixpoint scan_coords (cs : dict (Coordinate sample))
    (time_var y_var x_var : option string)
    : res (option string * option string * option string) :=
  match cs with
  | [] => Ok (time_var, y_var, x_var)
  | (coord, c) :: cs' =>
      if String.eqb (PyStr.lower coord) "time" then
        scan_coords cs' (Some coord) y_var x_var
      else
        match Dict.get "units" (attrs c) with
        | None => Raise KeyError
        | Some u =>
            if String.eqb u "degrees_north" then
              scan_coords cs' time_var (Some coord) x_var
            else if String.eqb u "degrees_east" then
              scan_coords cs' time_var y_var (Some coord)
            else scan_coords cs' time_var y_var x_var
        end
  end.

(** [len(shape) >= 3] over [self._data.variables], in their order. *)
Definition eligible (d : dataset) : list string :=
  map fst (filter (fun nv => Nat.leb 3 (List.length (shape (snd nv))))
                  (variables d)).

(** A missing key of [coords] is a [KeyError]; [None] is never a key. *)
Definition coord_of (d : dataset) (field : option string)
    : res (Coordinate sample) :=
  match field with
  | Some name => lookup_coord d name
  | None => Raise KeyError
  end.

Definition or_else (field found : option string) : option string :=
  match field with Some _ => field | None => found end.


Definition field_name (field : option string) : res string :=
match field with
| Some name => Ok name
| None => Raise KeyError
end.

Definition attribute (v : DataVariable) (name : string) : res string :=
match Dict.get name (var_attrs v) with
| Some a => Ok a
| None => Raise AttributeError
end.

Definition log_t (l : level) (msg : string) : M (list event) unit :=
emit (fun t => t) (fun _ t => t) (Log l msg).

(** [x_field0], [y_field0] and [time_field0] are what [BaseProvider.__init__]
    took from the provider definition.  The entries of the dictionary are
    evaluated in the order in which they are written. *)
Definition _get_coverage_properties (locator : string)
    (handle : option dataset) (x_field0 y_field0 time_field0 : option string)
    : M (list event) properties :=
d <- lift (match handle with
           | Some d => Ok d | None => Raise AttributeError end) ;;
roles <- lift (scan_coords (coords d) None None None) ;;
let '(time_var, y_var, x_var) := roles in
xf <- lift (field_name (or_else x_field0 x_var)) ;;
cx <- lift (lookup_coord d xf) ;;
x0 <- lift (item (values cx) 0) ;;
yf <- lift (field_name (or_else y_field0 y_var)) ;;
cy <- lift (lookup_coord d yf) ;;
y0 <- lift (item (values cy) 0) ;;
x1 <- lift (item_last (values cx)) ;;
y1 <- lift (item_last (values cy)) ;;
tf <- lift (field_name (or_else time_field0 time_var)) ;;
ct <- lift (lookup_coord d tf) ;;
t0 <- lift (item (values ct) 0) ;;
s0 <- _to_datetime_string locator t0 ;;
t1 <- lift (item_last (values ct)) ;;
s1 <- _to_datetime_string locator t1 ;;
w <- lift (lookup_dim d xf) ;;
h <- lift (lookup_dim d yf) ;;
t <- lift (lookup_dim d tf) ;;
dur <- lift (get_time_coverage_duration d tf) ;;
xs1 <- lift (item (values cx) 1) ;;
rx <- lift (sample_absdiff xs1 x0) ;;
ys1 <- lift (item (values cy) 1) ;;
ry <- lift (sample_absdiff ys1 y0) ;;
rt <- lift (get_time_resolution locator d tf) ;;
crs <- lift (match Dict.get "crs" (variables d) with
             | None =>
                 Ok ("http://www.opengis.net/def/crs/OGC/1.3/CRS84",
                     None, "GeographicCRS")
             | Some v =>
                 match attribute v "epsg_code" with
                 | Raise e => Raise e
                 | Ok code =>
                     match attribute v "inverse_flattening" with
                     | Raise e => Raise e
                     | Ok inv =>
                         Ok ("http://www.opengis.net/def/crs/OGC/1.3/" ++ "/"
                               ++ code,
                             Some inv, "ProjectedCRS")
                     end
                 end
             end) ;;
let '(the_crs, inv, kind) := crs in
ret {| bbox := [x0; y0; x1; y1];
       time_range := [s0; s1];
       bbox_crs := the_crs;
       crs_type := kind;
       x_axis_label := xf;
       y_axis_label := yf;
       time_axis_label := tf;
       width := w;
       height := h;
       time := t;
       time_duration := dur;
       bbox_units := "degrees";
       resx := rx;
       resy := ry;
       restime := rt;
       inverse_flattening := inv;
       prop_axes := [xf; yf; tf];
       prop_fields := eligible d |}.

(** *** [__init__] *)

(** What [BaseProvider.__init__] reads from the provider definition. *)
Record provider_def : Type := {
  pd_data : string;
  pd_x_field : option string;
  pd_y_field : option string;
  pd_time_field : option string
}.

Definition facet_axes (locator : string) : list string :=
((if PyStr.contains "RCP" locator then ["scenario"] else [])
 ++ (if PyStr.contains "season" locator then ["season"] else [])
 ++ (if PyStr.contains "avg_20years" locator then [] else ["percentile"]))%list.

Definition __init__ (pd : provider_def) : M (list event) provider :=
try_except
  (handle <- open_data (pd_data pd) ;;
   props <- _get_coverage_properties (pd_data pd) handle
              (pd_x_field pd) (pd_y_field pd) (pd_time_field pd) ;;
   ret {| data := pd_data pd;
          _data := handle;
          x_field := x_axis_label props;
          y_field := y_axis_label props;
          time_field := time_axis_label props;
          _coverage_properties := props;
          axes := ([x_axis_label props; y_axis_label props;
                    time_axis_label props]
                   ++ facet_axes (pd_data pd))%list;
          fields := prop_fields props |})
  (fun err =>
     emit (fun t => t) (fun _ t => t) (LogExn WARNING err) ;;
     raise ProviderConnectionError).

(** *** [query] *)

Definition get_self : M state provider := fun s => (Ok (self s), s).

Definition log (l : level) (msg : string) : M state unit :=
emit trace (fun s t => {| self := self s; trace := t |}) (Log l msg).

Definition log_exn (l : level) (e : exn) : M state unit :=
emit trace (fun s t => {| self := self s; trace := t |}) (LogExn l e).

Definition on_trace {A} (m : M (list event) A) : M state A :=
fun s => let (r, t) := m (trace s) in (r, {| self := self s; trace := t |}).

Definition with_data (p : provider) (locator : string) : provider :=
{| data := locator;
   _data := _data p;
   x_field := x_field p;
   y_field := y_field p;
   time_field := time_field p;
   _coverage_properties := _coverage_properties p;
   axes := axes p;
   fields := fields p |}.

Definition with_handle (p : provider) (handle : option dataset) : provider :=
{| data := data p;
   _data := handle;
   x_field := x_field p;
   y_field := y_field p;
   time_field := time_field p;
   _coverage_properties := _coverage_properties p;
   axes := axes p;
   fields := fields p |}.

(** [self.data = self.data.replace(old, new)] *)
Definition substitute (old new : string) : M state unit :=
fun s =>
  (Ok tt,
   {| self := with_data (self s) (PyStr.replace old new (data (self s)));
      trace := trace s |}).

(** [self._data = open_data(self.data)] *)
Definition reopen : M state unit :=
p <- get_self ;;
handle <- on_trace (open_data (data p)) ;;
fun s => (Ok tt, {| self := with_handle (self s) handle; trace := trace s |}).

(** Every [except Exception as err] of the facet blocks. *)
Definition as_query_error {A} (err : exn) : M state A :=
log_exn ERROR err ;; raise ProviderQueryError.

Definition scenario_block (subsets : dict (list value))
    : M state (dict (list value)) :=
match Dict.get "scenario" subsets with
| None => ret subsets
| Some scenario =>
    try_except
      (if Nat.ltb 1 (List.length scenario) then
         log ERROR "multiple scenario are not supported" ;;
         raise ProviderQueryError
       else
         v <- lift (item scenario 0) ;;
         if (eq_str v "RCP2.6" || eq_str v "hist")%bool then ret tt
         else
           scenario_value <- lift (method_replace v "RCP" "") ;;
           substitute "2.6" scenario_value ;;
           reopen)
      as_query_error ;;
    ret (Dict.pop "scenario" subsets)
end.

Definition percentile_block (subsets : dict (list value))
    : M state (dict (list value)) :=
match Dict.get "percentile" subsets with
| None => ret subsets
| Some percentile =>
    try_except
      (if match percentile with [v] => eq_int v 50 | _ => false end
       then ret tt
       else
         v <- lift (item percentile 0) ;;
         substitute "pctl50" ("pctl" ++ py_str v) ;;
         reopen)
      as_query_error ;;
    ret (Dict.pop "percentile" subsets)
end.

Definition season_block (subsets : dict (list value))
    : M state (dict (list value)) :=
match Dict.get "season" subsets with
| None => ret subsets
| Some seasonal =>
    try_except
      (if Nat.ltb 1 (List.length seasonal) then
         log ERROR "multiple seasons are not supported" ;;
         raise ProviderQueryError
       else if match seasonal with [v] => eq_str v "DJF" | _ => false end
       then ret tt
       else
         v <- lift (item seasonal 0) ;;
         substitute "DJF" (py_str v) ;;
         reopen)
      as_query_error ;;
    ret (Dict.pop "season" subsets)
end.

(** Lines 264 to 315: the three facet blocks, in this order. *)
Definition facet_pass (subsets : dict (list value))
    : M state (dict (list value)) :=
subsets1 <- scenario_block subsets ;;
subsets2 <- percentile_block subsets1 ;;
season_block subsets2.

(** [for key, val in subsets.items()] *)
Fixpoint orient (d : dataset) (items : dict (list value)) (query_params : params)
    : M state params :=
match items with
| [] => ret query_params
| (key, val) :: rest =>
    c <- lift (lookup_coord d key) ;;
    first <- lift (item (values c) 0) ;;
    last <- lift (item_last (values c)) ;;
    query_params' <-
      (if sample_gt first last then
         log DEBUG "Reversing slicing low/high" ;;
         hi <- lift (item val 1) ;;
         lo <- lift (item val 0) ;;
         ret (Dict.set key (Slice hi lo) query_params)
       else
         lo <- lift (item val 0) ;;
         hi <- lift (item val 1) ;;
         ret (Dict.set key (Slice lo hi) query_params)) ;;
    orient d rest query_params'
end.

(** [if bbox: ...] *)
Definition bbox_step (p : provider) (subsets : dict (list value))
    (bbox_ : list value) (query_params : params) : M state params :=
if truthy bbox_ then
  if (Dict.mem (x_axis_label (_coverage_properties p)) subsets
      && Dict.mem (y_axis_label (_coverage_properties p)) subsets
      && Nat.ltb 0 (List.length bbox_))%bool
  then
    log WARNING "bbox and subsetting by coordinates are exclusive" ;;
    raise ProviderQueryError
  else
    b0 <- lift (item bbox_ 0) ;;
    b2 <- lift (item bbox_ 2) ;;
    let query_params1 :=
      Dict.set (x_axis_label (_coverage_properties p)) (Slice b0 b2)
               query_params in
    b3 <- lift (item bbox_ 3) ;;
    b1 <- lift (item bbox_ 1) ;;
    ret (Dict.set (y_axis_label (_coverage_properties p)) (Slice b3 b1)
                  query_params1)
else ret query_params.

(** [if datetime_ is not None: ...] *)
Definition datetime_step (p : provider) (subsets : dict (list value))
    (datetime_ : option string) (query_params : params) : M state params :=
match datetime_ with
| None => ret query_params
| Some dt =>
    if Dict.mem (time_axis_label (_coverage_properties p)) subsets then
      log ERROR "datetime and temporal subsetting are exclusive" ;;
      raise ProviderQueryError
    else if PyStr.contains "/" dt then
      match split_on "/" dt with
      | [begin; end_] =>
          if String.ltb begin end_ then
            ret (Dict.set (time_field p)
                          (Slice (PyStr begin) (PyStr end_)) query_params)
          else
            log DEBUG "Reversing slicing from high to low" ;;
            ret (Dict.set (time_field p)
                          (Slice (PyStr end_) (PyStr begin)) query_params)
      | _ => raise ValueError
      end
    else ret (Dict.set (time_field p) (Point dt) query_params)
end.

(** The mapping handed to [data.loc]. *)
Definition build_query_params (p : provider) (d : dataset)
    (subsets : dict (list value)) (bbox_ : list value)
    (datetime_ : option string) : M state params :=
query_params <- orient d subsets [] ;;
query_params <- bbox_step p subsets bbox_ query_params ;;
datetime_step p subsets datetime_ query_params.

Definition is_some {A} (o : option A) : bool :=
match o with Some _ => true | None => false end.

(** [any([...])] at line 326. *)
Definition wants_subset (p : provider) (subsets : dict (list value))
    (bbox_ : list value) (datetime_ : option string) : bool :=
(Dict.mem (x_axis_label (_coverage_properties p)) subsets
 || Dict.mem (y_axis_label (_coverage_properties p)) subsets
 || Dict.mem (time_axis_label (_coverage_properties p)) subsets
 || truthy bbox_
 || is_some datetime_)%bool.

Definition subset_data (p : provider) (d : dataset)
    (subsets : dict (list value)) (bbox_ : list value)
    (datetime_ : option string) : M state dataset :=
if wants_subset p subsets bbox_ datetime_ then
  log DEBUG "Creating spatio-temporal subset" ;;
  query_params <- build_query_params p d subsets bbox_ datetime_ ;;
  emit trace (fun s t => {| self := self s; trace := t |})
       (LogParams query_params) ;;
  try_except
    (emit trace (fun s t => {| self := self s; trace := t |})
          (LocCall query_params) ;;
     lift (loc d query_params))
    (fun err => log_exn WARNING err ;; raise ProviderQueryError)
else ret d.

Record out_meta_t : Type := {
  om_bbox : list sample;
  om_time : list (option string);
  om_driver : string;
  om_height : nat;
  om_width : nat;
  om_time_steps : nat;
  om_variables : dict (dict string)
}.

(** What [query] returns: the encoder it called and the arguments it
    passed. *)
Inductive output : Type :=
| gen_covjson (meta : out_meta_t) (d : dataset) (range_subset : list string)
| _get_zarr_data (d : option dataset)
| read_data (locator : string)
| to_netcdf (d : dataset).

(** [if any([... .size == 0, ... .size == 0])] at line 380. *)
Definition check_not_empty (p : provider) (d : dataset) : M state unit :=
cx <- lift (lookup_coord d (x_field p)) ;;
cy <- lift (lookup_coord d (y_field p)) ;;
if (Nat.eqb (List.length (values cx)) 0
    || Nat.eqb (List.length (values cy)) 0)%bool
then log WARNING "No data found" ;; raise ProviderNoDataError
else ret tt.

Definition make_out_meta (p : provider) (d : dataset) : M state out_meta_t :=
cx <- lift (lookup_coord d (x_field p)) ;;
x0 <- lift (item (values cx) 0) ;;
cy <- lift (lookup_coord d (y_field p)) ;;
y0 <- lift (item (values cy) 0) ;;
x1 <- lift (item_last (values cx)) ;;
y1 <- lift (item_last (values cy)) ;;
ct <- lift (lookup_coord d (time_field p)) ;;
t0 <- lift (item (values ct) 0) ;;
s0 <- on_trace (_to_datetime_string (data p) t0) ;;
t1 <- lift (item_last (values ct)) ;;
s1 <- on_trace (_to_datetime_string (data p) t1) ;;
h <- lift (lookup_dim d (y_field p)) ;;
w <- lift (lookup_dim d (x_field p)) ;;
n <- lift (lookup_dim d (time_field p)) ;;
ret {| om_bbox := [x0; y0; x1; y1];
       om_time := [s0; s1];
       om_driver := "xarray";
       om_height := h;
       om_width := w;
       om_time_steps := n;
       om_variables := map (fun nv => (fst nv, var_attrs (snd nv)))
                           (variables d) |}.

(** The condition of line 317. *)
Definition fast_path (range_subset : list string)
    (subsets : dict (list value)) (format_ : string) : bool :=
(negb (truthy range_subset) && negb (truthy subsets)
 && negb (String.eqb format_ "json"))%bool.

(** From line 380 on: the check for an empty result, the metadata and the
    encoder. *)
Definition respond (p : provider) (d : dataset) (range_subset : list string)
    (format_ : string) : M state output :=
check_not_empty p d ;;
out_meta <- make_out_meta p d ;;
log DEBUG "Serializing data in memory" ;;
if String.eqb format_ "json" then
  log DEBUG "Creating output in CoverageJSON" ;;
  ret (gen_covjson out_meta d range_subset)
else if String.eqb format_ "zarr" then
  log DEBUG "Returning data in native zarr format" ;;
  ret (_get_zarr_data (Some d))
else
  log DEBUG "Returning data in native NetCDF format" ;;
  ret (to_netcdf d).

(** From line 324 on. *)
Definition slow_path (range_subset : list string)
    (subsets : dict (list value)) (bbox_ : list value)
    (datetime_ : option string) (format_ : string) : M state output :=
p <- get_self ;;
d <- lift (match _data p with
           | Some d => getitem d range_subset
           | None => Raise TypeError
           end) ;;
d <- subset_data p d subsets bbox_ datetime_ ;;
respond p d range_subset format_.

(** From line 317 on; [subsets] has lost its facet keys. *)
Definition after_facets (range_subset : list string)
    (subsets : dict (list value)) (bbox_ : list value)
    (datetime_ : option string) (format_ : string) : M state output :=
if fast_path range_subset subsets format_ then
  log DEBUG "No parameters specified, returning native data" ;;
  p <- get_self ;;
  if String.eqb format_ "zarr" then ret (_get_zarr_data (_data p))
  else ret (read_data (data p))
else slow_path range_subset subsets bbox_ datetime_ format_.

(** The body of [query], all five arguments given. *)
Definition query_body (range_subset : list string)
    (subsets : dict (list value)) (bbox_ : list value)
    (datetime_ : option string) (format_ : string) : M state output :=
subsets <- facet_pass subsets ;;
after_facets range_subset subsets bbox_ datetime_ format_.

Definition or_default {A} (default : A) (arg : option A) : A :=
match arg with Some a => a | None => default end.

(** [def query(self, range_subset=['tas'], subsets={}, bbox=[],
    datetime_=None, format_='json')]: an argument that the caller leaves out
    is [None] here.  The function never changes its default objects: it pops
    from [subsets] only a key that is there, and the default has none. *)
Definition query (range_subset : option (list string))
    (subsets : option (dict (list value))) (bbox_ : option (list value))
    (datetime_ : option string) (format_ : option string) : M state output :=
query_body (or_default ["tas"] range_subset) (or_default [] subsets)
           (or_default [] bbox_) datetime_ (or_default "json" format_).

End Provider.

(** ** Reachable provider states *)

Section Reachability.
Context {H : Host}.

(** The handle that [open_data] returns for a locator. *)
Definition resolve (locator : string) : option (Dataset sample) :=
match fst (open_data locator []) with
| Ok handle => handle
| Raise _ => None
end.

(** A provider comes out of the constructor; queries then mutate it, whether
    they return or raise. *)
Inductive reachable : provider -> Prop :=
| reach_init pd tr p tr' :
    __init__ pd tr = (Ok p, tr') -> reachable p
| reach_query p tr range_subset subsets bbox_ datetime_ format_ r s' :
    reachable p ->
    query range_subset subsets bbox_ datetime_ format_
          {| self := p; trace := tr |} = (r, s') ->
    reachable (self s').

(** The events that a computation added to the trace. *)
Definition added (before after new : list event) : Prop :=
after = (before ++ new)%list.

Definition is_open_call (e : event) : Prop :=
match e with OpenCall _ => True | _ => False end.

Definition is_loc_call (e : event) : Prop :=
match e with LocCall _ => True | _ => False end.

Definition fast_path_record : event :=
Log DEBUG "No parameters specified, returning native data".

End Reachability.

(** ** A small world to run the provider in *)

Module World.

(** Coordinate samples: plain numbers, [datetime64] values counted in months
    since 1970-01, and calendar objects without [astype]. *)
Inductive npval : Set :=
| Number (z : Z)
| Datetime64 (months : Z)
| Cftime (months : Z).

Definition raw (v : npval) : Z :=
match v with Number z | Datetime64 z | Cftime z => z end.

Definition lon : Coordinate npval :=
{| values := [Number 10; Number 20; Number 30];
   attrs := [("units", "degrees_east")] |}.

Definition lat : Coordinate npval :=
{| values := [Number 60; Number 50; Number 40];
   attrs := [("units", "degrees_north")] |}.

Definition time_ : Coordinate npval :=
{| values := [Datetime64 432; Datetime64 445];
   attrs := [] |}.

Definition grid (long_name : string) : Dataset npval :=
{| coords := [("lon", lon); ("lat", lat); ("time", time_)];
   variables :=
     [("lon", {| shape := [3%nat]; var_attrs := [] |});
      ("lat", {| shape := [3%nat]; var_attrs := [] |});
      ("time", {| shape := [2%nat]; var_attrs := [] |});
      ("tas", {| shape := [2%nat; 3%nat; 3%nat];
                 var_attrs := [("long_name", long_name)] |});
      ("mask", {| shape := [3%nat; 3%nat]; var_attrs := [] |})];
   dims := [("lon", 3%nat); ("lat", 3%nat); ("time", 2%nat)] |}.

Definition rcp26 : string :=
  "/data/cmip5/RCP2.6/season/DJF/tas_rcp2.6_pctl50_monthly_ens.nc".
Definition rcp85 : string :=
  "/data/cmip5/RCP8.5/season/DJF/tas_rcp8.5_pctl50_monthly_ens.nc".
Definition rcp26_pctl25 : string :=
  "/data/cmip5/RCP2.6/season/DJF/tas_rcp2.6_pctl25_monthly_ens.nc".

(** Locators that no file answers to. *)
Definition rcp45 : string :=
  "/data/cmip5/RCP4.5/season/DJF/tas_rcp4.5_pctl50_monthly_ens.nc".
Definition season_djfm : string :=
  "/data/cmip5/RCP2.6/season/DJFM/tas_rcp2.6_pctl50_monthly_ens.nc".
Definition season_mamm : string :=
  "/data/cmip5/RCP2.6/season/MAMM/tas_rcp2.6_pctl50_monthly_ens.nc".

(** The files that exist. *)
Definition files (locator : string) : res (Dataset npval) :=
if String.eqb locator rcp26 then Ok (grid "rcp26 pctl50 DJF")
else if String.eqb locator rcp85 then Ok (grid "rcp85 pctl50 DJF")
else if String.eqb locator rcp26_pctl25 then Ok (grid "rcp26 pctl25 DJF")
else Raise LibraryError.

Definition select_vars (d : Dataset npval) (names : list string)
    : res (Dataset npval) :=
if forallb (fun n => Dict.mem n (variables d)) names then
  Ok {| coords := coords d;
        variables :=
          filter (fun nv => (Dict.mem (fst nv) (coords d)
                             || existsb (String.eqb (fst nv)) names)%bool)
                 (variables d);
        dims := dims d |}
else Raise KeyError.

(** Label slices on a monotonic coordinate, both ends included. *)
Definition within (c : Coordinate npval) (a b : Z) : list npval :=
let ascending :=
  match values c, rev (values c) with
  | first :: _, last :: _ => Z.leb (raw first) (raw last)
  | _, _ => true
  end in
filter (fun v => if ascending
                 then (Z.leb a (raw v) && Z.leb (raw v) b)%bool
                 else (Z.leb b (raw v) && Z.leb (raw v) a)%bool)
       (values c).

Fixpoint select_labels (d : Dataset npval) (q : dict (qparam Z))
    : res (Dataset npval) :=
match q with
| [] => Ok d
| (key, Slice (PyInt a) (PyInt b)) :: q' =>
    match Dict.get key (coords d) with
    | None => Raise KeyError
    | Some c =>
        let vs := within c a b in
        select_labels
          {| coords := Dict.set key {| values := vs; attrs := attrs c |}
                                (coords d);
             variables := variables d;
             dims := Dict.set key (List.length vs) (dims d) |}
          q'
    end
| _ => Raise LibraryError
end.

#[local] Instance host : Host :=
{| sample := npval;
   pyfloat := Z;
   sample_gt := fun a b => Z.gtb (raw a) (raw b);
   sample_absdiff := fun a b => Ok (Number (Z.abs (raw a - raw b)));
   astype_M := fun v => match v with Datetime64 m => Some m | _ => None end;
   astype_Y := fun v => match v with
                        | Datetime64 m => Some (m / 12)
                        | _ => None
                        end;
   float_str := fun f => (PyStr.of_Z f ++ ".0")%string;
   float_eq_Z := Z.eqb;
   open_mfdataset := files;
   _convert_float32_to_float64 := fun d => Ok d;
   getitem := select_vars;
   loc := select_labels;
   get_time_coverage_duration := fun _ _ => Ok "1 year" |}.

Definition definition : provider_def :=
{| pd_data := rcp26;
   pd_x_field := None;
   pd_y_field := None;
   pd_time_field := None |}.

(** The provider that the constructor builds for [definition]. *)
Definition fresh : provider :=
Eval vm_compute in
  match fst (__init__ definition []) with
  | Ok p => p
  | Raise _ =>
      {| data := ""; _data := None; x_field := ""; y_field := "";
         time_field := "";
         _coverage_properties :=
           {| bbox := []; time_range := []; bbox_crs := ""; crs_type := "";
              x_axis_label := ""; y_axis_label := ""; time_axis_label := "";
              width := 0; height := 0; time := 0; time_duration := "";
              bbox_units := ""; resx := Number 0; resy := Number 0;
              restime := None; inverse_flattening := None;
              prop_axes := []; prop_fields := [] |};
         axes := []; fields := [] |}
  end.

Definition start : state := {| self := fresh; trace := [] |}.

(** The provider after a query that selected scenario RCP8.5. *)
Definition on_rcp85 : provider :=
Eval vm_compute in
  self (snd (query None (Some [("scenario", [PyStr "RCP8.5"])])
                   None None None start)).

End World.

(** ** [get_coverage_domainset] *)

Section Domainset.
Context {H : Host}.

(** A value in the JSON object of an axis. *)
Inductive jval : Type :=
| JStr (s : string)
| JInt (z : Z)
| JInts (l : list Z)
| JStrs (l : list string)
| JSample (v : sample).

(** [domainset['generalGrid']], the two entries that the method reads and
    writes. *)
Record general_grid : Type := {
  axisLabels : list string;
  axis : list (dict jval)
}.

Definition percentile_axis : dict jval :=
[("type", JStr "IrregularAxis");
 ("axisLabel", JStr "percentile");
 ("coordinate", JInts [5; 25; 50; 75; 95]);
 ("lowerBound", JInt 5);
 ("upperBound", JInt 95);
 ("uomLabel", JStr "%")].

Definition scenario_axis : dict jval :=
[("type", JStr "IrregularAxis");
 ("axisLabel", JStr "scenario");
 ("coordinate", JStrs ["RCP2.6"; "RCP4.5"; "RCP8.5"])].

Definition season_axis : dict jval :=
[("type", JStr "IrregularAxis");
 ("axisLabel", JStr "season");
 ("coordinate", JStrs ["DJF"; "MAM"; "JJA"; "SON"])].

(** [l[i][k] = v] for a list of dictionaries. *)
Fixpoint set_entry (l : list (dict jval)) (i : nat) (k : string) (v : jval)
    : res (list (dict jval)) :=
match l, i with
| [], _ => Raise IndexError
| a :: l', O => Ok (Dict.set k v a :: l')
| a :: l', S i' =>
    match set_entry l' i' k v with
    | Ok r => Ok (a :: r)
    | Raise e => Raise e
    end
end.

(** The labels and the axes that the method appends, in its order. *)
Definition new_axis_name (locator : string) : list string :=
((if PyStr.contains "avg_20years" locator then [] else ["percentile"])
 ++ (if PyStr.contains "RCP" locator then ["scenario"] else [])
 ++ (if PyStr.contains "season" locator then ["season"] else []))%list.

Definition new_axis (locator : string) : list (dict jval) :=
((if PyStr.contains "avg_20years" locator then [] else [percentile_axis])
 ++ (if PyStr.contains "RCP" locator then [scenario_axis] else [])
 ++ (if PyStr.contains "season" locator then [season_axis] else []))%list.

(** [base] is what [super().get_coverage_domainset(self)] returned or
    raised. *)
Definition get_coverage_domainset (base : res general_grid) (p : provider)
    : res general_grid :=
match base with
| Raise e => Raise e
| Ok g =>
    match restime (_coverage_properties p) with
    | None => Raise TypeError
    | Some rt =>
        match set_entry (axis g) 2 "uomLabel" (JStr (restime_period rt)) with
        | Raise e => Raise e
        | Ok axis1 =>
            match set_entry axis1 2 "resolution" (JInt (restime_value rt)) with
            | Raise e => Raise e
            | Ok axis2 =>
                Ok {| axisLabels := (axisLabels g
                                     ++ new_axis_name (data p))%list;
                      axis := (axis2 ++ new_axis (data p))%list |}
            end
        end
    end
end.

(** [a['axisLabel']] when it is a string. *)
Definition label_of (a : dict jval) : option string :=
match Dict.get "axisLabel" a with
| Some (JStr l) => Some l
| _ => None
end.

End Domainset.

(** ** A second world: averages over twenty years and a coordinate without
    units *)

Module Atlas.

Definition single_time : Coordinate World.npval :=
{| values := [World.Datetime64 1332]; attrs := [] |}.

(** One sample on the time axis. *)
Definition averages : Dataset World.npval :=
{| coords := [("lon", World.lon); ("lat", World.lat); ("time", single_time)];
   variables :=
     [("lon", {| shape := [3%nat]; var_attrs := [] |});
      ("lat", {| shape := [3%nat]; var_attrs := [] |});
      ("time", {| shape := [1%nat]; var_attrs := [] |});
      ("tas", {| shape := [1%nat; 3%nat; 3%nat]; var_attrs := [] |})];
   dims := [("lon", 3%nat); ("lat", 3%nat); ("time", 1%nat)] |}.

(** A level coordinate that has no [units] attribute. *)
Definition levels : Dataset World.npval :=
{| coords := [("lon", World.lon); ("lat", World.lat);
              ("time", World.time_);
              ("height", {| values := [World.Number 2]; attrs := [] |})];
   variables := variables (World.grid "levels");
   dims := dims (World.grid "levels") |}.

(** Another pair of coordinates in degrees beside [lon] and [lat]. *)
Definition rotated : Dataset World.npval :=
{| coords := [("rlon", World.lon); ("rlat", World.lat);
              ("lon", World.lon); ("lat", World.lat);
              ("Time", World.time_)];
   variables := variables (World.grid "rotated");
   dims := [("rlon", 3%nat); ("rlat", 3%nat);
            ("lon", 3%nat); ("lat", 3%nat); ("Time", 2%nat)] |}.

Definition averages_nc : string := "/data/cmip5/avg_20years/tas_rcp26.nc".
Definition levels_nc : string := "/data/cmip5/levels/tas_pctl50.nc".
Definition rotated_nc : string := "/data/cmip5/rotated/tas_pctl50.nc".

Definition files (locator : string) : res (Dataset World.npval) :=
if String.eqb locator averages_nc then Ok averages
else if String.eqb locator levels_nc then Ok levels
else if String.eqb locator rotated_nc then Ok rotated
else World.files locator.

#[local] Instance host : Host :=
{| sample := World.npval;
   pyfloat := Z;
   sample_gt := fun a b => Z.gtb (World.raw a) (World.raw b);
   sample_absdiff := fun a b => Ok (World.Number (Z.abs (World.raw a - World.raw b)));
   astype_M := fun v => match v with
                        | World.Datetime64 m => Some m
                        | _ => None
                        end;
   astype_Y := fun v => match v with
                        | World.Datetime64 m => Some (m / 12)
                        | _ => None
                        end;
   float_str := fun f => (PyStr.of_Z f ++ ".0")%string;
   float_eq_Z := Z.eqb;
   open_mfdataset := files;
   _convert_float32_to_float64 := fun d => Ok d;
   getitem := World.select_vars;
   loc := World.select_labels;
   get_time_coverage_duration := fun _ _ => Ok "20 years" |}.

Definition definition (locator : string) : provider_def :=
{| pd_data := locator;
   pd_x_field := None;
   pd_y_field := None;
   pd_time_field := None |}.

(** What the base class returns for three axes. *)
Definition base_grid : general_grid :=
{| axisLabels := ["lon"; "lat"; "time"];
   axis := [[("type", JStr "RegularAxis"); ("axisLabel", JStr "lon")];
            [("type", JStr "RegularAxis"); ("axisLabel", JStr "lat")];
            [("type", JStr "RegularAxis"); ("axisLabel", JStr "time");
             ("uomLabel", JStr "days since 1850-01-01")]] |}.

Definition blank : provider :=
{| data := ""; _data := None; x_field := ""; y_field := "";
   time_field := "";
   _coverage_properties :=
     {| bbox := []; time_range := []; bbox_crs := ""; crs_type := "";
        x_axis_label := ""; y_axis_label := ""; time_axis_label := "";
        width := 0; height := 0; time := 0; time_duration := "";
        bbox_units := ""; resx := World.Number 0; resy := World.Number 0;
        restime := None; inverse_flattening := None;
        prop_axes := []; prop_fields := [] |};
   axes := []; fields := [] |}.

Definition built (locator : string) : provider :=
match fst (__init__ (definition locator) []) with
| Ok p => p
| Raise _ => blank
end.

(** The providers of three of the files. *)
Definition monthly : provider := Eval vm_compute in built World.rcp26.
Definition twenty_years : provider := Eval vm_compute in built averages_nc.
Definition on_rotated : provider := Eval vm_compute in built rotated_nc.

(** The domain set of [monthly]. *)
Definition monthly_grid : general_grid :=
{| axisLabels := ["lon"; "lat"; "time"; "percentile"; "scenario"; "season"];
   axis := [[("type", JStr "RegularAxis"); ("axisLabel", JStr "lon")];
            [("type", JStr "RegularAxis"); ("axisLabel", JStr "lat")];
            [("type", JStr "RegularAxis"); ("axisLabel", JStr "time");
             ("uomLabel", JStr "month"); ("resolution", JInt 1)];
            percentile_axis; scenario_axis; season_axis] |}.

End Atlas.

(** ** Vocabulary of the statements *)

(** The month as the specification writes it: two decimal digits. *)
Definition two_digits (n : Z) : string :=
String (ascii_of_nat (48 + Z.to_nat (n / 10)))
       (String (ascii_of_nat (48 + Z.to_nat (n mod 10))) EmptyString).

Section Vocabulary.
Context {H : Host}.

(** Every run of [m] takes a state to one that [R] relates to it. *)
Definition respects {A} (R : state -> state -> Prop) (m : M state A) : Prop :=
forall s, R s (snd (m s)).

(** The trace grew by events that satisfy [P]. *)
Definition extends (P : event -> Prop) (s s' : state) : Prop :=
exists new, added (trace s) (trace s') new /\ Forall P new.

Definition same_self (s s' : state) : Prop := self s' = self s.

(** A facet changes the locator and the handle, nothing else. *)
Definition same_fields (s s' : state) : Prop :=
x_field (self s') = x_field (self s)
/\ y_field (self s') = y_field (self s)
/\ time_field (self s') = time_field (self s)
/\ _coverage_properties (self s') = _coverage_properties (self s).

Definition any_event (e : event) : Prop := True.

(** The handle is the one that the locator resolves to. *)
Definition consistent (p : provider) : Prop := _data p = resolve (data p).

Definition keeps_consistent (s s' : state) : Prop :=
consistent (self s) -> consistent (self s').

Definition not_open_call (e : event) : Prop := ~ is_open_call e.
Definition not_loc_call (e : event) : Prop := ~ is_loc_call e.
Definition not_fast_path_record (e : event) : Prop := e <> fast_path_record.

(** [s] after one more event. *)
Definition add_event (s : state) (e : event) : state :=
{| self := self s; trace := (trace s ++ [e])%list |}.

(** [s] after a facet selected the dataset at [locator]. *)
Definition relocated (s : state) (locator : string) (new : list event)
    : state :=
{| self := with_handle (with_data (self s) locator) (resolve locator);
   trace := (trace s ++ new)%list |}.

(** A computation on the trace alone adds events that satisfy [Q]. *)
Definition appends {A} (Q : event -> Prop) (m : M (list event) A) : Prop :=
forall t, exists new, snd (m t) = (t ++ new)%list /\ Forall Q new.

(** The events of a call of [open_data]. *)
Definition open_events (locator : string) (new : list event) : Prop :=
new = [OpenCall locator]
\/ exists e, new = [OpenCall locator; LogExn ERROR e].

(** The facet pass of the query opened the locator that the provider already
    had and left the provider as it was; the query went on with [remaining]
    on that provider and ended with it. *)
Definition answered_from_previous (range_subset : option (list string))
    (subsets remaining : dict (list (pyval pyfloat)))
    (bbox_ : option (list (pyval pyfloat))) (datetime_ format_ : option string)
    (s : state) : Prop :=
exists events,
  open_events (data (self s)) events
  /\ facet_pass subsets s
     = (Ok remaining,
        {| self := self s; trace := (trace s ++ events)%list |})
  /\ query range_subset (Some subsets) bbox_ datetime_ format_ s
     = after_facets (or_default ["tas"] range_subset) remaining
                    (or_default [] bbox_) datetime_
                    (or_default "json" format_)
                    {| self := self s; trace := (trace s ++ events)%list |}
  /\ self (snd (query range_subset (Some subsets) bbox_ datetime_ format_ s))
     = self s.

(** Records of the structural subsetting. *)
Definition creating_record : event :=
Log DEBUG "Creating spatio-temporal subset".

Definition exclusive_record : event :=
Log WARNING "bbox and subsetting by coordinates are exclusive".

Definition no_data_record : event := Log WARNING "No data found".

(** The substitutions that the facet blocks make for the values that
    [get_coverage_domainset] lists, the defaults left out: the token that is
    replaced and what replaces it.  Percentile 5 is not among them: [pctl5]
    followed by a [0] reads [pctl50] again. *)
Definition domain_swaps : list (string * string) :=
[("2.6", "4.5"); ("2.6", "8.5");
 ("pctl50", "pctl25"); ("pctl50", "pctl75"); ("pctl50", "pctl95");
 ("DJF", "MAM"); ("DJF", "JJA"); ("DJF", "SON")].

(** The names that are facets, not axes of the array. *)
Definition is_facet (key : string) : bool :=
(String.eqb key "scenario" || String.eqb key "percentile"
 || String.eqb key "season")%bool.

(** What [__init__] derives is kept: a query writes the locator and the
    handle only. *)
Definition same_cache (s s' : state) : Prop :=
x_field (self s') = x_field (self s)
/\ y_field (self s') = y_field (self s)
/\ time_field (self s') = time_field (self s)
/\ _coverage_properties (self s') = _coverage_properties (self s)
/\ axes (self s') = axes (self s)
/\ fields (self s') = fields (self s).

(** The properties as [_get_coverage_properties] reads them off a dataset. *)
Definition describes (props : properties) (locator : string)
    (d : Dataset sample) : Prop :=
exists cx cy ct x0 y0 x1 y1,
  lookup_coord d (x_axis_label props) = Ok cx
  /\ lookup_coord d (y_axis_label props) = Ok cy
  /\ lookup_coord d (time_axis_label props) = Ok ct
  /\ (2 <= List.length (values cx))%nat
  /\ (2 <= List.length (values cy))%nat
  /\ (1 <= List.length (values ct))%nat
  /\ item (values cx) 0 = Ok x0 /\ item_last (values cx) = Ok x1
  /\ item (values cy) 0 = Ok y0 /\ item_last (values cy) = Ok y1
  /\ bbox props = [x0; y0; x1; y1]
  /\ lookup_dim d (x_axis_label props) = Ok (width props)
  /\ lookup_dim d (y_axis_label props) = Ok (height props)
  /\ lookup_dim d (time_axis_label props) = Ok (time props)
  /\ restime props
     = (if Nat.ltb 1 (List.length (values ct))
        then Some {| restime_value := 1;
                     restime_period :=
                       if PyStr.contains "monthly_ens" locator
                       then "month" else "year" |}
        else None)
  /\ prop_axes props
     = [x_axis_label props; y_axis_label props; time_axis_label props]
  /\ prop_fields props = eligible d.

(** A coordinate that the loop of [_get_coverage_properties] takes for the
    role with the unit [unit]. *)
Definition in_degrees (unit : string) (d : Dataset sample) (name : string)
    : Prop :=
exists c, In (name, c) (coords d)
          /\ PyStr.lower name <> "time"
          /\ Dict.get "units" (attrs c) = Some unit.

Definition temporal_exclusive_record : event :=
Log ERROR "datetime and temporal subsetting are exclusive".

(** [subsets] without the entries of the facets, the others in their
    order. *)
Definition axis_entries (subsets : dict (list (pyval pyfloat)))
    : dict (list (pyval pyfloat)) :=
filter (fun entry => negb (is_facet (fst entry))) subsets.

End Vocabulary.

(** * Properties *)

(** ** Strings *)

Lemma prefix_app (p x : string) : String.prefix p (p ++ x) = true.
Proof.
  induction p as [|c p IH]; simpl.
  - destruct x; reflexivity.
  - destruct (ascii_dec c c) as [_|N]; [exact IH | now elim N].
Qed.

Lemma contains_prefix (p s : string) :
  String.prefix p s = true -> PyStr.contains p s = true.
Proof.
  destruct s; simpl; intros E; rewrite E; reflexivity.
Qed.

Lemma contains_cons (p : string) (c : ascii) (s : string) :
  PyStr.contains p s = true -> PyStr.contains p (String c s) = true.
Proof.
  intros E. change (String.prefix p (String c s) || PyStr.contains p s = true)%bool.
  rewrite E. apply orb_true_r.
Qed.

Lemma contains_app_l (p x : string) : PyStr.contains p (p ++ x) = true.
Proof. apply contains_prefix, prefix_app. Qed.

Lemma contains_empty (p : string) :
  PyStr.contains p EmptyString = true -> p = EmptyString.
Proof. destruct p; simpl; [reflexivity | discriminate]. Qed.

(** A pattern that occurs is replaced at least once. *)
Lemma replace_from_contains (old new s : string) :
  old <> EmptyString ->
  PyStr.contains old s = true ->
  PyStr.contains new (PyStr.replace_from old new O s) = true.
Proof.
  intros Hne. induction s as [|c s IH]; intros Hin.
  - apply contains_empty in Hin. contradiction.
  - cbn [PyStr.replace_from].
    destruct (String.prefix old (String c s)) eqn:Hp.
    + apply contains_app_l.
    + apply contains_cons, IH.
      change (String.prefix old (String c s) || PyStr.contains old s = true)%bool
        in Hin.
      rewrite Hp in Hin. exact Hin.
Qed.

Lemma replace_contains (old new s : string) :
  old <> EmptyString ->
  PyStr.contains old s = true ->
  PyStr.contains new (PyStr.replace old new s) = true.
Proof.
  intros Hne Hin. destruct old as [|a old]; [contradiction|].
  apply replace_from_contains; assumption.
Qed.

(** A pattern that does not occur leaves the string as it is. *)
Lemma replace_absent (old new s : string) :
  PyStr.contains old s = false -> PyStr.replace old new s = s.
Proof.
  destruct old as [|a old].
  - intros E. destruct s; simpl in E; discriminate.
  - unfold PyStr.replace. induction s as [|c s IH]; intros E.
    + reflexivity.
    + change (String.prefix (String a old) (String c s)
              || PyStr.contains (String a old) s = false)%bool in E.
      apply orb_false_iff in E. destruct E as [Hp Hc].
      cbn [PyStr.replace_from]. rewrite Hp, (IH Hc). reflexivity.
Qed.

Lemma append_step (p : string) (a : ascii) (q : string) :
  p ++ String a q = (p ++ String a EmptyString) ++ q.
Proof.
  induction p as [|c p IH]; simpl; [reflexivity|]. f_equal. exact IH.
Qed.

(** When no end of [old] can begin at the head of [new] and no occurrence of
    [old] can begin inside [new], nothing of [old] is left after
    [replace]. *)
Section Cleared.
Variables old new : string.
Hypothesis new_heads :
  forall p q, old = p ++ q -> q <> EmptyString ->
  forall x, String.prefix q (new ++ x) = false.
Hypothesis new_inside :
  forall x, PyStr.contains old x = false ->
            PyStr.contains old (new ++ x) = false.
Hypothesis old_not_empty : old <> EmptyString.

Lemma replaced_head (q : string) :
  forall p s, old = p ++ q ->
  String.prefix q s = false ->
  String.prefix q (PyStr.replace_from old new O s) = false.
Proof.
  induction q as [|a q IH]; intros p s Hold Hs.
  - destruct s; discriminate.
  - destruct s as [|c s']; [reflexivity|].
    cbn [PyStr.replace_from].
    destruct (String.prefix old (String c s')).
    + apply (new_heads p (String a q) Hold). discriminate.
    + simpl in Hs |- *. destruct (ascii_dec a c); [|reflexivity].
      refine (IH (p ++ String a EmptyString) s' _ Hs).
      rewrite Hold. apply append_step.
Qed.

Lemma replaced_clear (s : string) :
  forall k, PyStr.contains old (PyStr.replace_from old new k s) = false.
Proof.
  induction s as [|c s' IH]; intros k.
  - simpl. destruct old; [now elim old_not_empty | reflexivity].
  - destruct k as [|k]; [|apply IH].
    cbn [PyStr.replace_from].
    destruct (String.prefix old (String c s')) eqn:Hp.
    + apply new_inside, IH.
    + change (String.prefix old (String c (PyStr.replace_from old new 0 s'))
              || PyStr.contains old (PyStr.replace_from old new 0 s')
              = false)%bool.
      rewrite IH, orb_false_r.
      pose proof (replaced_head old EmptyString (String c s') eq_refl Hp)
        as Hh.
      cbn [PyStr.replace_from] in Hh. rewrite Hp in Hh. exact Hh.
Qed.

End Cleared.

(** The two conditions for a given pair of texts. *)
Ltac clear_of_token :=
  apply replaced_clear;
  [ let p := fresh "p" in
    let q := fresh "q" in
    let E := fresh "E" in
    intros p q E ? ?;
    repeat (destruct p as [|? p]; simpl in E;
            [subst q; reflexivity | injection E as <- E]);
    destruct p; simpl in E; [now subst q | discriminate]
  | let Hx := fresh "Hx" in intros ? Hx; simpl; exact Hx
  | discriminate ].

Lemma domain_swap_clears_token (old new locator : string) :
  In (old, new) domain_swaps ->
  PyStr.contains old (PyStr.replace old new locator) = false.
Proof.
  unfold domain_swaps. simpl.
  intros Hin.
  repeat (destruct Hin as [[= <- <-] | Hin];
          [unfold PyStr.replace; clear_of_token|]).
  contradiction.
Qed.

Lemma zfill_month (k : Z) :
  1 <= k <= 12 -> PyStr.zfill 2 (PyStr.of_Z k) = two_digits k.
Proof.
  intros Hk.
  assert (k = 1 \/ k = 2 \/ k = 3 \/ k = 4 \/ k = 5 \/ k = 6 \/ k = 7
          \/ k = 8 \/ k = 9 \/ k = 10 \/ k = 11 \/ k = 12) as Hcases by lia.
  repeat (destruct Hcases as [-> | Hcases]; [reflexivity|]).
  subst k. reflexivity.
Qed.

Lemma int64_wrap_small (z : Z) :
  - 2 ^ 63 <= z < 2 ^ 63 -> int64_wrap z = z.
Proof.
  intros Hz. unfold int64_wrap.
  rewrite Z.mod_small by lia. lia.
Qed.

(** ** The datetime normalizer *)

Section Datetime.
Context {H : Host}.

(** C7.  Without the marker [monthly_ens] in the locator the normalizer
    returns the year as a string.  With the marker it returns the year, a
    dash and the month in two digits, the month being the months since the
    epoch modulo 12 plus 1, a number from 1 to 12.  When a conversion raises,
    the exception is logged and the caller receives [None]: nothing is
    raised. *)
Theorem to_datetime_string_cases (locator : string) (datetime_ : sample)
    (tr : list event) :
  (PyStr.contains "monthly_ens" locator = false ->
   forall y, astype_Y datetime_ = Some y ->
   _to_datetime_string locator datetime_ tr
   = (Ok (Some (PyStr.of_Z (int64_wrap (y + 1970)))), tr))
  /\ (PyStr.contains "monthly_ens" locator = true ->
      forall m y, astype_M datetime_ = Some m -> astype_Y datetime_ = Some y ->
      1 <= m mod 12 + 1 <= 12
      /\ _to_datetime_string locator datetime_ tr
         = (Ok (Some (PyStr.of_Z (int64_wrap (y + 1970)) ++ "-"
                      ++ two_digits (m mod 12 + 1))), tr))
  /\ (astype_Y datetime_ = None
      \/ (PyStr.contains "monthly_ens" locator = true
          /\ astype_M datetime_ = None) ->
      _to_datetime_string locator datetime_ tr
      = (Ok None, (tr ++ [LogExn ERROR AttributeError])%list)).
Proof.
  unfold _to_datetime_string, try_except, bind, lift, ret, emit.
  split; [|split].
  - intros Hm y Hy. rewrite Hm, Hy. reflexivity.
  - intros Hm m y HM HY.
    assert (1 <= m mod 12 + 1 <= 12) as Hr
      by (pose proof (Z.mod_pos_bound m 12); lia).
    split; [exact Hr|].
    rewrite Hm, HM, HY. cbn iota.
    rewrite (int64_wrap_small (m mod 12 + 1)) by lia.
    rewrite zfill_month by exact Hr. reflexivity.
  - intros [HY | [Hm HM]].
    + destruct (PyStr.contains "monthly_ens" locator).
      * destruct (astype_M datetime_); rewrite ?HY; reflexivity.
      * rewrite HY. reflexivity.
    + rewrite Hm, HM. reflexivity.
Qed.

End Datetime.

Section DatetimeRuns.
#[local] Existing Instance World.host.

Lemma to_datetime_string_cases_witness :
  _to_datetime_string "/data/tas_pctl50.nc" (World.Datetime64 432) []
  = (Ok (Some "2006"), [])
  /\ _to_datetime_string World.rcp26 (World.Datetime64 445) []
     = (Ok (Some "2007-02"), [])
  /\ _to_datetime_string World.rcp26 (World.Cftime 445) []
     = (Ok None, [LogExn ERROR AttributeError]).
Proof.
  split; [|split].
  - exact (proj1 (to_datetime_string_cases (H := World.host)
                    "/data/tas_pctl50.nc" (World.Datetime64 432) [])
                 eq_refl 36 eq_refl).
  - exact (proj2 (proj1 (proj2 (to_datetime_string_cases (H := World.host)
                                  World.rcp26 (World.Datetime64 445) []))
                        eq_refl 445 37 eq_refl eq_refl)).
  - exact (proj2 (proj2 (to_datetime_string_cases (H := World.host)
                           World.rcp26 (World.Cftime 445) []))
                 (or_introl eq_refl)).
Defined.

End DatetimeRuns.

(** ** Dictionaries and the monad *)

Lemma dict_get_in {A} (k : string) (v : A) (d : dict A) :
  Dict.get k d = Some v -> In (k, v) d.
Proof.
  induction d as [|[k' v'] d IH]; simpl; [discriminate|].
  destruct (String.eqb_spec k k') as [->|N].
  - intros [= ->]. now left.
  - intros E. right. exact (IH E).
Qed.

Lemma dict_in_get {A} (k : string) (v : A) (d : dict A) :
  NoDup (Dict.keys d) -> In (k, v) d -> Dict.get k d = Some v.
Proof.
  induction d as [|[k' v'] d IH]; simpl; [contradiction|].
  intros Hnd [E | Hin].
  - injection E as -> ->. now rewrite String.eqb_refl.
  - inversion Hnd as [|? ? Hnotin Hnd']; subst.
    destruct (String.eqb_spec k k') as [->|N].
    + exfalso. apply Hnotin. apply (in_map fst) in Hin. exact Hin.
    + exact (IH Hnd' Hin).
Qed.

Lemma bind_ok {St A B} (m : M St A) (k : A -> M St B) s b s' :
  bind m k s = (Ok b, s') ->
  exists a s1, m s = (Ok a, s1) /\ k a s1 = (Ok b, s').
Proof.
  unfold bind. destruct (m s) as [[a|e] s1]; [|discriminate].
  intros E. now exists a, s1.
Qed.

Lemma lift_ok {St A} (r : res A) (s : St) a s' :
  lift r s = (Ok a, s') -> r = Ok a /\ s' = s.
Proof. unfold lift. intros [= -> ->]. now split. Qed.

Lemma try_ok {St A} (m : M St A) (h : exn -> M St A) s a s' :
  (forall e s1, fst (h e s1) <> Ok a) ->
  try_except m h s = (Ok a, s') -> m s = (Ok a, s').
Proof.
  unfold try_except. intros Hh. destruct (m s) as [[x|e] s1]; [trivial|].
  intros E. exfalso. apply (Hh e s1). now rewrite E.
Qed.

Lemma bind_lift_ok {St A B} (a : A) (k : A -> M St B) (s : St) :
  bind (lift (Ok a)) k s = k a s.
Proof. reflexivity. Qed.

(** Takes the next step off a run that returned. *)
Ltac step_ok E :=
  let a := fresh "a" in
  let s1 := fresh "s" in
  let E1 := fresh "E" in
  apply bind_ok in E; destruct E as (a & s1 & E1 & E).

(** ** Eligible fields *)

Section Fields.
Context {H : Host}.

Lemma eligible_iff (d : Dataset sample) (name : string) :
  In name (eligible d)
  <-> exists v, In (name, v) (variables d) /\ (3 <= List.length (shape v))%nat.
Proof.
  unfold eligible. rewrite in_map_iff. split.
  - intros [[n v] [E Hin]]. simpl in E. subst n.
    apply filter_In in Hin. destruct Hin as [Hin Hr]. simpl in Hr.
    exists v. split; [exact Hin | now apply Nat.leb_le].
  - intros [v [Hin Hr]]. exists (name, v). split; [reflexivity|].
    apply filter_In. split; [exact Hin | now apply Nat.leb_le].
Qed.

Lemma coverage_properties_fields locator handle xf yf tf tr props tr' :
  _get_coverage_properties locator handle xf yf tf tr = (Ok props, tr') ->
  exists d, handle = Some d /\ prop_fields props = eligible d.
Proof.
  unfold _get_coverage_properties. intros E.
  step_ok E. apply lift_ok in E0. destruct E0 as [Hd ->].
  destruct handle as [d|]; [|discriminate]. injection Hd as <-.
  exists d. split; [reflexivity|].
  step_ok E. destruct a as [[time_var y_var] x_var].
  repeat step_ok E.
  match type of E with
  | context [match ?x with _ => _ end] => destruct x as [[the_crs inv] kind]
  end.
  unfold ret in E. injection E as <- _. reflexivity.
Qed.

(** C8.  [fields] holds the names of the variables of rank 3 or more and no
    other: a variable of rank 2 or less is not in it.  The attribute of a
    constructed provider is this list, taken from the dataset that the
    constructor opened. *)
Theorem fields_rank_at_least_three :
  (forall (d : Dataset sample) (name : string),
     In name (eligible d)
     <-> exists v, In (name, v) (variables d)
                   /\ (3 <= List.length (shape v))%nat)
  /\ (forall (d : Dataset sample) (name : string) (v : DataVariable),
        NoDup (Dict.keys (variables d)) ->
        Dict.get name (variables d) = Some v ->
        (List.length (shape v) <= 2)%nat ->
        ~ In name (eligible d))
  /\ (forall pd tr p tr',
        __init__ pd tr = (Ok p, tr') ->
        exists d, _data p = Some d /\ fields p = eligible d).
Proof.
  split; [exact eligible_iff | split].
  - intros d name v Hnd Hget Hr Hin.
    apply eligible_iff in Hin. destruct Hin as [v' [Hin' Hr']].
    apply (dict_in_get _ _ _ Hnd) in Hin'.
    rewrite Hget in Hin'. injection Hin' as <-. lia.
  - intros pd tr p tr' E. unfold __init__ in E.
    apply try_ok in E.
    + step_ok E. step_ok E.
      apply coverage_properties_fields in E1.
      destruct E1 as [d [-> Hf]].
      unfold ret in E. injection E as <- _. simpl. now exists d.
    + intros e s1. unfold bind, emit, raise. simpl. discriminate.
Qed.

End Fields.

Section FieldsRuns.
#[local] Existing Instance World.host.

Lemma fields_rank_at_least_three_witness :
  ~ In "mask" (eligible (World.grid "rcp26 pctl50 DJF"))
  /\ exists d, _data World.fresh = Some d /\ fields World.fresh = eligible d.
Proof.
  destruct (fields_rank_at_least_three (H := World.host)) as (_ & Hlow & Hnew).
  split.
  - apply (Hlow (World.grid "rcp26 pctl50 DJF") "mask"
                {| shape := [3%nat; 3%nat]; var_attrs := [] |}).
    + simpl. repeat constructor; simpl; intuition discriminate.
    + reflexivity.
    + simpl. lia.
  - apply (Hnew World.definition [] World.fresh
                [OpenCall World.rcp26]).
    vm_compute. reflexivity.
Defined.

End FieldsRuns.

(** ** What a run does to the state *)

Section OpenData.
Context {H : Host}.

Lemma open_data_run (locator : string) (t : list event) :
  exists new,
    open_data locator t = (Ok (resolve locator), (t ++ new)%list)
    /\ open_events locator new.
Proof.
  unfold resolve, open_events, open_data, try_except, bind, lift, ret, emit.
  simpl.
  destruct (open_mfdataset locator) as [d|e]; simpl.
  - destruct (_convert_float32_to_float64 d) as [d'|e]; simpl.
    + exists [OpenCall locator]. split; [reflexivity | now left].
    + exists [OpenCall locator; LogExn ERROR e].
      rewrite <- app_assoc. split; [reflexivity | right; now exists e].
  - exists [OpenCall locator; LogExn ERROR e].
    rewrite <- app_assoc. split; [reflexivity | right; now exists e].
Qed.

(** [self.data = ...replace(old, new)] and then
    [self._data = open_data(self.data)]. *)
Lemma swap_run (old new : string) (s : state) :
  exists events,
    (substitute old new ;; reopen) s
    = (Ok tt, relocated s (PyStr.replace old new (data (self s))) events)
    /\ open_events (PyStr.replace old new (data (self s))) events.
Proof.
  destruct (open_data_run (PyStr.replace old new (data (self s))) (trace s))
    as [events [E Hev]].
  exists events. split; [|exact Hev].
  unfold bind, substitute, reopen, bind, get_self, on_trace. simpl.
  rewrite E. reflexivity.
Qed.

End OpenData.

Section Walk.
Context {H : Host}.
Variable R : state -> state -> Prop.
Variable Q : event -> Prop.
Hypothesis R_refl : forall s, R s s.
Hypothesis R_trans : forall a b c, R a b -> R b c -> R a c.
Hypothesis R_event : forall s e, Q e -> R s (add_event s e).

Lemma respects_ret {A} (a : A) : respects R (ret a).
Proof. intros s. apply R_refl. Qed.

Lemma respects_raise {A} (e : exn) : respects R (@raise state A e).
Proof. intros s. apply R_refl. Qed.

Lemma respects_lift {A} (r : res A) : respects R (lift r).
Proof. intros s. apply R_refl. Qed.

Lemma respects_get_self : respects R get_self.
Proof. intros s. apply R_refl. Qed.

Lemma respects_bind {A B} (m : M state A) (k : A -> M state B) :
  respects R m -> (forall a, respects R (k a)) -> respects R (bind m k).
Proof.
  intros Hm Hk s. unfold bind. specialize (Hm s).
  destruct (m s) as [[a|e] s1]; simpl in *.
  - apply (R_trans _ _ _ Hm), Hk.
  - exact Hm.
Qed.

Lemma respects_try {A} (m : M state A) (h : exn -> M state A) :
  respects R m -> (forall e, respects R (h e)) -> respects R (try_except m h).
Proof.
  intros Hm Hh s. unfold try_except. specialize (Hm s).
  destruct (m s) as [[a|e] s1]; simpl in *.
  - exact Hm.
  - apply (R_trans _ _ _ Hm), Hh.
Qed.

Lemma respects_emit (e : event) :
  Q e ->
  respects R (emit trace (fun s t => {| self := self s; trace := t |}) e).
Proof. intros He s. apply (R_event s e He). Qed.

Lemma respects_log (l : level) (msg : string) :
  Q (Log l msg) -> respects R (log l msg).
Proof. apply respects_emit. Qed.

Lemma respects_log_exn (l : level) (e : exn) :
  Q (LogExn l e) -> respects R (log_exn l e).
Proof. apply respects_emit. Qed.

Lemma R_events (new : list event) :
  Forall Q new ->
  forall s, R s {| self := self s; trace := (trace s ++ new)%list |}.
Proof.
  induction 1 as [|e new He _ IH]; intros s.
  - rewrite app_nil_r. destruct s. apply R_refl.
  - apply (R_trans _ _ _ (R_event s e He)).
    specialize (IH (add_event s e)). simpl in IH.
    rewrite <- app_assoc in IH. exact IH.
Qed.

Lemma respects_on_trace {A} (m : M (list event) A) :
  appends Q m -> respects R (on_trace m).
Proof.
  intros Hm s. unfold on_trace. destruct (Hm (trace s)) as [new [E Hq]].
  destruct (m (trace s)) as [r t]. simpl in *. subst t.
  apply R_events, Hq.
Qed.

Lemma to_datetime_string_appends (locator : string) (datetime_ : sample) :
  (forall e, Q (LogExn ERROR e)) ->
  appends Q (_to_datetime_string locator datetime_).
Proof.
  intros Hq t.
  unfold _to_datetime_string, try_except, bind, lift, ret, emit.
  destruct (PyStr.contains "monthly_ens" locator);
    destruct (astype_M datetime_); destruct (astype_Y datetime_); simpl;
    solve [ exists []; rewrite app_nil_r; split; [reflexivity | constructor]
          | eexists [_]; split; [reflexivity | repeat constructor; apply Hq] ].
Qed.

Hypothesis R_swap :
  forall s locator new, open_events locator new -> R s (relocated s locator new).
Hypothesis Q_log : forall l msg, Log l msg <> fast_path_record -> Q (Log l msg).
Hypothesis Q_exn : forall l e, Q (LogExn l e).
Hypothesis Q_params : forall q, Q (LogParams q).
Hypothesis Q_loc : forall q, Q (LocCall q).

Lemma respects_swap (old new : string) :
  respects R (substitute old new ;; reopen).
Proof.
  intros s. destruct (swap_run old new s) as [events [E Hev]].
  rewrite E. simpl. apply R_swap, Hev.
Qed.

(** Goes through a computation step by step. *)
Ltac walk :=
  repeat first
    [ apply respects_ret
    | apply respects_raise
    | apply respects_lift
    | apply respects_get_self
    | apply respects_log; apply Q_log; discriminate
    | apply respects_log_exn; apply Q_exn
    | apply respects_emit; solve [apply Q_params | apply Q_loc]
    | apply respects_on_trace; apply to_datetime_string_appends;
      intros; apply Q_exn
    | apply respects_swap
    | apply respects_bind; [ | intros ? ]
    | apply respects_try; [ | intros ? ]
    | match goal with
      | |- respects _ (match ?x with _ => _ end) => destruct x
      end ].

Lemma scenario_block_respects subsets : respects R (scenario_block subsets).
Proof. unfold scenario_block, as_query_error. walk. Qed.

Lemma percentile_block_respects subsets :
  respects R (percentile_block subsets).
Proof. unfold percentile_block, as_query_error. walk. Qed.

Lemma season_block_respects subsets : respects R (season_block subsets).
Proof. unfold season_block, as_query_error. walk. Qed.

Lemma facet_pass_respects subsets : respects R (facet_pass subsets).
Proof.
  unfold facet_pass.
  apply respects_bind; [apply scenario_block_respects | intros ?].
  apply respects_bind; [apply percentile_block_respects | intros ?].
  apply season_block_respects.
Qed.

Lemma orient_respects d items query_params :
  respects R (orient d items query_params).
Proof.
  revert query_params.
  induction items as [|[key val] rest IH]; intros query_params; simpl.
  - walk.
  - do 4 (apply respects_bind; [walk | intros ?]). apply IH.
Qed.

Lemma bbox_step_respects p subsets bbox_ query_params :
  respects R (bbox_step p subsets bbox_ query_params).
Proof. unfold bbox_step. walk. Qed.

Lemma datetime_step_respects p subsets datetime_ query_params :
  respects R (datetime_step p subsets datetime_ query_params).
Proof. unfold datetime_step. walk. Qed.

Lemma build_query_params_respects p d subsets bbox_ datetime_ :
  respects R (build_query_params p d subsets bbox_ datetime_).
Proof.
  unfold build_query_params.
  apply respects_bind; [apply orient_respects | intros ?].
  apply respects_bind; [apply bbox_step_respects | intros ?].
  apply datetime_step_respects.
Qed.

Lemma subset_data_respects p d subsets bbox_ datetime_ :
  respects R (subset_data p d subsets bbox_ datetime_).
Proof.
  unfold subset_data.
  destruct (wants_subset p subsets bbox_ datetime_); [|walk].
  apply respects_bind; [walk | intros ?].
  apply respects_bind; [apply build_query_params_respects | intros ?].
  walk.
Qed.

Lemma slow_path_respects range_subset subsets bbox_ datetime_ format_ :
  respects R (slow_path range_subset subsets bbox_ datetime_ format_).
Proof.
  unfold slow_path.
  apply respects_bind; [walk | intros p].
  apply respects_bind; [walk | intros d].
  apply respects_bind; [apply subset_data_respects | intros d'].
  unfold respond, check_not_empty, make_out_meta. walk.
Qed.

End Walk.

Section Policies.
Context {H : Host}.

Lemma extends_refl (P : event -> Prop) (s : state) : extends P s s.
Proof.
  exists []. split; [unfold added; now rewrite app_nil_r | constructor].
Qed.

Lemma extends_trans (P : event -> Prop) (a b c : state) :
  extends P a b -> extends P b c -> extends P a c.
Proof.
  intros [n1 [E1 F1]] [n2 [E2 F2]]. exists (n1 ++ n2)%list.
  unfold added in *. split.
  - rewrite E2, E1. now rewrite app_assoc.
  - apply Forall_app. now split.
Qed.

Lemma extends_event (P : event -> Prop) (s : state) (e : event) :
  P e -> extends P s (add_event s e).
Proof. intros He. exists [e]. split; [reflexivity | now constructor]. Qed.

Lemma extends_swap (P : event -> Prop) :
  (forall l, P (OpenCall l)) -> (forall e, P (LogExn ERROR e)) ->
  forall s locator new,
    open_events locator new -> extends P s (relocated s locator new).
Proof.
  intros Ho He s locator new Hev. exists new. split; [reflexivity|].
  destruct Hev as [-> | [e ->]]; repeat constructor; auto.
Qed.

Lemma extends_mono (P P' : event -> Prop) (s s' : state) :
  (forall e, P e -> P' e) -> extends P s s' -> extends P' s s'.
Proof.
  intros Himp [new [E F]]. exists new. split; [exact E|].
  eapply Forall_impl; eauto.
Qed.

Lemma same_self_refl (s : state) : same_self s s.
Proof. reflexivity. Qed.

Lemma same_self_trans (a b c : state) :
  same_self a b -> same_self b c -> same_self a c.
Proof. unfold same_self. congruence. Qed.

Lemma same_self_event (s : state) (e : event) :
  any_event e -> same_self s (add_event s e).
Proof. reflexivity. Qed.

Lemma same_fields_refl (s : state) : same_fields s s.
Proof. repeat split. Qed.

Lemma same_fields_trans (a b c : state) :
  same_fields a b -> same_fields b c -> same_fields a c.
Proof. unfold same_fields. intuition congruence. Qed.

Lemma same_fields_event (s : state) (e : event) :
  any_event e -> same_fields s (add_event s e).
Proof. repeat split. Qed.

Lemma same_fields_swap (s : state) locator new :
  open_events locator new -> same_fields s (relocated s locator new).
Proof. repeat split. Qed.

Lemma keeps_consistent_refl (s : state) : keeps_consistent s s.
Proof. intros Hc. exact Hc. Qed.

Lemma keeps_consistent_trans (a b c : state) :
  keeps_consistent a b -> keeps_consistent b c -> keeps_consistent a c.
Proof. unfold keeps_consistent. auto. Qed.

Lemma keeps_consistent_event (s : state) (e : event) :
  any_event e -> keeps_consistent s (add_event s e).
Proof. intros _ Hc. exact Hc. Qed.

Lemma keeps_consistent_swap (s : state) locator new :
  open_events locator new -> keeps_consistent s (relocated s locator new).
Proof. intros _ _. reflexivity. Qed.

Lemma same_self_consistent (s s' : state) :
  same_self s s' -> keeps_consistent s s'.
Proof. unfold same_self, keeps_consistent. intros ->. auto. Qed.

Lemma any_log l msg : Log l msg <> fast_path_record -> any_event (Log l msg).
Proof. intros _. exact I. Qed.

Lemma any_exn l e : any_event (LogExn l e).
Proof. exact I. Qed.

Lemma any_params q : any_event (LogParams q).
Proof. exact I. Qed.

Lemma any_loc q : any_event (LocCall q).
Proof. exact I. Qed.

Lemma respects_weaken {A} (R R' : state -> state -> Prop) (m : M state A) :
  (forall s s', R s s' -> R' s s') -> respects R m -> respects R' m.
Proof. intros Himp Hm s. apply Himp, Hm. Qed.

(** The part after the facets leaves the provider as it is. *)
Lemma after_facets_same_self range_subset subsets bbox_ datetime_ format_ :
  respects same_self
    (after_facets range_subset subsets bbox_ datetime_ format_).
Proof.
  unfold after_facets.
  destruct (fast_path range_subset subsets format_).
  - intros s. unfold bind, log, emit, get_self, ret. simpl.
    destruct (String.eqb format_ "zarr"); reflexivity.
  - apply (slow_path_respects same_self any_event same_self_refl
             same_self_trans same_self_event any_log any_exn any_params
             any_loc).
Qed.

(** It opens no dataset. *)
Lemma after_facets_no_open range_subset subsets bbox_ datetime_ format_ :
  respects (extends not_open_call)
    (after_facets range_subset subsets bbox_ datetime_ format_).
Proof.
  unfold after_facets.
  destruct (fast_path range_subset subsets format_).
  - intros s. unfold bind, log, emit, get_self, ret. simpl.
    destruct (String.eqb format_ "zarr"); simpl;
      (eexists [_]; split; [reflexivity | repeat constructor; intros []]).
  - apply (slow_path_respects (extends not_open_call) not_open_call
             (extends_refl _) (extends_trans _) (extends_event _));
      intros; intros [].
Qed.

(** The facet blocks never call [data.loc]. *)
Lemma facet_pass_no_loc subsets :
  respects (extends not_loc_call) (facet_pass subsets).
Proof.
  apply (facet_pass_respects (extends not_loc_call) not_loc_call
           (extends_refl _) (extends_trans _) (extends_event _)).
  - apply extends_swap; intros; intros [].
  - intros; intros [].
  - intros; intros [].
Qed.

Lemma facet_pass_not_fast subsets :
  respects (extends not_fast_path_record) (facet_pass subsets).
Proof.
  apply (facet_pass_respects (extends not_fast_path_record)
           not_fast_path_record
           (extends_refl _) (extends_trans _) (extends_event _)).
  - apply extends_swap; intros; discriminate.
  - intros l msg Hne. exact Hne.
  - intros; discriminate.
Qed.

Lemma slow_path_not_fast range_subset subsets bbox_ datetime_ format_ :
  respects (extends not_fast_path_record)
    (slow_path range_subset subsets bbox_ datetime_ format_).
Proof.
  apply (slow_path_respects (extends not_fast_path_record)
           not_fast_path_record
           (extends_refl _) (extends_trans _) (extends_event _)).
  - intros l msg Hne. exact Hne.
  - intros; discriminate.
  - intros; discriminate.
  - intros; discriminate.
Qed.

Lemma facet_pass_same_fields subsets :
  respects same_fields (facet_pass subsets).
Proof.
  apply (facet_pass_respects same_fields any_event same_fields_refl
           same_fields_trans same_fields_event same_fields_swap
           any_log any_exn).
Qed.

Lemma facet_pass_consistent subsets :
  respects keeps_consistent (facet_pass subsets).
Proof.
  apply (facet_pass_respects keeps_consistent any_event
           keeps_consistent_refl keeps_consistent_trans
           keeps_consistent_event keeps_consistent_swap any_log any_exn).
Qed.

Lemma query_consistent range_subset subsets bbox_ datetime_ format_ :
  respects keeps_consistent
    (query range_subset subsets bbox_ datetime_ format_).
Proof.
  unfold query, query_body.
  apply (respects_bind keeps_consistent keeps_consistent_trans).
  - apply facet_pass_consistent.
  - intros subsets'.
    apply (respects_weaken same_self); [apply same_self_consistent|].
    apply after_facets_same_self.
Qed.

End Policies.

(** ** The default variable list and the fast path *)

Section Defaults.
Context {H : Host}.

Lemma not_in_extension (P : event -> Prop) (s s' : state) (e : event)
    (new : list event) :
  extends P s s' -> added (trace s) (trace s') new -> ~ P e -> ~ In e new.
Proof.
  intros [new' [E F]] E' Hn Hin. unfold added in *.
  rewrite E in E'. apply app_inv_head in E'. subst new'.
  rewrite Forall_forall in F. exact (Hn (F e Hin)).
Qed.

(** C10.  A call without [range_subset] is the call with [['tas']].  The
    record that the fast path logs appears in a query only when the caller
    passed the empty list, and passing it with no subsets and a format other
    than json does take the fast path. *)
Theorem range_subset_defaults_to_tas :
  (forall subsets bbox_ datetime_ format_ s,
     query None subsets bbox_ datetime_ format_ s
     = query (Some ["tas"]) subsets bbox_ datetime_ format_ s)
  /\ (forall range_subset subsets bbox_ datetime_ format_ s new,
        added (trace s)
              (trace (snd (query range_subset subsets bbox_ datetime_
                                 format_ s)))
              new ->
        In fast_path_record new ->
        range_subset = Some [])
  /\ (forall bbox_ datetime_ format_ s,
        format_ <> "json" ->
        query (Some []) None bbox_ datetime_ (Some format_) s
        = (Ok (if String.eqb format_ "zarr"
               then _get_zarr_data (_data (self s))
               else read_data (data (self s))),
           add_event s fast_path_record)).
Proof.
  split; [reflexivity | split].
  - intros range_subset subsets bbox_ datetime_ format_ s new Hadd Hin.
    unfold query, query_body, bind in Hadd.
    pose proof (facet_pass_not_fast (or_default [] subsets) s) as Hf.
    destruct (facet_pass (or_default [] subsets) s) as [[subsets'|e] s1].
    + simpl in Hf. unfold after_facets in Hadd.
      destruct (fast_path (or_default ["tas"] range_subset) subsets'
                          (or_default "json" format_)) eqn:Hfast.
      * unfold fast_path in Hfast.
        apply andb_true_iff in Hfast. destruct Hfast as [Hfast _].
        apply andb_true_iff in Hfast. destruct Hfast as [Hrs _].
        destruct range_subset as [[|x l]|]; simpl in Hrs;
          [reflexivity | discriminate | discriminate].
      * exfalso.
        pose proof (slow_path_not_fast (or_default ["tas"] range_subset)
                      subsets' (or_default [] bbox_) datetime_
                      (or_default "json" format_) s1) as Hs.
        pose proof (extends_trans _ _ _ _ Hf Hs) as Hall.
        refine (not_in_extension _ _ _ fast_path_record new Hall Hadd _ Hin).
        intros Hne. now apply Hne.
    + exfalso. simpl in Hf, Hadd.
      refine (not_in_extension _ _ _ fast_path_record new Hf Hadd _ Hin).
      intros Hne. now apply Hne.
  - intros bbox_ datetime_ format_ s Hfmt.
    apply String.eqb_neq in Hfmt.
    unfold query, query_body, facet_pass, scenario_block, percentile_block,
      season_block, after_facets, fast_path, bind, ret, log, emit, get_self.
    simpl. rewrite Hfmt. simpl.
    destruct (String.eqb format_ "zarr"); reflexivity.
Qed.

End Defaults.

Section DefaultsRuns.
#[local] Existing Instance World.host.

Lemma range_subset_defaults_to_tas_witness :
  query (Some []) None None None (Some "zarr") World.start
  = (Ok (_get_zarr_data (_data World.fresh)),
     add_event World.start fast_path_record)
  /\ Some (@nil string) = Some [].
Proof.
  destruct (range_subset_defaults_to_tas (H := World.host))
    as (_ & Honly & Htakes).
  split.
  - apply (Htakes None None "zarr" World.start). discriminate.
  - apply (Honly (Some []) None None None (Some "zarr") World.start
                 [fast_path_record]).
    + vm_compute. reflexivity.
    + now left.
Defined.

End DefaultsRuns.

(** ** The facet blocks *)

Lemma get_pop_other {A} (k k' : string) (d : dict A) :
  k <> k' -> Dict.get k (Dict.pop k' d) = Dict.get k d.
Proof.
  intros Hne. induction d as [|[k0 v0] d IH]; simpl; [reflexivity|].
  destruct (String.eqb_spec k' k0) as [->|N]; simpl.
  - destruct (String.eqb_spec k k0) as [->|_]; [contradiction | reflexivity].
  - now rewrite IH.
Qed.

Lemma pop_absent {A} (k : string) (d : dict A) :
  Dict.get k d = None -> Dict.pop k d = d.
Proof.
  induction d as [|[k0 v0] d IH]; simpl; [reflexivity|].
  destruct (String.eqb k k0); [discriminate|].
  intros E. now rewrite IH.
Qed.

Lemma mem_pop_other {A} (k k' : string) (d : dict A) :
  k <> k' -> Dict.mem k (Dict.pop k' d) = Dict.mem k d.
Proof. intros Hne. unfold Dict.mem. now rewrite get_pop_other. Qed.

Section Facets.
Context {H : Host}.

Local Abbreviation value := (pyval pyfloat).

Lemma scenario_block_absent (subsets : dict (list value)) (s : state) :
  Dict.get "scenario" subsets = None ->
  scenario_block subsets s = (Ok subsets, s).
Proof. unfold scenario_block. now intros ->. Qed.

Lemma percentile_block_absent (subsets : dict (list value)) (s : state) :
  Dict.get "percentile" subsets = None ->
  percentile_block subsets s = (Ok subsets, s).
Proof. unfold percentile_block. now intros ->. Qed.

Lemma season_block_absent (subsets : dict (list value)) (s : state) :
  Dict.get "season" subsets = None ->
  season_block subsets s = (Ok subsets, s).
Proof. unfold season_block. now intros ->. Qed.

(** A guarded block followed by the [pop]: it returns the popped dictionary
    or raises a query error. *)
Lemma guarded_run (m : M state unit) (out : dict (list value)) (s : state) :
  (exists s', m s = (Ok tt, s')
              /\ (try_except m as_query_error ;; ret out) s = (Ok out, s'))
  \/ (exists e s', m s = (Raise e, s')
                   /\ (try_except m as_query_error ;; ret out) s
                      = (Raise ProviderQueryError,
                         add_event s' (LogExn ERROR e))).
Proof.
  unfold bind, try_except, as_query_error, bind, log_exn, emit, raise, ret.
  destruct (m s) as [[[]|e] s'].
  - left. now exists s'.
  - right. now exists e, s'.
Qed.

Lemma scenario_block_result (subsets : dict (list value)) (s : state) :
  match scenario_block subsets s with
  | (Ok subsets', _) => subsets' = Dict.pop "scenario" subsets
  | (Raise e, _) => e = ProviderQueryError
  end.
Proof.
  unfold scenario_block.
  destruct (Dict.get "scenario" subsets) as [scenario|] eqn:Hget.
  - match goal with
    | |- context [bind (try_except ?m _) _] =>
        destruct (guarded_run m (Dict.pop "scenario" subsets) s)
          as [(s' & _ & ->) | (e & s' & _ & ->)]; reflexivity
    end.
  - unfold ret. symmetry. now apply pop_absent.
Qed.

Lemma percentile_block_result (subsets : dict (list value)) (s : state) :
  match percentile_block subsets s with
  | (Ok subsets', _) => subsets' = Dict.pop "percentile" subsets
  | (Raise e, _) => e = ProviderQueryError
  end.
Proof.
  unfold percentile_block.
  destruct (Dict.get "percentile" subsets) as [percentile|] eqn:Hget.
  - match goal with
    | |- context [bind (try_except ?m _) _] =>
        destruct (guarded_run m (Dict.pop "percentile" subsets) s)
          as [(s' & _ & ->) | (e & s' & _ & ->)]; reflexivity
    end.
  - unfold ret. symmetry. now apply pop_absent.
Qed.

Lemma season_block_result (subsets : dict (list value)) (s : state) :
  match season_block subsets s with
  | (Ok subsets', _) => subsets' = Dict.pop "season" subsets
  | (Raise e, _) => e = ProviderQueryError
  end.
Proof.
  unfold season_block.
  destruct (Dict.get "season" subsets) as [seasonal|] eqn:Hget.
  - match goal with
    | |- context [bind (try_except ?m _) _] =>
        destruct (guarded_run m (Dict.pop "season" subsets) s)
          as [(s' & _ & ->) | (e & s' & _ & ->)]; reflexivity
    end.
  - unfold ret. symmetry. now apply pop_absent.
Qed.

(** Whatever goes wrong in the facet blocks reaches the caller as a query
    error; when nothing does, the facet keys are gone from [subsets]. *)
Lemma facet_pass_result (subsets : dict (list value)) (s : state) :
  match facet_pass subsets s with
  | (Ok subsets', _) =>
      subsets' = Dict.pop "season"
                   (Dict.pop "percentile" (Dict.pop "scenario" subsets))
  | (Raise e, _) => e = ProviderQueryError
  end.
Proof.
  unfold facet_pass, bind.
  pose proof (scenario_block_result subsets s) as H1.
  destruct (scenario_block subsets s) as [[s1|e] st1]; [subst s1 | exact H1].
  pose proof (percentile_block_result (Dict.pop "scenario" subsets) st1) as H2.
  destruct (percentile_block (Dict.pop "scenario" subsets) st1)
    as [[s2|e] st2]; [subst s2 | exact H2].
  apply season_block_result.
Qed.

Lemma facet_pass_scenario_only (subsets : dict (list value)) (s : state) :
  Dict.get "percentile" subsets = None ->
  Dict.get "season" subsets = None ->
  facet_pass subsets s = scenario_block subsets s.
Proof.
  intros Hp Hs. unfold facet_pass, bind.
  pose proof (scenario_block_result subsets s) as H1.
  destruct (scenario_block subsets s) as [[s1|e] st1]; [subst s1 | reflexivity].
  rewrite percentile_block_absent
    by (rewrite get_pop_other by discriminate; exact Hp).
  apply season_block_absent.
  rewrite get_pop_other by discriminate. exact Hs.
Qed.

Lemma facet_pass_percentile_only (subsets : dict (list value)) (s : state) :
  Dict.get "scenario" subsets = None ->
  Dict.get "season" subsets = None ->
  facet_pass subsets s = percentile_block subsets s.
Proof.
  intros Hc Hs. unfold facet_pass, bind.
  rewrite scenario_block_absent by exact Hc.
  pose proof (percentile_block_result subsets s) as H1.
  destruct (percentile_block subsets s) as [[s1|e] st1];
    [subst s1 | reflexivity].
  apply season_block_absent.
  rewrite get_pop_other by discriminate. exact Hs.
Qed.

Lemma facet_pass_season_only (subsets : dict (list value)) (s : state) :
  Dict.get "scenario" subsets = None ->
  Dict.get "percentile" subsets = None ->
  facet_pass subsets s = season_block subsets s.
Proof.
  intros Hc Hp. unfold facet_pass, bind.
  rewrite scenario_block_absent by exact Hc.
  rewrite percentile_block_absent by exact Hp.
  reflexivity.
Qed.

End Facets.

Section FacetRuns.
Context {H : Host}.

Local Abbreviation value := (pyval pyfloat).

(** A scenario other than the two that stand for the default: the token
    [2.6] is replaced and the dataset is opened again. *)
Lemma scenario_block_swap (subsets : dict (list value)) (v : string)
    (s : state) :
  Dict.get "scenario" subsets = Some [PyStr v] ->
  v <> "RCP2.6" -> v <> "hist" ->
  exists events,
    scenario_block subsets s
    = (Ok (Dict.pop "scenario" subsets),
       relocated s (PyStr.replace "2.6" (PyStr.replace "RCP" "" v)
                                  (data (self s))) events)
    /\ open_events (PyStr.replace "2.6" (PyStr.replace "RCP" "" v)
                                  (data (self s))) events.
Proof.
  intros Hget H26 Hhist.
  destruct (swap_run "2.6" (PyStr.replace "RCP" "" v) s) as [events [E Hev]].
  exists events. split; [|exact Hev].
  apply String.eqb_neq in H26, Hhist.
  unfold scenario_block. rewrite Hget.
  unfold bind at 1. unfold try_except.
  cbn [List.length Nat.ltb Nat.leb item nth_error].
  rewrite bind_lift_ok. cbn [eq_str]. rewrite H26, Hhist. cbn [orb].
  cbn [method_replace]. rewrite bind_lift_ok, E. reflexivity.
Qed.

Lemma scenario_block_default (subsets : dict (list value)) (v : string)
    (s : state) :
  Dict.get "scenario" subsets = Some [PyStr v] ->
  v = "RCP2.6" \/ v = "hist" ->
  scenario_block subsets s = (Ok (Dict.pop "scenario" subsets), s).
Proof.
  intros Hget Hv. unfold scenario_block. rewrite Hget.
  destruct Hv as [-> | ->]; reflexivity.
Qed.

(** A percentile list other than [[50]]: the token [pctl50] is replaced by
    the first entry and the dataset is opened again. *)
Lemma percentile_block_swap (subsets : dict (list value)) (v : value)
    (more : list value) (s : state) :
  Dict.get "percentile" subsets = Some (v :: more) ->
  more <> [] \/ eq_int v 50 = false ->
  exists events,
    percentile_block subsets s
    = (Ok (Dict.pop "percentile" subsets),
       relocated s (PyStr.replace "pctl50" ("pctl" ++ py_str v)
                                  (data (self s))) events)
    /\ open_events (PyStr.replace "pctl50" ("pctl" ++ py_str v)
                                  (data (self s))) events.
Proof.
  intros Hget Hne.
  destruct (swap_run "pctl50" ("pctl" ++ py_str v) s) as [events [E Hev]].
  exists events. split; [|exact Hev].
  unfold percentile_block. rewrite Hget.
  assert (match v :: more with [v0] => eq_int v0 50 | _ => false end = false)
    as Hcond.
  { destruct more as [|w more]; [|reflexivity].
    destruct Hne as [Hne | Hne]; [now elim Hne | exact Hne]. }
  rewrite Hcond.
  unfold bind at 1. unfold try_except.
  cbn [item nth_error]. rewrite bind_lift_ok, E. reflexivity.
Qed.

Lemma percentile_block_default (subsets : dict (list value)) (v : value)
    (s : state) :
  Dict.get "percentile" subsets = Some [v] ->
  eq_int v 50 = true ->
  percentile_block subsets s = (Ok (Dict.pop "percentile" subsets), s).
Proof.
  intros Hget Hv. unfold percentile_block. rewrite Hget, Hv. reflexivity.
Qed.

(** One season other than [DJF]. *)
Lemma season_block_swap (subsets : dict (list value)) (v : value)
    (s : state) :
  Dict.get "season" subsets = Some [v] ->
  eq_str v "DJF" = false ->
  exists events,
    season_block subsets s
    = (Ok (Dict.pop "season" subsets),
       relocated s (PyStr.replace "DJF" (py_str v) (data (self s))) events)
    /\ open_events (PyStr.replace "DJF" (py_str v) (data (self s))) events.
Proof.
  intros Hget Hne.
  destruct (swap_run "DJF" (py_str v) s) as [events [E Hev]].
  exists events. split; [|exact Hev].
  unfold season_block. rewrite Hget.
  cbn [List.length Nat.ltb Nat.leb]. rewrite Hne.
  unfold bind at 1. unfold try_except.
  cbn [item nth_error]. rewrite bind_lift_ok, E. reflexivity.
Qed.

Lemma season_block_default (subsets : dict (list value)) (v : value)
    (s : state) :
  Dict.get "season" subsets = Some [v] ->
  eq_str v "DJF" = true ->
  season_block subsets s = (Ok (Dict.pop "season" subsets), s).
Proof.
  intros Hget Hv. unfold season_block. rewrite Hget.
  cbn [List.length Nat.ltb Nat.leb]. rewrite Hv. reflexivity.
Qed.

(** More than one scenario or season: the block raises before it touches
    the provider. *)
Lemma scenario_block_multiple (subsets : dict (list value))
    (scenario : list value) (s : state) :
  Dict.get "scenario" subsets = Some scenario ->
  (1 < List.length scenario)%nat ->
  scenario_block subsets s
  = (Raise ProviderQueryError,
     {| self := self s;
        trace := (trace s
                  ++ [Log ERROR "multiple scenario are not supported";
                      LogExn ERROR ProviderQueryError])%list |}).
Proof.
  intros Hget Hlen. apply Nat.ltb_lt in Hlen.
  unfold scenario_block. rewrite Hget, Hlen.
  unfold bind, try_except, as_query_error, bind, log, log_exn, emit, raise.
  simpl. now rewrite <- app_assoc.
Qed.

Lemma season_block_multiple (subsets : dict (list value))
    (seasonal : list value) (s : state) :
  Dict.get "season" subsets = Some seasonal ->
  (1 < List.length seasonal)%nat ->
  season_block subsets s
  = (Raise ProviderQueryError,
     {| self := self s;
        trace := (trace s
                  ++ [Log ERROR "multiple seasons are not supported";
                      LogExn ERROR ProviderQueryError])%list |}).
Proof.
  intros Hget Hlen. apply Nat.ltb_lt in Hlen.
  unfold season_block. rewrite Hget, Hlen.
  unfold bind, try_except, as_query_error, bind, log, log_exn, emit, raise.
  simpl. now rewrite <- app_assoc.
Qed.

End FacetRuns.

(** ** Selecting a facet *)

Section Selection.
Context {H : Host}.

Local Abbreviation value := (pyval pyfloat).

(** A query whose facet pass selected the dataset at [locator]. *)
Lemma query_after_swap range_subset (subsets subsets' : dict (list value))
    bbox_ datetime_ format_ (s : state) (locator : string)
    (events : list event) :
  facet_pass subsets s = (Ok subsets', relocated s locator events) ->
  open_events locator events ->
  let s' := snd (query_body range_subset subsets bbox_ datetime_ format_ s) in
  self s' = with_handle (with_data (self s) locator) (resolve locator)
  /\ exists new, added (trace s) (trace s') new /\ In (OpenCall locator) new.
Proof.
  intros Hf Hev. unfold query_body, bind. rewrite Hf.
  pose proof (after_facets_same_self range_subset subsets' bbox_ datetime_
                format_ (relocated s locator events)) as Hs.
  pose proof (after_facets_no_open range_subset subsets' bbox_ datetime_
                format_ (relocated s locator events)) as [more [Hm _]].
  cbv zeta. split; [exact Hs|].
  exists (events ++ more)%list. split.
  - unfold added in *. rewrite Hm. simpl. now rewrite app_assoc.
  - apply in_or_app. left.
    destruct Hev as [-> | [e ->]]; now left.
Qed.

(** A query whose facet pass changed nothing. *)
Lemma query_after_noop range_subset (subsets subsets' : dict (list value))
    bbox_ datetime_ format_ (s : state) :
  facet_pass subsets s = (Ok subsets', s) ->
  let s' := snd (query_body range_subset subsets bbox_ datetime_ format_ s) in
  self s' = self s /\ extends not_open_call s s'.
Proof.
  intros Hf. unfold query_body, bind. rewrite Hf. cbv zeta. split.
  - apply after_facets_same_self.
  - apply after_facets_no_open.
Qed.

Lemma query_swap_outcome range_subset (subsets subsets' : dict (list value))
    bbox_ datetime_ format_ (s : state) (old new : string)
    (events : list event) :
  facet_pass subsets s
  = (Ok subsets', relocated s (PyStr.replace old new (data (self s))) events) ->
  open_events (PyStr.replace old new (data (self s))) events ->
  old <> EmptyString ->
  PyStr.contains old (data (self s)) = true ->
  let s' := snd (query range_subset (Some subsets) bbox_ datetime_ format_ s) in
  data (self s') = PyStr.replace old new (data (self s))
  /\ PyStr.contains new (data (self s')) = true
  /\ _data (self s') = resolve (data (self s'))
  /\ exists added_, added (trace s) (trace s') added_
                    /\ In (OpenCall (data (self s'))) added_.
Proof.
  intros E Hev Hne Hin. unfold query. cbn [or_default].
  destruct (query_after_swap (or_default ["tas"] range_subset) subsets _
              (or_default [] bbox_) datetime_ (or_default "json" format_)
              s _ events E Hev)
    as [Hself Htrace].
  cbv zeta. rewrite Hself. simpl. repeat split.
  - apply replace_contains; assumption.
  - exact Htrace.
Qed.

Lemma query_noop_outcome range_subset (subsets subsets' : dict (list value))
    bbox_ datetime_ format_ (s : state) :
  facet_pass subsets s = (Ok subsets', s) ->
  let s' := snd (query range_subset (Some subsets) bbox_ datetime_ format_ s) in
  self s' = self s /\ extends not_open_call s s'.
Proof.
  intros E. unfold query. cbn [or_default].
  apply (query_after_noop (or_default ["tas"] range_subset) subsets _
           (or_default [] bbox_) datetime_ (or_default "json" format_) s E).
Qed.

(** C5.  A query that selects scenario RCP8.5 on a locator with the token
    [2.6] leaves the provider with the locator in which [8.5] stands for
    [2.6], which contains [8.5], and with the dataset opened from it.
    Scenario RCP2.6 or hist, and percentile [[50]], leave the provider as it
    was and open nothing.  Percentile [[25]] on a locator with [pctl50]
    leaves a locator that contains [pctl25] and the dataset opened from
    it. *)
Theorem facet_selection_re_resolves range_subset (subsets : dict (list value))
    bbox_ datetime_ format_ (s : state) :
  let s' := snd (query range_subset (Some subsets) bbox_ datetime_ format_ s) in
  (Dict.get "scenario" subsets = Some [PyStr "RCP8.5"] ->
   Dict.get "percentile" subsets = None ->
   Dict.get "season" subsets = None ->
   PyStr.contains "2.6" (data (self s)) = true ->
   data (self s') = PyStr.replace "2.6" "8.5" (data (self s))
   /\ PyStr.contains "8.5" (data (self s')) = true
   /\ _data (self s') = resolve (data (self s'))
   /\ exists new, added (trace s) (trace s') new
                  /\ In (OpenCall (data (self s'))) new)
  /\ (forall v, v = "RCP2.6" \/ v = "hist" ->
      Dict.get "scenario" subsets = Some [PyStr v] ->
      Dict.get "percentile" subsets = None ->
      Dict.get "season" subsets = None ->
      self s' = self s /\ extends not_open_call s s')
  /\ (Dict.get "percentile" subsets = Some [PyInt 50] ->
      Dict.get "scenario" subsets = None ->
      Dict.get "season" subsets = None ->
      self s' = self s /\ extends not_open_call s s')
  /\ (Dict.get "percentile" subsets = Some [PyInt 25] ->
      Dict.get "scenario" subsets = None ->
      Dict.get "season" subsets = None ->
      PyStr.contains "pctl50" (data (self s)) = true ->
      data (self s') = PyStr.replace "pctl50" "pctl25" (data (self s))
      /\ PyStr.contains "pctl25" (data (self s')) = true
      /\ _data (self s') = resolve (data (self s'))
      /\ exists new, added (trace s) (trace s') new
                     /\ In (OpenCall (data (self s'))) new).
Proof.
  cbv zeta. split; [|split; [|split]].
  - intros Hget Hp Hs Hin.
    destruct (scenario_block_swap subsets "RCP8.5" s Hget)
      as [events [E Hev]]; [discriminate | discriminate |].
    rewrite <- (facet_pass_scenario_only subsets s Hp Hs) in E.
    change (PyStr.replace "RCP" "" "RCP8.5") with "8.5" in E, Hev.
    apply (query_swap_outcome range_subset subsets _ bbox_ datetime_ format_
             s "2.6" "8.5" events E Hev); [discriminate | exact Hin].
  - intros v Hv Hget Hp Hs.
    pose proof (scenario_block_default subsets v s Hget Hv) as E.
    rewrite <- (facet_pass_scenario_only subsets s Hp Hs) in E.
    apply (query_noop_outcome range_subset subsets _ bbox_ datetime_ format_
             s E).
  - intros Hget Hc Hs.
    pose proof (percentile_block_default subsets _ s Hget eq_refl) as E.
    rewrite <- (facet_pass_percentile_only subsets s Hc Hs) in E.
    apply (query_noop_outcome range_subset subsets _ bbox_ datetime_ format_
             s E).
  - intros Hget Hc Hs Hin.
    destruct (percentile_block_swap subsets (PyInt 25) [] s Hget)
      as [events [E Hev]]; [now right |].
    rewrite <- (facet_pass_percentile_only subsets s Hc Hs) in E.
    change ("pctl" ++ py_str (PyInt 25)) with "pctl25" in E, Hev.
    apply (query_swap_outcome range_subset subsets _ bbox_ datetime_ format_
             s "pctl50" "pctl25" events E Hev); [discriminate | exact Hin].
Qed.

End Selection.

Section SelectionRuns.
#[local] Existing Instance World.host.

Lemma facet_selection_re_resolves_witness :
  data (self (snd (query None (Some [("scenario", [PyStr "RCP8.5"])])
                         None None None World.start)))
  = World.rcp85
  /\ self (snd (query None (Some [("scenario", [PyStr "hist"])])
                      None None None World.start))
     = World.fresh
  /\ self (snd (query None (Some [("percentile", [PyInt 50])])
                      None None None World.start))
     = World.fresh
  /\ data (self (snd (query None (Some [("percentile", [PyInt 25])])
                            None None None World.start)))
     = World.rcp26_pctl25.
Proof.
  split; [|split; [|split]].
  - exact (proj1 (proj1 (facet_selection_re_resolves (H := World.host)
                           None [("scenario", [PyStr "RCP8.5"])]
                           None None None World.start)
                        eq_refl eq_refl eq_refl eq_refl)).
  - exact (proj1 (proj1 (proj2 (facet_selection_re_resolves (H := World.host)
                                  None [("scenario", [PyStr "hist"])]
                                  None None None World.start))
                        "hist" (or_intror eq_refl) eq_refl eq_refl eq_refl)).
  - exact (proj1 (proj1 (proj2 (proj2 (facet_selection_re_resolves
                                         (H := World.host)
                                         None [("percentile", [PyInt 50])]
                                         None None None World.start)))
                        eq_refl eq_refl eq_refl)).
  - exact (proj1 (proj2 (proj2 (proj2 (facet_selection_re_resolves
                                         (H := World.host)
                                         None [("percentile", [PyInt 25])]
                                         None None None World.start)))
                        eq_refl eq_refl eq_refl eq_refl)).
Defined.

End SelectionRuns.

(** ** A facet that is no longer at its default *)

Section Stale.
Context {H : Host}.

Local Abbreviation value := (pyval pyfloat).

Lemma init_consistent pd tr p tr' :
  __init__ pd tr = (Ok p, tr') -> consistent p.
Proof.
  intros E. unfold __init__ in E. apply try_ok in E.
  - step_ok E. step_ok E.
    destruct (open_data_run (pd_data pd) tr) as [new [Ho _]].
    rewrite Ho in E0. injection E0 as <- _.
    unfold ret in E. injection E as <- _. reflexivity.
  - intros e s1. unfold bind, emit, raise. simpl. discriminate.
Qed.

(** In every state that a provider can be in, the handle is the one that
    [open_data] returns for the locator. *)
Lemma reachable_consistent (p : provider) : reachable p -> consistent p.
Proof.
  induction 1 as [pd tr p tr' E | p tr rs subsets bbox_ dt fmt r s' _ IH E].
  - exact (init_consistent _ _ _ _ E).
  - pose proof (query_consistent rs subsets bbox_ dt fmt
                  {| self := p; trace := tr |}) as Hq.
    rewrite E in Hq. exact (Hq IH).
Qed.

Lemma relocated_same (s : state) (old new : string) (events : list event) :
  consistent (self s) ->
  PyStr.contains old (data (self s)) = false ->
  relocated s (PyStr.replace old new (data (self s))) events
  = {| self := self s; trace := (trace s ++ events)%list |}.
Proof.
  intros Hc Habs. unfold relocated. rewrite (replace_absent _ _ _ Habs).
  rewrite <- Hc. destruct s as [[] tr]. reflexivity.
Qed.

Lemma answered_from_previous_intro range_subset
    (subsets remaining : dict (list value)) bbox_ datetime_ format_
    (s : state) (events : list event) :
  open_events (data (self s)) events ->
  facet_pass subsets s
  = (Ok remaining, {| self := self s; trace := (trace s ++ events)%list |}) ->
  answered_from_previous range_subset subsets remaining bbox_ datetime_
                         format_ s.
Proof.
  intros Hev E. exists events.
  assert (query range_subset (Some subsets) bbox_ datetime_ format_ s
          = after_facets (or_default ["tas"] range_subset) remaining
              (or_default [] bbox_) datetime_ (or_default "json" format_)
              {| self := self s; trace := (trace s ++ events)%list |}) as Hq.
  { unfold query, query_body, bind. cbn [or_default]. now rewrite E. }
  repeat split; [exact Hev | exact E | exact Hq |].
  rewrite Hq.
  exact (after_facets_same_self _ _ _ _ _
           {| self := self s; trace := (trace s ++ events)%list |}).
Qed.

(** C9, as the code has it.  A provider that can be reached and whose
    locator no longer has the default token of a facet: a query that selects
    one value of that facet, not the default one, replaces nothing.  [open_data] is called on the
    locator that the provider already has and returns the handle that the
    provider already has, the facet pass raises nothing, and the query goes
    on with the provider as it was.  The token is gone from the locator
    after each substitution of [domain_swaps]. *)
Theorem stale_facet_selection_is_noop (p : provider) (tr : list event)
    range_subset (subsets : dict (list value)) bbox_ datetime_ format_ :
  reachable p ->
  let s := {| self := p; trace := tr |} in
  (forall v,
     Dict.get "scenario" subsets = Some [PyStr v] ->
     v <> "RCP2.6" -> v <> "hist" ->
     Dict.get "percentile" subsets = None ->
     Dict.get "season" subsets = None ->
     PyStr.contains "2.6" (data p) = false ->
     answered_from_previous range_subset subsets
       (Dict.pop "scenario" subsets) bbox_ datetime_ format_ s)
  /\ (forall v,
        Dict.get "percentile" subsets = Some [v] ->
        eq_int v 50 = false ->
        Dict.get "scenario" subsets = None ->
        Dict.get "season" subsets = None ->
        PyStr.contains "pctl50" (data p) = false ->
        answered_from_previous range_subset subsets
          (Dict.pop "percentile" subsets) bbox_ datetime_ format_ s)
  /\ (forall v,
        Dict.get "season" subsets = Some [v] ->
        eq_str v "DJF" = false ->
        Dict.get "scenario" subsets = None ->
        Dict.get "percentile" subsets = None ->
        PyStr.contains "DJF" (data p) = false ->
        answered_from_previous range_subset subsets
          (Dict.pop "season" subsets) bbox_ datetime_ format_ s)
  /\ (forall old new locator,
        In (old, new) domain_swaps ->
        PyStr.contains old (PyStr.replace old new locator) = false).
Proof.
  intros Hr. apply reachable_consistent in Hr. cbv zeta.
  split; [|split; [|split; [|exact domain_swap_clears_token]]].
  - intros v Hget H26 Hhist Hp Hs Habs.
    destruct (scenario_block_swap subsets v {| self := p; trace := tr |}
                Hget H26 Hhist) as [events [E Hev]].
    rewrite <- (facet_pass_scenario_only subsets _ Hp Hs) in E.
    rewrite relocated_same in E by assumption.
    cbn [self] in Hev. rewrite (replace_absent _ _ _ Habs) in Hev.
    exact (answered_from_previous_intro _ _ _ _ _ _
             {| self := p; trace := tr |} events Hev E).
  - intros v Hget Hne Hc Hs Habs.
    destruct (percentile_block_swap subsets v [] {| self := p; trace := tr |}
                Hget (or_intror Hne)) as [events [E Hev]].
    rewrite <- (facet_pass_percentile_only subsets _ Hc Hs) in E.
    rewrite relocated_same in E by assumption.
    cbn [self] in Hev. rewrite (replace_absent _ _ _ Habs) in Hev.
    exact (answered_from_previous_intro _ _ _ _ _ _
             {| self := p; trace := tr |} events Hev E).
  - intros v Hget Hne Hc Hp Habs.
    destruct (season_block_swap subsets v {| self := p; trace := tr |}
                Hget Hne) as [events [E Hev]].
    rewrite <- (facet_pass_season_only subsets _ Hc Hp) in E.
    rewrite relocated_same in E by assumption.
    cbn [self] in Hev. rewrite (replace_absent _ _ _ Habs) in Hev.
    exact (answered_from_previous_intro _ _ _ _ _ _
             {| self := p; trace := tr |} events Hev E).
Qed.

End Stale.

Section StaleRuns.
#[local] Existing Instance World.host.

Lemma on_rcp85_reachable : reachable World.on_rcp85.
Proof.
  apply (reach_query World.fresh [] None
           (Some [("scenario", [PyStr "RCP8.5"])]) None None None
           (fst (query None (Some [("scenario", [PyStr "RCP8.5"])])
                       None None None World.start))
           (snd (query None (Some [("scenario", [PyStr "RCP8.5"])])
                       None None None World.start))).
  - apply (reach_init World.definition [] World.fresh
             [OpenCall World.rcp26]).
    vm_compute. reflexivity.
  - vm_compute. reflexivity.
Defined.

Lemma stale_facet_selection_is_noop_witness :
  answered_from_previous None [("scenario", [PyStr "RCP4.5"])] []
    None None None {| self := World.on_rcp85; trace := [] |}.
Proof.
  apply (proj1 (stale_facet_selection_is_noop (H := World.host)
                  World.on_rcp85 [] None [("scenario", [PyStr "RCP4.5"])]
                  None None None on_rcp85_reachable)
               "RCP4.5");
    first [reflexivity | discriminate].
Defined.

(** A facet that left its default may still show the default token.  Season
    [DJFM] takes the locator from [.../season/DJF/...] to
    [.../season/DJFM/...], where [DJF] is read again; the query that then
    selects [MAM] substitutes once more and moves the provider to
    [.../season/MAMM/...], a locator that was never resolved before. *)
Lemma stale_facet_selection_counterexample :
  reachable (self (snd (query None (Some [("season", [PyStr "DJFM"])])
                              None None None World.start)))
  /\ data (self World.start) = World.rcp26
  /\ data (self (snd (query None (Some [("season", [PyStr "DJFM"])])
                            None None None World.start)))
     = World.season_djfm
  /\ data (self (snd (query None (Some [("season", [PyStr "MAM"])])
                            None None None
                            (snd (query None
                                        (Some [("season", [PyStr "DJFM"])])
                                        None None None World.start)))))
     = World.season_mamm
  /\ World.season_mamm <> World.season_djfm
  /\ In (OpenCall World.season_mamm)
        (trace (snd (query None (Some [("season", [PyStr "MAM"])])
                           None None None
                           (snd (query None
                                       (Some [("season", [PyStr "DJFM"])])
                                       None None None World.start))))).
Proof.
  split; [|split; [|split; [|split; [|split]]]].
  - apply (reach_query World.fresh [] None
             (Some [("season", [PyStr "DJFM"])]) None None None
             (fst (query None (Some [("season", [PyStr "DJFM"])])
                         None None None World.start))
             (snd (query None (Some [("season", [PyStr "DJFM"])])
                         None None None World.start))).
    + apply (reach_init World.definition [] World.fresh
               [OpenCall World.rcp26]).
      vm_compute. reflexivity.
    + vm_compute. reflexivity.
  - reflexivity.
  - vm_compute. reflexivity.
  - vm_compute. reflexivity.
  - discriminate.
  - vm_compute. tauto.
Qed.

End StaleRuns.

(** ** More than one value for a facet *)

Section Multiple.
Context {H : Host}.

Local Abbreviation value := (pyval pyfloat).

(** The scenario and percentile blocks, which run before the season block. *)
Lemma season_block_last (subsets : dict (list value)) (s : state) :
  facet_pass subsets s
  = match (subsets1 <- scenario_block subsets ;;
           percentile_block subsets1) s with
    | (Ok subsets2, s2) => season_block subsets2 s2
    | (Raise e, s2) => (Raise e, s2)
    end.
Proof.
  unfold facet_pass, bind.
  destruct (scenario_block subsets s) as [[s1|e] st1]; [|reflexivity].
  destruct (percentile_block s1 st1) as [[s2|e] st2]; reflexivity.
Qed.

Lemma first_blocks_result (subsets : dict (list value)) (s : state) :
  match (subsets1 <- scenario_block subsets ;;
         percentile_block subsets1) s with
  | (Ok subsets2, _) =>
      subsets2 = Dict.pop "percentile" (Dict.pop "scenario" subsets)
  | (Raise e, _) => e = ProviderQueryError
  end.
Proof.
  unfold bind.
  pose proof (scenario_block_result subsets s) as H1.
  destruct (scenario_block subsets s) as [[s1|e] st1]; [subst s1 | exact H1].
  apply percentile_block_result.
Qed.

Lemma query_unfold range_subset (subsets : dict (list value)) bbox_
    datetime_ format_ (s : state) :
  query range_subset (Some subsets) bbox_ datetime_ format_ s
  = match facet_pass subsets s with
    | (Ok subsets', s1) =>
        after_facets (or_default ["tas"] range_subset) subsets'
                     (or_default [] bbox_) datetime_
                     (or_default "json" format_) s1
    | (Raise e, s1) => (Raise e, s1)
    end.
Proof. reflexivity. Qed.

(** C1, as the code has it.  More than one scenario: the query raises a
    query error, and the provider is as it was; the trace has the two log
    records and no call.  More than one season: the query raises a query
    error and the season token is not replaced, the provider being as the
    scenario and percentile blocks left it; when [subsets] has neither of
    these two facets the provider is as it was before the query. *)
Theorem multiple_scenario_or_season_rejected range_subset
    (subsets : dict (list value)) bbox_ datetime_ format_ (s : state) :
  (forall scenario,
     Dict.get "scenario" subsets = Some scenario ->
     (1 < List.length scenario)%nat ->
     query range_subset (Some subsets) bbox_ datetime_ format_ s
     = (Raise ProviderQueryError,
        {| self := self s;
           trace := (trace s
                     ++ [Log ERROR "multiple scenario are not supported";
                         LogExn ERROR ProviderQueryError])%list |}))
  /\ (forall seasonal,
        Dict.get "season" subsets = Some seasonal ->
        (1 < List.length seasonal)%nat ->
        fst (query range_subset (Some subsets) bbox_ datetime_ format_ s)
        = Raise ProviderQueryError
        /\ self (snd (query range_subset (Some subsets) bbox_ datetime_
                            format_ s))
           = self (snd ((subsets1 <- scenario_block subsets ;;
                         percentile_block subsets1) s))
        /\ (Dict.get "scenario" subsets = None ->
            Dict.get "percentile" subsets = None ->
            query range_subset (Some subsets) bbox_ datetime_ format_ s
            = (Raise ProviderQueryError,
               {| self := self s;
                  trace := (trace s
                            ++ [Log ERROR "multiple seasons are not supported";
                                LogExn ERROR ProviderQueryError])%list |}))).
Proof.
  split.
  - intros scenario Hget Hlen.
    unfold query, query_body, facet_pass. cbn [or_default]. unfold bind.
    now rewrite (scenario_block_multiple subsets scenario s Hget Hlen).
  - intros seasonal Hget Hlen.
    rewrite query_unfold, season_block_last.
    pose proof (first_blocks_result subsets s) as Hfirst.
    destruct ((subsets1 <- scenario_block subsets ;;
               percentile_block subsets1) s) as [[subsets2|e] s2] eqn:E.
    + subst subsets2.
      assert (Dict.get "season"
                (Dict.pop "percentile" (Dict.pop "scenario" subsets))
              = Some seasonal) as Hget'.
      { rewrite !get_pop_other by discriminate. exact Hget. }
      rewrite (season_block_multiple _ seasonal s2 Hget' Hlen).
      split; [reflexivity | split; [reflexivity |]].
      intros Hc Hp. unfold bind in E.
      rewrite (scenario_block_absent subsets s Hc) in E.
      rewrite (percentile_block_absent subsets s Hp) in E.
      injection E as _ <-. reflexivity.
    + subst e. split; [reflexivity | split; [reflexivity |]].
      intros Hc Hp. unfold bind in E.
      rewrite (scenario_block_absent subsets s Hc) in E.
      rewrite (percentile_block_absent subsets s Hp) in E.
      discriminate.
Qed.

End Multiple.

Section MultipleRuns.
#[local] Existing Instance World.host.

Lemma multiple_scenario_or_season_rejected_witness :
  query None (Some [("scenario", [PyStr "RCP4.5"; PyStr "RCP8.5"])])
        None None None World.start
  = (Raise ProviderQueryError,
     {| self := World.fresh;
        trace := [Log ERROR "multiple scenario are not supported";
                  LogExn ERROR ProviderQueryError] |})
  /\ query None (Some [("season", [PyStr "DJF"; PyStr "MAM"])])
           None None None World.start
     = (Raise ProviderQueryError,
        {| self := World.fresh;
           trace := [Log ERROR "multiple seasons are not supported";
                     LogExn ERROR ProviderQueryError] |}).
Proof.
  split.
  - apply (proj1 (multiple_scenario_or_season_rejected (H := World.host)
                    None [("scenario", [PyStr "RCP4.5"; PyStr "RCP8.5"])]
                    None None None World.start)
                 [PyStr "RCP4.5"; PyStr "RCP8.5"]).
    + reflexivity.
    + simpl. lia.
  - apply (proj2 (multiple_scenario_or_season_rejected (H := World.host)
                    None [("season", [PyStr "DJF"; PyStr "MAM"])]
                    None None None World.start)
                 [PyStr "DJF"; PyStr "MAM"]).
    + reflexivity.
    + simpl. lia.
    + reflexivity.
    + reflexivity.
Defined.

(** Rejection of several values is neither uniform nor always first.  Two
    seasons after a scenario other than the default: the query error comes
    when the locator has been changed and the dataset opened again.  Two
    percentiles: no error at all, the first one is selected. *)
Lemma multiple_values_counterexample :
  (let r := query None
                  (Some [("scenario", [PyStr "RCP8.5"]);
                         ("season", [PyStr "DJF"; PyStr "MAM"])])
                  None None None World.start in
   fst r = Raise ProviderQueryError
   /\ data (self World.start) = World.rcp26
   /\ data (self (snd r)) = World.rcp85
   /\ trace (snd r)
      = [OpenCall World.rcp85;
         Log ERROR "multiple seasons are not supported";
         LogExn ERROR ProviderQueryError])
  /\ (let r := query None (Some [("percentile", [PyInt 25; PyInt 75])])
                     None None None World.start in
      (exists out, fst r = Ok out)
      /\ data (self (snd r)) = World.rcp26_pctl25
      /\ In (OpenCall World.rcp26_pctl25) (trace (snd r))).
Proof.
  split.
  - vm_compute. repeat split.
  - vm_compute. split; [eexists; reflexivity | split; [reflexivity|]].
    now left.
Qed.

End MultipleRuns.

(** ** A locator that cannot be opened *)

Section Unopenable.
Context {H : Host}.

Local Abbreviation value := (pyval pyfloat).

Lemma init_raises_connection_error pd tr e tr' :
  __init__ pd tr = (Raise e, tr') -> e = ProviderConnectionError.
Proof.
  unfold __init__, try_except.
  match goal with
  | |- context [match ?m tr with _ => _ end] => destruct (m tr) as [[p|e'] t]
  end.
  - discriminate.
  - unfold bind, emit, raise. simpl. now intros [= <- _].
Qed.

(** The constructor on a locator that [xarray.open_mfdataset] cannot open:
    [open_data] returns [None], reading the coordinates of [None] raises,
    and the [except] of the constructor turns that into a connection
    error. *)
Lemma init_on_unopenable_locator pd tr e :
  open_mfdataset (pd_data pd) = Raise e ->
  __init__ pd tr
  = (Raise ProviderConnectionError,
     (tr ++ [OpenCall (pd_data pd); LogExn ERROR e;
             LogExn WARNING AttributeError])%list).
Proof.
  intros Hopen.
  unfold __init__, try_except, bind, open_data, try_except, bind, lift,
    emit, ret, raise, _get_coverage_properties, bind, lift.
  simpl. rewrite Hopen. simpl.
  now rewrite <- !app_assoc.
Qed.

End Unopenable.

Section UnopenableRuns.
#[local] Existing Instance World.host.

(** C2.  Scenario RCP4.5 has no file.  The constructor, given its locator,
    raises a connection error.  A query that selects the scenario comes to
    the same locator by substitution: [open_data] logs the exception of the
    library and returns [None], the facet block raises nothing, and the
    caller gets the [TypeError] of the selection of variables on [None];
    the provider keeps the new locator and has no handle. *)
Theorem unopenable_locator_in_query :
  open_mfdataset World.rcp45 = Raise LibraryError
  /\ __init__ {| pd_data := World.rcp45; pd_x_field := None;
                 pd_y_field := None; pd_time_field := None |} []
     = (Raise ProviderConnectionError,
        [OpenCall World.rcp45; LogExn ERROR LibraryError;
         LogExn WARNING AttributeError])
  /\ open_data World.rcp45 []
     = (Ok None, [OpenCall World.rcp45; LogExn ERROR LibraryError])
  /\ fst (query None (Some [("scenario", [PyStr "RCP4.5"])])
                None None None World.start)
     = Raise TypeError
  /\ data (self (snd (query None (Some [("scenario", [PyStr "RCP4.5"])])
                            None None None World.start)))
     = World.rcp45
  /\ _data (self (snd (query None (Some [("scenario", [PyStr "RCP4.5"])])
                             None None None World.start)))
     = None
  /\ trace (snd (query None (Some [("scenario", [PyStr "RCP4.5"])])
                       None None None World.start))
     = [OpenCall World.rcp45; LogExn ERROR LibraryError].
Proof.
  split; [reflexivity|].
  split; [exact (init_on_unopenable_locator (H := World.host)
                   {| pd_data := World.rcp45; pd_x_field := None;
                      pd_y_field := None; pd_time_field := None |} []
                   LibraryError eq_refl)|].
  split; [reflexivity|].
  vm_compute. repeat split.
Qed.

End UnopenableRuns.

(** ** A bounding box and named coordinates *)

Section Exclusive.
Context {H : Host}.

Local Abbreviation value := (pyval pyfloat).

Lemma orient_no_loc d items query_params :
  respects (extends not_loc_call) (orient d items query_params).
Proof.
  apply (orient_respects (extends not_loc_call) not_loc_call
           (extends_refl _) (extends_trans _) (extends_event _)).
  intros; intros [].
Qed.

Lemma mem_truthy {A} (k : string) (d : dict A) :
  Dict.mem k d = true -> truthy d = true.
Proof. destruct d; [discriminate | reflexivity]. Qed.

Lemma subset_data_conflict_run (p : provider) (d : Dataset sample)
    (subsets : dict (list value)) (bbox_ : list value) datetime_ (s : state) :
  truthy bbox_ = true ->
  Dict.mem (x_axis_label (_coverage_properties p)) subsets = true ->
  Dict.mem (y_axis_label (_coverage_properties p)) subsets = true ->
  subset_data p d subsets bbox_ datetime_ s
  = match orient d subsets [] (add_event s creating_record) with
    | (Ok _, s2) => (Raise ProviderQueryError, add_event s2 exclusive_record)
    | (Raise e, s2) => (Raise e, s2)
    end.
Proof.
  intros Hb Hx Hy.
  unfold subset_data, wants_subset, build_query_params, bbox_step.
  rewrite Hb, Hx, Hy. cbn [orb andb].
  destruct bbox_ as [|b0 bs]; [discriminate|].
  cbn [List.length Nat.ltb Nat.leb].
  unfold bind, log, emit, raise, add_event, creating_record, exclusive_record.
  destruct (orient d subsets [] _) as [[query_params|e] s2]; reflexivity.
Qed.

Lemma subset_data_conflict (p : provider) (d : Dataset sample)
    (subsets : dict (list value)) (bbox_ : list value) datetime_ (s : state) :
  truthy bbox_ = true ->
  Dict.mem (x_axis_label (_coverage_properties p)) subsets = true ->
  Dict.mem (y_axis_label (_coverage_properties p)) subsets = true ->
  let r := subset_data p d subsets bbox_ datetime_ s in
  (forall out, fst r <> Ok out)
  /\ extends not_loc_call s (snd r)
  /\ (forall query_params s2,
        orient d subsets [] (add_event s creating_record)
        = (Ok query_params, s2) ->
        r = (Raise ProviderQueryError, add_event s2 exclusive_record)).
Proof.
  intros Hb Hx Hy. cbv zeta.
  assert (not_loc_call creating_record) as Hc by (intros []).
  assert (not_loc_call exclusive_record) as He by (intros []).
  rewrite (subset_data_conflict_run p d subsets bbox_ datetime_ s Hb Hx Hy).
  pose proof (orient_no_loc d subsets [] (add_event s creating_record)) as Ho.
  pose proof (extends_trans _ _ _ _ (extends_event _ s _ Hc) Ho) as Hso.
  destruct (orient d subsets [] (add_event s creating_record))
    as [[query_params|e] s2]; cbn [fst snd] in *.
  - split; [discriminate | split].
    + exact (extends_trans _ _ _ _ Hso (extends_event _ s2 _ He)).
    + now intros ? ? [= <- <-].
  - split; [discriminate | split; [exact Hso | discriminate]].
Qed.


Lemma slow_path_unfold range_subset (subsets : dict (list value)) bbox_
    datetime_ format_ (s : state) :
  slow_path range_subset subsets bbox_ datetime_ format_ s
  = match _data (self s) with
    | None => (Raise TypeError, s)
    | Some d0 =>
        match getitem d0 range_subset with
        | Raise e => (Raise e, s)
        | Ok d1 =>
            match subset_data (self s) d1 subsets bbox_ datetime_ s with
            | (Ok d2, s3) => respond (self s) d2 range_subset format_ s3
            | (Raise e, s3) => (Raise e, s3)
            end
        end
    end.
Proof.
  unfold slow_path, bind, get_self, lift.
  destruct (_data (self s)) as [d0|]; [|reflexivity].
  destruct (getitem d0 range_subset); reflexivity.
Qed.

(** C3, as the code has it.  A query with a bounding box and with subsets
    for both the x and the y axis never returns and never calls
    [data.loc].  When the facet blocks, the selection of the variables and
    the loop over [subsets] raise nothing, what it raises is the query
    error of line 348. *)
Theorem bbox_with_both_coordinates_rejected range_subset
    (subsets : dict (list value)) (bbox_ : list value) datetime_ format_
    (s : state) :
  truthy bbox_ = true ->
  Dict.mem (x_axis_label (_coverage_properties (self s))) subsets = true ->
  Dict.mem (y_axis_label (_coverage_properties (self s))) subsets = true ->
  is_facet (x_axis_label (_coverage_properties (self s))) = false ->
  is_facet (y_axis_label (_coverage_properties (self s))) = false ->
  let r := query range_subset (Some subsets) (Some bbox_) datetime_ format_ s in
  (forall out, fst r <> Ok out)
  /\ extends not_loc_call s (snd r)
  /\ (forall subsets' s1 d0 d1 query_params s2,
        facet_pass subsets s = (Ok subsets', s1) ->
        _data (self s1) = Some d0 ->
        getitem d0 (or_default ["tas"] range_subset) = Ok d1 ->
        orient d1 subsets' [] (add_event s1 creating_record)
        = (Ok query_params, s2) ->
        r = (Raise ProviderQueryError, add_event s2 exclusive_record)).
Proof.
  intros Hb Hx Hy Hfx Hfy. cbv zeta. rewrite query_unfold.
  change (or_default [] (Some bbox_)) with bbox_.
  pose proof (facet_pass_no_loc subsets s) as Hf.
  pose proof (facet_pass_same_fields subsets s) as Hsame.
  pose proof (facet_pass_result subsets s) as Hres.
  destruct (facet_pass subsets s) as [[subsets'|e] s1]; cbn [fst snd] in *.
  2:{ split; [intros out; discriminate | split; [exact Hf|]].
      intros; discriminate. }
  destruct Hsame as (_ & _ & _ & Hprops).
  assert (forall k, is_facet k = false ->
                    Dict.mem k subsets' = Dict.mem k subsets) as Hmem.
  { intros k Hk. unfold is_facet in Hk.
    apply orb_false_iff in Hk. destruct Hk as [Hk Hk3].
    apply orb_false_iff in Hk. destruct Hk as [Hk1 Hk2].
    apply String.eqb_neq in Hk1, Hk2, Hk3.
    subst subsets'. now rewrite !mem_pop_other by assumption. }
  assert (Dict.mem (x_axis_label (_coverage_properties (self s1))) subsets'
          = true) as Hx'
    by (rewrite Hprops, Hmem by assumption; exact Hx).
  assert (Dict.mem (y_axis_label (_coverage_properties (self s1))) subsets'
          = true) as Hy'
    by (rewrite Hprops, Hmem by assumption; exact Hy).
  unfold after_facets, fast_path.
  rewrite (mem_truthy _ _ Hx'). cbn [negb].
  rewrite andb_false_r. cbn [andb].
  rewrite slow_path_unfold.
  destruct (_data (self s1)) as [d0|] eqn:Hd0; cbn [fst snd].
  2:{ split; [intros out; discriminate | split; [exact Hf|]].
      intros ? ? ? ? ? ? [= <- <-] Hd. congruence. }
  destruct (getitem d0 (or_default ["tas"] range_subset)) as [d1|e] eqn:Hg;
    cbn [fst snd].
  2:{ split; [intros out; discriminate | split; [exact Hf|]].
      intros ? ? ? ? ? ? [= <- <-] Hd Hg'. congruence. }
  destruct (subset_data_conflict (self s1) d1 subsets' bbox_ datetime_ s1
              Hb Hx' Hy') as (Hnot & Hext & Hraise).
  destruct (subset_data (self s1) d1 subsets' bbox_ datetime_ s1)
    as [[out|e] s3]; cbn [fst snd] in *.
  { exfalso. exact (Hnot out eq_refl). }
  split; [intros out; discriminate | split].
  - exact (extends_trans _ _ _ _ Hf Hext).
  - intros subsets0 s0 d0' d1' query_params s2 [= <- <-] Hd Hg' Ho.
    rewrite Hd0 in Hd. injection Hd as <-.
    rewrite Hg in Hg'. injection Hg' as <-.
    pose proof (Hraise query_params s2 Ho) as E.
    injection E as -> ->. reflexivity.
Qed.

End Exclusive.

Section ExclusiveRuns.
#[local] Existing Instance World.host.

Lemma bbox_with_both_coordinates_rejected_witness :
  query None
        (Some [("lon", [PyInt 10; PyInt 20]); ("lat", [PyInt 40; PyInt 50])])
        (Some [PyInt 0; PyInt 0; PyInt 25; PyInt 55]) None None World.start
  = (Raise ProviderQueryError,
     {| self := World.fresh;
        trace := [creating_record; Log DEBUG "Reversing slicing low/high";
                  exclusive_record] |}).
Proof.
  refine (proj2 (proj2 (bbox_with_both_coordinates_rejected (H := World.host)
                          None
                          [("lon", [PyInt 10; PyInt 20]);
                           ("lat", [PyInt 40; PyInt 50])]
                          [PyInt 0; PyInt 0; PyInt 25; PyInt 55] None None
                          World.start eq_refl eq_refl eq_refl eq_refl eq_refl))
                [("lon", [PyInt 10; PyInt 20]); ("lat", [PyInt 40; PyInt 50])]
                World.start (World.grid "rcp26 pctl50 DJF")
                (match World.select_vars (World.grid "rcp26 pctl50 DJF")
                                         ["tas"] with
                 | Ok d => d
                 | Raise _ => World.grid ""
                 end)
                [("lon", Slice (PyInt 10) (PyInt 20));
                 ("lat", Slice (PyInt 50) (PyInt 40))]
                {| self := World.fresh;
                   trace := [creating_record;
                             Log DEBUG "Reversing slicing low/high"] |}
                _ _ _ _); vm_compute; reflexivity.
Defined.

(** One named coordinate is not enough for the guard: with a bounding box and
    a subset for the x axis alone the query returns, and [data.loc] is called
    with the slices of the bounding box, the named one being overwritten. *)
Lemma bbox_with_one_coordinate_counterexample :
  let r := query None (Some [("lon", [PyInt 10; PyInt 20])])
                 (Some [PyInt 0; PyInt 0; PyInt 25; PyInt 55])
                 None None World.start in
  (exists out, fst r = Ok out)
  /\ fst r <> Raise ProviderQueryError
  /\ In (LocCall [("lon", Slice (PyInt 0) (PyInt 25));
                  ("lat", Slice (PyInt 55) (PyInt 0))])
        (trace (snd r)).
Proof.
  vm_compute. split; [eexists; reflexivity | split; [discriminate|]].
  right. right. now left.
Qed.

End ExclusiveRuns.

(** ** An empty result *)

Section Empty.
Context {H : Host}.

Local Abbreviation value := (pyval pyfloat).

Lemma check_not_empty_raises (p : provider) (d : Dataset sample)
    (cx cy : Coordinate sample) (s : state) :
  lookup_coord d (x_field p) = Ok cx ->
  lookup_coord d (y_field p) = Ok cy ->
  values cx = [] \/ values cy = [] ->
  check_not_empty p d s = (Raise ProviderNoDataError, add_event s no_data_record).
Proof.
  intros Hx Hy Hempty.
  unfold check_not_empty, bind, lift. rewrite Hx, Hy.
  assert ((Nat.eqb (List.length (values cx)) 0
           || Nat.eqb (List.length (values cy)) 0)%bool = true) as ->.
  { destruct Hempty as [-> | ->]; [reflexivity | apply orb_true_r]. }
  reflexivity.
Qed.

(** C6.  A query that gets as far as the check of line 380 with a dataset
    whose x or y coordinate has no value raises the no-data error, which is
    another class than the query error. *)
Theorem empty_extent_raises_no_data range_subset
    (subsets subsets' : dict (list value)) bbox_ datetime_ format_
    (s s1 s2 : state) (d0 d1 d2 : Dataset sample)
    (cx cy : Coordinate sample) :
  facet_pass subsets s = (Ok subsets', s1) ->
  fast_path (or_default ["tas"] range_subset) subsets'
            (or_default "json" format_) = false ->
  _data (self s1) = Some d0 ->
  getitem d0 (or_default ["tas"] range_subset) = Ok d1 ->
  subset_data (self s1) d1 subsets' (or_default [] bbox_) datetime_ s1
  = (Ok d2, s2) ->
  lookup_coord d2 (x_field (self s1)) = Ok cx ->
  lookup_coord d2 (y_field (self s1)) = Ok cy ->
  values cx = [] \/ values cy = [] ->
  query range_subset (Some subsets) bbox_ datetime_ format_ s
  = (Raise ProviderNoDataError, add_event s2 no_data_record)
  /\ ProviderNoDataError <> ProviderQueryError.
Proof.
  intros Hf Hfast Hd Hg Hsub Hx Hy Hempty. split; [|discriminate].
  rewrite query_unfold, Hf. unfold after_facets. rewrite Hfast.
  rewrite slow_path_unfold, Hd, Hg, Hsub.
  unfold respond. unfold bind at 1.
  now rewrite (check_not_empty_raises _ _ cx cy s2 Hx Hy Hempty).
Qed.

End Empty.

Section EmptyRuns.
#[local] Existing Instance World.host.

Lemma empty_extent_raises_no_data_witness :
  fst (query None None (Some [PyInt 100; PyInt 0; PyInt 200; PyInt 90])
             None None World.start)
  = Raise ProviderNoDataError.
Proof.
  refine (f_equal fst
            (proj1 (empty_extent_raises_no_data (H := World.host)
                      None [] [] (Some [PyInt 100; PyInt 0; PyInt 200; PyInt 90])
                      None None World.start World.start _
                      (World.grid "rcp26 pctl50 DJF") _ _
                      {| values := []; attrs := [("units", "degrees_east")] |}
                      World.lat _ _ _ _ _ _ _ _)));
    first [reflexivity | now left].
Defined.

End EmptyRuns.

(** ** The orientation of the slices *)

Lemma get_set_same {A} (k : string) (v : A) (d : dict A) :
  Dict.get k (Dict.set k v d) = Some v.
Proof.
  induction d as [|[k' v'] d IH]; simpl.
  - now rewrite String.eqb_refl.
  - destruct (String.eqb_spec k k') as [->|N]; simpl.
    + now rewrite String.eqb_refl.
    + apply String.eqb_neq in N. now rewrite N.
Qed.

Lemma get_set_other {A} (k k' : string) (v : A) (d : dict A) :
  k <> k' -> Dict.get k (Dict.set k' v d) = Dict.get k d.
Proof.
  intros Hne. induction d as [|[k0 v0] d IH]; simpl.
  - apply String.eqb_neq in Hne. now rewrite Hne.
  - destruct (String.eqb_spec k' k0) as [->|N]; simpl.
    + apply String.eqb_neq in Hne. now rewrite Hne.
    + now rewrite IH.
Qed.

Lemma get_none_not_key {A} (k : string) (d : dict A) :
  ~ In k (Dict.keys d) -> Dict.get k d = None.
Proof.
  induction d as [|[k' v'] d IH]; simpl; [reflexivity|].
  intros Hn. destruct (String.eqb_spec k k') as [->|N].
  - exfalso. apply Hn. now left.
  - apply IH. intros Hin. apply Hn. now right.
Qed.

Section Orientation.
Context {H : Host}.

Local Abbreviation value := (pyval pyfloat).
Local Abbreviation params := (dict (qparam pyfloat)).

(** The slice of [lo] and [hi] for a coordinate that runs from [first] to
    [last]. *)
Local Abbreviation turned first last lo hi :=
  (if sample_gt first last then Slice hi lo else Slice lo hi).

Lemma orient_entry (key : string) (val : list value) (first last : sample)
    (query_params query_params' : params) (s s' : state) :
  (if sample_gt first last then
     log DEBUG "Reversing slicing low/high" ;;
     hi <- lift (item val 1) ;;
     lo <- lift (item val 0) ;;
     ret (Dict.set key (Slice hi lo) query_params)
   else
     lo <- lift (item val 0) ;;
     hi <- lift (item val 1) ;;
     ret (Dict.set key (Slice lo hi) query_params)) s
  = (Ok query_params', s') ->
  exists lo hi,
    item val 0 = Ok lo /\ item val 1 = Ok hi
    /\ query_params' = Dict.set key (turned first last lo hi) query_params.
Proof.
  unfold bind, log, emit, lift, ret.
  destruct (sample_gt first last); simpl;
    destruct (item val 0) as [lo|]; destruct (item val 1) as [hi|];
    try discriminate; intros [= <- _]; now exists lo, hi.
Qed.

Lemma orient_frame (d : Dataset sample) (items : dict (list value))
    (key : string) :
  ~ In key (Dict.keys items) ->
  forall query_params s query_params' s',
    orient d items query_params s = (Ok query_params', s') ->
    Dict.get key query_params' = Dict.get key query_params.
Proof.
  induction items as [|[k val] rest IH]; intros Hn qp s qp' s' E.
  - simpl in E. unfold ret in E. now injection E as <- _.
  - simpl in E, Hn. do 4 step_ok E.
    apply orient_entry in E3. destruct E3 as (lo & hi & _ & _ & ->).
    rewrite (IH (fun Hin => Hn (or_intror Hin)) _ _ _ _ E).
    apply get_set_other. intros ->. apply Hn. now left.
Qed.

Lemma orient_entries (d : Dataset sample) (items : dict (list value))
    (key : string) (lo hi : value) (more : list value)
    (c : Coordinate sample) (first last : sample) :
  NoDup (Dict.keys items) ->
  Dict.get key items = Some (lo :: hi :: more) ->
  lookup_coord d key = Ok c ->
  item (values c) 0 = Ok first ->
  item_last (values c) = Ok last ->
  forall query_params s query_params' s',
    orient d items query_params s = (Ok query_params', s') ->
    Dict.get key query_params' = Some (turned first last lo hi).
Proof.
  intros Hnd Hget Hc Hfirst Hlast.
  induction items as [|[k val] rest IH]; intros qp s qp' s' E.
  - discriminate.
  - simpl in Hget, Hnd, E. inversion Hnd as [|? ? Hnotin Hnd']; subst.
    do 4 step_ok E.
    apply lift_ok in E0, E1, E2.
    destruct E0 as [Hc0 ->], E1 as [Hf0 ->], E2 as [Hl0 ->].
    apply orient_entry in E3. destruct E3 as (lo0 & hi0 & Hlo & Hhi & ->).
    destruct (String.eqb_spec key k) as [->|N].
    + injection Hget as ->.
      rewrite Hc in Hc0. injection Hc0 as <-.
      rewrite Hfirst in Hf0. injection Hf0 as <-.
      rewrite Hlast in Hl0. injection Hl0 as <-.
      injection Hlo as <-. injection Hhi as <-.
      rewrite (orient_frame d rest k Hnotin _ _ _ _ E).
      apply get_set_same.
    + exact (IH Hnd' Hget _ _ _ _ E).
Qed.

Lemma bbox_step_frame (p : provider) (subsets : dict (list value))
    (bbox_ : list value) (key : string) query_params s query_params' s' :
  bbox_step p subsets bbox_ query_params s = (Ok query_params', s') ->
  (truthy bbox_ = true ->
   key <> x_axis_label (_coverage_properties p)
   /\ key <> y_axis_label (_coverage_properties p)) ->
  Dict.get key query_params' = Dict.get key query_params.
Proof.
  unfold bbox_step. intros E Hk.
  destruct (truthy bbox_).
  - destruct (Hk eq_refl) as [Hx Hy].
    match type of E with
    | (if ?b then _ else _) _ = _ => destruct b
    end.
    + unfold bind, log, emit, raise in E. discriminate.
    + do 4 step_ok E. unfold ret in E. injection E as <- _.
      now rewrite !get_set_other by assumption.
  - unfold ret in E. now injection E as <- _.
Qed.

Lemma datetime_step_frame (p : provider) (subsets : dict (list value))
    (datetime_ : option string) (key : string) query_params s
    query_params' s' :
  datetime_step p subsets datetime_ query_params s = (Ok query_params', s') ->
  (datetime_ <> None -> key <> time_field p) ->
  Dict.get key query_params' = Dict.get key query_params.
Proof.
  unfold datetime_step. intros E Hk.
  destruct datetime_ as [dt|].
  - assert (key <> time_field p) as Ht by (apply Hk; discriminate).
    destruct (Dict.mem (time_axis_label (_coverage_properties p)) subsets).
    + unfold bind, log, emit, raise in E. discriminate.
    + destruct (PyStr.contains "/" dt).
      * destruct (split_on "/" dt) as [|begin [|end_ [|x l]]];
          try (unfold raise in E; discriminate).
        destruct (String.ltb begin end_).
        -- unfold ret in E. injection E as <- _.
           now apply get_set_other.
        -- unfold bind, log, emit, ret in E. simpl in E.
           injection E as <- _. now apply get_set_other.
      * unfold ret in E. injection E as <- _. now apply get_set_other.
  - unfold ret in E. now injection E as <- _.
Qed.

Lemma subset_data_unfold (p : provider) (d : Dataset sample)
    (subsets : dict (list value)) (bbox_ : list value)
    (datetime_ : option string) (s : state) :
  wants_subset p subsets bbox_ datetime_ = true ->
  subset_data p d subsets bbox_ datetime_ s
  = match build_query_params p d subsets bbox_ datetime_
            (add_event s creating_record) with
    | (Ok query_params, s1) =>
        let s2 := add_event (add_event s1 (LogParams query_params))
                            (LocCall query_params) in
        match loc d query_params with
        | Ok d' => (Ok d', s2)
        | Raise e =>
            (Raise ProviderQueryError, add_event s2 (LogExn WARNING e))
        end
    | (Raise e, s1) => (Raise e, s1)
    end.
Proof.
  intros Hw. unfold subset_data. rewrite Hw.
  unfold bind, try_except, log, log_exn, emit, lift, raise, add_event,
    creating_record.
  cbn [self trace].
  destruct (build_query_params p d subsets bbox_ datetime_ _)
    as [[query_params|e] s1]; [|reflexivity].
  cbn [self trace].
  destruct (loc d query_params); reflexivity.
Qed.

(** C4.  In the mapping that [query] builds for [data.loc], the entry of a
    named axis with the range [lo, hi] is [slice(hi, lo)] when the first
    stored value of the coordinate is greater than the last one and
    [slice(lo, hi)] otherwise; the axes that the bounding box or the
    datetime controls are set apart.  The data that the query goes on with
    is [data.loc] of this mapping: what [data.loc] returns for it, or a
    query error when [data.loc] raises. *)
Theorem slices_follow_stored_order (p : provider) (d : Dataset sample)
    (subsets : dict (list value)) (bbox_ : list value)
    (datetime_ : option string) (s s' : state) (query_params : params)
    (key : string) (lo hi : value) (more : list value)
    (c : Coordinate sample) (first last : sample) :
  NoDup (Dict.keys subsets) ->
  build_query_params p d subsets bbox_ datetime_ s = (Ok query_params, s') ->
  Dict.get key subsets = Some (lo :: hi :: more) ->
  lookup_coord d key = Ok c ->
  item (values c) 0 = Ok first ->
  item_last (values c) = Ok last ->
  (truthy bbox_ = true ->
   key <> x_axis_label (_coverage_properties p)
   /\ key <> y_axis_label (_coverage_properties p)) ->
  (datetime_ <> None -> key <> time_field p) ->
  Dict.get key query_params
  = Some (if sample_gt first last then Slice hi lo else Slice lo hi)
  /\ forall s0,
       wants_subset p subsets bbox_ datetime_ = true ->
       add_event s0 creating_record = s ->
       subset_data p d subsets bbox_ datetime_ s0
       = match loc d query_params with
         | Ok d' =>
             (Ok d',
              add_event (add_event s' (LogParams query_params))
                        (LocCall query_params))
         | Raise e =>
             (Raise ProviderQueryError,
              add_event (add_event (add_event s' (LogParams query_params))
                                   (LocCall query_params))
                        (LogExn WARNING e))
         end.
Proof.
  intros Hnd E Hget Hc Hfirst Hlast Hbbox Hdt. split.
  - unfold build_query_params in E. step_ok E. step_ok E.
    rewrite (datetime_step_frame _ _ _ key _ _ _ _ E Hdt).
    rewrite (bbox_step_frame _ _ _ key _ _ _ _ E1 Hbbox).
    exact (orient_entries d subsets key lo hi more c first last
             Hnd Hget Hc Hfirst Hlast _ _ _ _ E0).
  - intros s0 Hw <-. rewrite (subset_data_unfold _ _ _ _ _ _ Hw), E.
    reflexivity.
Qed.

End Orientation.

Section OrientationRuns.
#[local] Existing Instance World.host.

Lemma slices_follow_stored_order_witness :
  Dict.get "lat" ([("lat", Slice (PyInt 50) (PyInt 40));
                   ("lon", Slice (PyInt 10) (PyInt 20))]
                  : dict (qparam pyfloat))
  = Some (Slice (PyInt 50) (PyInt 40))
  /\ fst (subset_data World.fresh (World.grid "rcp26 pctl50 DJF")
            [("lat", [PyInt 40; PyInt 50]); ("lon", [PyInt 10; PyInt 20])]
            [] None World.start)
     = World.select_labels (World.grid "rcp26 pctl50 DJF")
         [("lat", Slice (PyInt 50) (PyInt 40));
          ("lon", Slice (PyInt 10) (PyInt 20))].
Proof.
  assert (NoDup (Dict.keys
                   ([("lat", [PyInt 40; PyInt 50]);
                     ("lon", [PyInt 10; PyInt 20])]
                    : dict (list (pyval pyfloat))))) as Hnd.
  { simpl. repeat constructor; simpl; intuition discriminate. }
  destruct (slices_follow_stored_order (H := World.host)
              World.fresh (World.grid "rcp26 pctl50 DJF")
              [("lat", [PyInt 40; PyInt 50]);
               ("lon", [PyInt 10; PyInt 20])] [] None
              (add_event World.start creating_record)
              (add_event (add_event World.start creating_record)
                         (Log DEBUG "Reversing slicing low/high"))
              [("lat", Slice (PyInt 50) (PyInt 40));
               ("lon", Slice (PyInt 10) (PyInt 20))]
              "lat" (PyInt 40) (PyInt 50) [] World.lat
              (World.Number 60) (World.Number 40)
              Hnd eq_refl eq_refl eq_refl eq_refl eq_refl
              (fun Hb => False_ind _ (Bool.diff_false_true Hb))
              (fun Hn => False_ind _ (Hn eq_refl)))
    as [Hentry Hrun].
  split; [exact Hentry|].
  rewrite (Hrun World.start eq_refl eq_refl). reflexivity.
Defined.

End OrientationRuns.

(** * Further properties of the provider *)

(** ** [open_data] *)

Section OpenDataTotal.
Context {H : Host}.

(** [open_data] never raises.  It calls [xarray.open_mfdataset] once; it
    returns the converted dataset when both the opening and the conversion
    return, and [None], with the exception logged as an error, when one of
    them raises. *)
Theorem open_data_swallows_failures (locator : string) (t : list event) :
  (exists d d',
     open_mfdataset locator = Ok d
     /\ _convert_float32_to_float64 d = Ok d'
     /\ open_data locator t = (Ok (Some d'), (t ++ [OpenCall locator])%list))
  \/ (exists e,
        (open_mfdataset locator = Raise e
         \/ exists d, open_mfdataset locator = Ok d
                      /\ _convert_float32_to_float64 d = Raise e)
        /\ open_data locator t
           = (Ok None, (t ++ [OpenCall locator; LogExn ERROR e])%list)).
Proof.
  unfold open_data, try_except, bind, lift, ret, emit. simpl.
  destruct (open_mfdataset locator) as [d|e] eqn:Ho; simpl.
  - destruct (_convert_float32_to_float64 d) as [d'|e] eqn:Hc; simpl.
    + left. now exists d, d'.
    + right. exists e. rewrite <- app_assoc. split; [|reflexivity].
      right. now exists d.
  - right. exists e. rewrite <- app_assoc. split; [now left | reflexivity].
Qed.

End OpenDataTotal.

(** ** [get_coverage_domainset] *)

Section DomainsetFacts.
Context {H : Host}.

Lemma set_entry_ok (l l' : list (dict jval)) (i : nat) (k : string)
    (v : jval) :
  set_entry l i k v = Ok l' ->
  List.length l' = List.length l
  /\ (forall j, j <> i -> nth_error l' j = nth_error l j)
  /\ exists a, nth_error l i = Some a
               /\ nth_error l' i = Some (Dict.set k v a).
Proof.
  revert l' i. induction l as [|a l IH]; intros l' i E.
  - destruct i; discriminate.
  - destruct i as [|i]; simpl in E.
    + injection E as <-. split; [reflexivity | split].
      * intros [|j] Hj; [now elim Hj | reflexivity].
      * now exists a.
    + destruct (set_entry l i k v) as [r|e] eqn:Er; [|discriminate].
      injection E as <-. destruct (IH r i Er) as (Hlen & Hother & Hat).
      split; [simpl; now rewrite Hlen | split].
      * intros [|j] Hj; [reflexivity | simpl; apply Hother; congruence].
      * exact Hat.
Qed.

Lemma set_entry_in_range (l : list (dict jval)) (i : nat) (k : string)
    (v : jval) :
  (i < List.length l)%nat -> exists l', set_entry l i k v = Ok l'.
Proof.
  revert i. induction l as [|a l IH]; intros i Hi; simpl in Hi; [lia|].
  destruct i as [|i]; simpl.
  - eexists. reflexivity.
  - destruct (IH i) as [r ->]; [lia|]. eexists. reflexivity.
Qed.

Lemma set_entry_out_of_range (l : list (dict jval)) (i : nat) (k : string)
    (v : jval) :
  (List.length l <= i)%nat -> set_entry l i k v = Raise IndexError.
Proof.
  revert i. induction l as [|a l IH]; intros i Hi.
  - destruct i; reflexivity.
  - destruct i as [|i]; simpl in *; [lia|]. rewrite IH by lia. reflexivity.
Qed.

(** The method returns exactly when the properties hold a time resolution
    and the base class gave three axes or more.  Without a time resolution
    it raises [TypeError], whatever the axes; with one and with fewer than
    three axes it raises [IndexError]. *)
Theorem domainset_returns_iff (g : general_grid) (p : provider) :
  (restime (_coverage_properties p) = None ->
   get_coverage_domainset (Ok g) p = Raise TypeError)
  /\ (restime (_coverage_properties p) <> None ->
      (List.length (axis g) < 3)%nat ->
      get_coverage_domainset (Ok g) p = Raise IndexError)
  /\ ((exists g', get_coverage_domainset (Ok g) p = Ok g')
      <-> restime (_coverage_properties p) <> None
          /\ (3 <= List.length (axis g))%nat).
Proof.
  unfold get_coverage_domainset. split; [|split].
  - now intros ->.
  - intros Hrt Hlen.
    destruct (restime (_coverage_properties p)) as [rt|]; [|now elim Hrt].
    rewrite set_entry_out_of_range by lia. reflexivity.
  - split.
    + intros [g' E].
      destruct (restime (_coverage_properties p)) as [rt|]; [|discriminate].
      split; [discriminate|].
      destruct (Nat.lt_ge_cases 2 (List.length (axis g))) as [Hlt|Hge];
        [lia|].
      rewrite set_entry_out_of_range in E by exact Hge. discriminate.
    + intros [Hrt Hlen].
      destruct (restime (_coverage_properties p)) as [rt|]; [|now elim Hrt].
      destruct (set_entry_in_range (axis g) 2 "uomLabel"
                  (JStr (restime_period rt))) as [axis1 E1]; [lia|].
      rewrite E1.
      destruct (set_entry_ok _ _ _ _ _ E1) as (Hlen1 & _ & _).
      destruct (set_entry_in_range axis1 2 "resolution"
                  (JInt (restime_value rt))) as [axis2 E2]; [lia|].
      rewrite E2. eexists. reflexivity.
Qed.

Lemma domainset_inv (g g' : general_grid) (p : provider) :
  get_coverage_domainset (Ok g) p = Ok g' ->
  exists rt axis1 axis2,
    restime (_coverage_properties p) = Some rt
    /\ set_entry (axis g) 2 "uomLabel" (JStr (restime_period rt)) = Ok axis1
    /\ set_entry axis1 2 "resolution" (JInt (restime_value rt)) = Ok axis2
    /\ g' = {| axisLabels := (axisLabels g ++ new_axis_name (data p))%list;
               axis := (axis2 ++ new_axis (data p))%list |}.
Proof.
  unfold get_coverage_domainset. intros E.
  destruct (restime (_coverage_properties p)) as [rt|]; [|discriminate].
  destruct (set_entry (axis g) 2 "uomLabel" _) as [axis1|] eqn:E1;
    [|discriminate].
  destruct (set_entry axis1 2 "resolution" _) as [axis2|] eqn:E2;
    [|discriminate].
  injection E as <-. now exists rt, axis1, axis2.
Qed.

(** What the method appends: the labels of the base class stay in front, the
    new labels and the new axes come after them, one axis for each label and
    in the same order, each axis carrying its label. *)
Theorem domainset_appends_facet_axes (g g' : general_grid) (p : provider) :
  get_coverage_domainset (Ok g) p = Ok g' ->
  axisLabels g' = (axisLabels g ++ new_axis_name (data p))%list
  /\ skipn (List.length (axis g)) (axis g') = new_axis (data p)
  /\ map label_of (skipn (List.length (axis g)) (axis g'))
     = map Some (new_axis_name (data p))
  /\ List.length (axis g')
     = (List.length (axis g) + List.length (new_axis_name (data p)))%nat.
Proof.
  intros E. destruct (domainset_inv _ _ _ E) as (rt & a1 & a2 & _ & E1 & E2 & ->).
  destruct (set_entry_ok _ _ _ _ _ E1) as (L1 & _ & _).
  destruct (set_entry_ok _ _ _ _ _ E2) as (L2 & _ & _).
  assert (List.length a2 = List.length (axis g)) as L by congruence.
  assert (map label_of (new_axis (data p)) = map Some (new_axis_name (data p)))
    as Hlabels.
  { unfold new_axis, new_axis_name.
    destruct (PyStr.contains "avg_20years" (data p));
      destruct (PyStr.contains "RCP" (data p));
      destruct (PyStr.contains "season" (data p)); reflexivity. }
  cbn [axisLabels axis]. rewrite <- L.
  rewrite skipn_app, skipn_all, Nat.sub_diag. cbn [skipn app].
  repeat split.
  - exact Hlabels.
  - rewrite length_app. f_equal.
    rewrite <- (length_map label_of), Hlabels. apply length_map.
Qed.

(** The axis at index 2 gets the period as its unit label and the value as
    its resolution, its other entries staying; the other axes of the base
    class are as they were. *)
Theorem domainset_rewrites_time_axis (g g' : general_grid) (p : provider) :
  get_coverage_domainset (Ok g) p = Ok g' ->
  exists rt a0 a,
    restime (_coverage_properties p) = Some rt
    /\ nth_error (axis g) 2 = Some a0
    /\ nth_error (axis g') 2 = Some a
    /\ Dict.get "uomLabel" a = Some (JStr (restime_period rt))
    /\ Dict.get "resolution" a = Some (JInt (restime_value rt))
    /\ (forall k, k <> "uomLabel" -> k <> "resolution" ->
                  Dict.get k a = Dict.get k a0)
    /\ (forall j, j <> 2%nat -> (j < List.length (axis g))%nat ->
                  nth_error (axis g') j = nth_error (axis g) j).
Proof.
  intros E. destruct (domainset_inv _ _ _ E) as (rt & a1 & a2 & Hrt & E1 & E2 & ->).
  destruct (set_entry_ok _ _ _ _ _ E1) as (L1 & O1 & (a0 & H0 & H1)).
  destruct (set_entry_ok _ _ _ _ _ E2) as (L2 & O2 & (a0' & H1' & H2)).
  rewrite H1 in H1'. injection H1' as <-.
  assert (2 < List.length a2)%nat as Hlen2.
  { apply nth_error_Some. rewrite H2. discriminate. }
  exists rt, a0, (Dict.set "resolution" (JInt (restime_value rt))
                    (Dict.set "uomLabel" (JStr (restime_period rt)) a0)).
  cbn [axis]. repeat split.
  - exact Hrt.
  - exact H0.
  - rewrite nth_error_app1 by exact Hlen2. exact H2.
  - rewrite get_set_other by discriminate. apply get_set_same.
  - apply get_set_same.
  - intros k Hk1 Hk2. now rewrite !get_set_other by assumption.
  - intros j Hj Hlt.
    rewrite nth_error_app1 by lia. rewrite O2, O1 by exact Hj. reflexivity.
Qed.

(** The constructor and the domain set name the same facet axes, and not in
    the same order: [percentile] is the last one in [axes] and the first one
    among the labels that the domain set adds. *)
Theorem facet_axes_same_members_other_order (locator : string) :
  (forall k, In k (new_axis_name locator) <-> In k (facet_axes locator))
  /\ (PyStr.contains "avg_20years" locator = false ->
      PyStr.contains "RCP" locator = true
      \/ PyStr.contains "season" locator = true ->
      new_axis_name locator <> facet_axes locator
      /\ hd_error (new_axis_name locator) = Some "percentile"
      /\ hd_error (rev (facet_axes locator)) = Some "percentile").
Proof.
  unfold new_axis_name, facet_axes. split.
  - intros k.
    destruct (PyStr.contains "avg_20years" locator);
      destruct (PyStr.contains "RCP" locator);
      destruct (PyStr.contains "season" locator); simpl; tauto.
  - intros -> [-> | ->];
      destruct (PyStr.contains "RCP" locator);
      destruct (PyStr.contains "season" locator);
      repeat split; discriminate.
Qed.

End DomainsetFacts.

Section DomainsetRuns.
#[local] Existing Instance Atlas.host.

Lemma domainset_returns_iff_witness :
  get_coverage_domainset (Ok Atlas.base_grid) Atlas.twenty_years
  = Raise TypeError
  /\ get_coverage_domainset (Ok {| axisLabels := []; axis := [] |})
                            Atlas.monthly
     = Raise IndexError
  /\ exists g', get_coverage_domainset (Ok Atlas.base_grid) Atlas.monthly
                = Ok g'.
Proof.
  split; [|split].
  - apply (proj1 (domainset_returns_iff Atlas.base_grid Atlas.twenty_years)).
    reflexivity.
  - apply (proj1 (proj2 (domainset_returns_iff
                           {| axisLabels := []; axis := [] |}
                           Atlas.monthly))).
    + discriminate.
    + simpl. lia.
  - apply (proj2 (proj2 (domainset_returns_iff Atlas.base_grid
                           Atlas.monthly))).
    split; [discriminate | simpl; lia].
Defined.

Lemma domainset_appends_facet_axes_witness :
  axisLabels Atlas.monthly_grid
  = ["lon"; "lat"; "time"; "percentile"; "scenario"; "season"]
  /\ skipn 3 (axis Atlas.monthly_grid)
     = [percentile_axis; scenario_axis; season_axis].
Proof.
  destruct (domainset_appends_facet_axes Atlas.base_grid Atlas.monthly_grid
              Atlas.monthly eq_refl) as (Hl & Hs & _).
  split; [exact Hl | exact Hs].
Defined.

Lemma domainset_rewrites_time_axis_witness :
  exists a,
    nth_error (axis Atlas.monthly_grid) 2 = Some a
    /\ Dict.get "uomLabel" a = Some (JStr "month")
    /\ Dict.get "resolution" a = Some (JInt 1).
Proof.
  destruct (domainset_rewrites_time_axis Atlas.base_grid Atlas.monthly_grid
              Atlas.monthly eq_refl)
    as (rt & a0 & a & Hrt & _ & Ha & Hu & Hr & _).
  exists a. injection Hrt as <-. split; [exact Ha | split].
  - exact Hu.
  - exact Hr.
Defined.

Lemma facet_axes_same_members_other_order_witness :
  new_axis_name World.rcp26 <> facet_axes World.rcp26
  /\ (In "season" (new_axis_name World.rcp26)
      <-> In "season" (facet_axes World.rcp26)).
Proof.
  split.
  - apply (proj2 (facet_axes_same_members_other_order World.rcp26));
      [reflexivity | now left].
  - apply (proj1 (facet_axes_same_members_other_order World.rcp26)).
Defined.

End DomainsetRuns.

(** ** What the constructor derives *)

Lemma item_ok_length {A} (l : list A) (i : nat) (a : A) :
  item l i = Ok a -> (i < List.length l)%nat.
Proof.
  unfold item. destruct (nth_error l i) eqn:E; [|discriminate].
  intros _. apply nth_error_Some. rewrite E. discriminate.
Qed.

Lemma field_name_ok (field : option string) (name : string) :
  field_name field = Ok name -> field = Some name.
Proof. destruct field; simpl; [now intros [= ->] | discriminate]. Qed.

Section Derived.
Context {H : Host}.

Lemma time_resolution_ok locator (d : Dataset sample) (tf : string)
    (ct : Coordinate sample) (rt : option restime_t) :
  lookup_coord d tf = Ok ct ->
  get_time_resolution locator d tf = Ok rt ->
  rt = (if Nat.ltb 1 (List.length (values ct))
        then Some {| restime_value := 1;
                     restime_period :=
                       if PyStr.contains "monthly_ens" locator
                       then "month" else "year" |}
        else None).
Proof.
  unfold get_time_resolution. intros ->.
  destruct (Nat.ltb 1 (List.length (values ct))); now intros [= <-].
Qed.

(** What a returned dictionary of properties says about the dataset. *)
Lemma coverage_properties_inv locator handle xf yf tf tr props tr' :
  _get_coverage_properties locator handle xf yf tf tr = (Ok props, tr') ->
  exists d time_var y_var x_var,
    handle = Some d
    /\ scan_coords (coords d) None None None = Ok (time_var, y_var, x_var)
    /\ or_else xf x_var = Some (x_axis_label props)
    /\ or_else yf y_var = Some (y_axis_label props)
    /\ or_else tf time_var = Some (time_axis_label props)
    /\ describes props locator d.
Proof.
  unfold _get_coverage_properties. intros E.
  step_ok E. apply lift_ok in E0. destruct E0 as [Hd ->].
  destruct handle as [d|]; [|discriminate]. injection Hd as <-.
  step_ok E. apply lift_ok in E0. destruct E0 as [Hscan ->].
  destruct a as [[time_var y_var] x_var].
  repeat step_ok E.
  repeat match goal with
         | L : lift _ _ = (Ok _, _) |- _ =>
             apply lift_ok in L; destruct L as [L ?]; subst
         end.
  match type of E with
  | context [match ?x with _ => _ end] => destruct x as [[the_crs inv] kind]
  end.
  unfold ret in E. injection E as <- _.
  repeat match goal with
         | L : field_name _ = Ok _ |- _ => apply field_name_ok in L
         end.
  exists d, time_var, y_var, x_var. cbn [x_axis_label y_axis_label
    time_axis_label]. repeat (split; [assumption || reflexivity|]).
  unfold describes.
  cbn [bbox x_axis_label y_axis_label time_axis_label width height time
       restime prop_axes prop_fields].
  repeat match goal with
         | L : item ?l ?i = Ok _ |- _ =>
             lazymatch goal with
             | _ : (i < List.length l)%nat |- _ => fail
             | _ => pose proof (item_ok_length _ _ _ L)
             end
         end.
  match goal with
  | L : get_time_resolution _ _ _ = Ok _, C : lookup_coord _ ?t = Ok ?ct
    |- _ => pose proof (time_resolution_ok _ _ _ _ _ C L)
  end.
  do 7 eexists.
  repeat (split; [eassumption || reflexivity || lia|]).
  reflexivity.
Qed.

Lemma init_inv pd tr p tr' :
  __init__ pd tr = (Ok p, tr') ->
  exists props tr1,
    _get_coverage_properties (pd_data pd) (resolve (pd_data pd))
      (pd_x_field pd) (pd_y_field pd) (pd_time_field pd) tr1
    = (Ok props, tr')
    /\ p = {| data := pd_data pd;
              _data := resolve (pd_data pd);
              x_field := x_axis_label props;
              y_field := y_axis_label props;
              time_field := time_axis_label props;
              _coverage_properties := props;
              axes := ([x_axis_label props; y_axis_label props;
                        time_axis_label props]
                       ++ facet_axes (pd_data pd))%list;
              fields := prop_fields props |}.
Proof.
  intros E. unfold __init__ in E. apply try_ok in E.
  - step_ok E. step_ok E.
    destruct (open_data_run (pd_data pd) tr) as [new [Ho _]].
    rewrite Ho in E0. injection E0 as <- <-.
    unfold ret in E. injection E as <- <-.
    now exists a0, (tr ++ new)%list.
  - intros e s1. unfold bind, emit, raise. simpl. discriminate.
Qed.

(** A provider that the constructor returned: its handle is the dataset that
    the locator opens; its three field names are the axis labels of its
    properties and name coordinates of that dataset, the x and the y one
    with two samples or more, the time one with one or more; bounding box,
    sizes, time resolution and fields are read off that dataset; [axes] is
    the three labels and then the facet axes of the locator. *)
Theorem constructed_provider_describes_dataset pd tr p tr' :
  __init__ pd tr = (Ok p, tr') ->
  exists d,
    _data p = Some d
    /\ resolve (pd_data pd) = Some d
    /\ data p = pd_data pd
    /\ x_field p = x_axis_label (_coverage_properties p)
    /\ y_field p = y_axis_label (_coverage_properties p)
    /\ time_field p = time_axis_label (_coverage_properties p)
    /\ describes (_coverage_properties p) (data p) d
    /\ axes p = ([x_field p; y_field p; time_field p]
                 ++ facet_axes (data p))%list.
Proof.
  intros E. destruct (init_inv _ _ _ _ E) as (props & tr1 & Hp & ->).
  destruct (coverage_properties_inv _ _ _ _ _ _ _ _ Hp)
    as (d & _ & _ & _ & Hd & _ & _ & _ & _ & Hdesc).
  exists d. cbn. rewrite Hd. repeat split. exact Hdesc.
Qed.

(** One step of the loop over the coordinates keeps what was found in the
    rest of them. *)
Ltac scan_step IH E :=
  apply IH in E;
  let n := fresh "n" in
  let c' := fresh "c" in
  first
    [ destruct E as [-> | (n & -> & ? & ?)];
      [ first [ now left | right; eexists; repeat split; [now left | eassumption] ]
      | right; exists n; repeat split; [now right | assumption] ]
    | destruct E as [-> | (n & c' & -> & ? & ? & ?)];
      [ first [ now left
              | right; do 2 eexists; repeat split;
                [now left | eassumption | eassumption] ]
      | right; exists n, c'; repeat split; [now right | assumption..] ] ].

Lemma scan_coords_time (cs : dict (Coordinate sample))
    (t y x t' y' x' : option string) :
  scan_coords cs t y x = Ok (t', y', x') ->
  t' = t \/ exists name, t' = Some name /\ In name (Dict.keys cs)
                         /\ PyStr.lower name = "time".
Proof.
  revert t y x. induction cs as [|[coord c] cs IH]; intros t y x E.
  - simpl in E. injection E as <- <- <-. now left.
  - simpl in E.
    destruct (String.eqb_spec (PyStr.lower coord) "time") as [Ht|Ht].
    + scan_step IH E.
    + destruct (Dict.get "units" (attrs c)) as [u|] eqn:Hu; [|discriminate].
      destruct (String.eqb u "degrees_north");
        [|destruct (String.eqb u "degrees_east")]; scan_step IH E.
Qed.

Lemma scan_coords_y (cs : dict (Coordinate sample))
    (t y x t' y' x' : option string) :
  scan_coords cs t y x = Ok (t', y', x') ->
  y' = y \/ exists name c, y' = Some name /\ In (name, c) cs
                           /\ PyStr.lower name <> "time"
                           /\ Dict.get "units" (attrs c)
                              = Some "degrees_north".
Proof.
  revert t y x. induction cs as [|[coord c] cs IH]; intros t y x E.
  - simpl in E. injection E as <- <- <-. now left.
  - simpl in E.
    destruct (String.eqb_spec (PyStr.lower coord) "time") as [Ht|Ht].
    + scan_step IH E.
    + destruct (Dict.get "units" (attrs c)) as [u|] eqn:Hu; [|discriminate].
      destruct (String.eqb_spec u "degrees_north") as [->|Hn];
        [|destruct (String.eqb u "degrees_east")]; scan_step IH E.
Qed.

Lemma scan_coords_x (cs : dict (Coordinate sample))
    (t y x t' y' x' : option string) :
  scan_coords cs t y x = Ok (t', y', x') ->
  x' = x \/ exists name c, x' = Some name /\ In (name, c) cs
                           /\ PyStr.lower name <> "time"
                           /\ Dict.get "units" (attrs c)
                              = Some "degrees_east".
Proof.
  revert t y x. induction cs as [|[coord c] cs IH]; intros t y x E.
  - simpl in E. injection E as <- <- <-. now left.
  - simpl in E.
    destruct (String.eqb_spec (PyStr.lower coord) "time") as [Ht|Ht].
    + scan_step IH E.
    + destruct (Dict.get "units" (attrs c)) as [u|] eqn:Hu; [|discriminate].
      destruct (String.eqb_spec u "degrees_north") as [->|Hn];
        [|destruct (String.eqb_spec u "degrees_east") as [->|He]];
        scan_step IH E.
Qed.

(** A field name of the provider definition is taken as it is.  Without
    one, the x field is a coordinate in [degrees_east], the y field one in
    [degrees_north], neither of them named time in any case of letters, and
    the time field is a coordinate whose name in lower case is [time]. *)
Theorem field_names_given_or_detected pd tr p tr' :
  __init__ pd tr = (Ok p, tr') ->
  exists d,
    _data p = Some d
    /\ (forall f, pd_x_field pd = Some f -> x_field p = f)
    /\ (forall f, pd_y_field pd = Some f -> y_field p = f)
    /\ (forall f, pd_time_field pd = Some f -> time_field p = f)
    /\ (pd_x_field pd = None -> in_degrees "degrees_east" d (x_field p))
    /\ (pd_y_field pd = None -> in_degrees "degrees_north" d (y_field p))
    /\ (pd_time_field pd = None ->
        In (time_field p) (Dict.keys (coords d))
        /\ PyStr.lower (time_field p) = "time").
Proof.
  intros E. destruct (init_inv _ _ _ _ E) as (props & tr1 & Hp & ->).
  destruct (coverage_properties_inv _ _ _ _ _ _ _ _ Hp)
    as (d & tv & yv & xv & Hd & Hscan & Hx & Hy & Ht & _).
  exists d. cbn [_data x_field y_field time_field]. rewrite Hd.
  split; [reflexivity|].
  split; [intros f Hf; rewrite Hf in Hx; now injection Hx|].
  split; [intros f Hf; rewrite Hf in Hy; now injection Hy|].
  split; [intros f Hf; rewrite Hf in Ht; now injection Ht|].
  split; [|split].
  - intros Hf. rewrite Hf in Hx. simpl in Hx. subst xv.
    destruct (scan_coords_x _ _ _ _ _ _ _ Hscan)
      as [Hn | (n & c & [= <-] & Hin & Hl & Hu)]; [discriminate|].
    now exists c.
  - intros Hf. rewrite Hf in Hy. simpl in Hy. subst yv.
    destruct (scan_coords_y _ _ _ _ _ _ _ Hscan)
      as [Hn | (n & c & [= <-] & Hin & Hl & Hu)]; [discriminate|].
    now exists c.
  - intros Hf. rewrite Hf in Ht. simpl in Ht. subst tv.
    destruct (scan_coords_time _ _ _ _ _ _ _ Hscan)
      as [Hn | (n & [= <-] & Hin & Hl)]; [discriminate|].
    now split.
Qed.

Lemma scan_coords_without_units (cs : dict (Coordinate sample))
    (name : string) (c : Coordinate sample) :
  In (name, c) cs ->
  PyStr.lower name <> "time" ->
  Dict.get "units" (attrs c) = None ->
  forall t y x, scan_coords cs t y x = Raise KeyError.
Proof.
  intros Hin Hl Hu. induction cs as [|[coord c0] cs IH]; [contradiction|].
  intros t y x. simpl.
  destruct Hin as [[= -> ->] | Hin].
  - apply String.eqb_neq in Hl. now rewrite Hl, Hu.
  - specialize (IH Hin).
    destruct (String.eqb (PyStr.lower coord) "time"); [apply IH|].
    destruct (Dict.get "units" (attrs c0)) as [u|]; [|reflexivity].
    destruct (String.eqb u "degrees_north"); [apply IH|].
    destruct (String.eqb u "degrees_east"); apply IH.
Qed.

(** A coordinate that is not named time and has no [units] attribute makes
    the constructor raise a connection error, also when the provider
    definition names the three fields. *)
Theorem coordinate_without_units_fails_construction pd tr
    (d : Dataset sample) (name : string) (c : Coordinate sample) :
  resolve (pd_data pd) = Some d ->
  In (name, c) (coords d) ->
  PyStr.lower name <> "time" ->
  Dict.get "units" (attrs c) = None ->
  fst (__init__ pd tr) = Raise ProviderConnectionError.
Proof.
  intros Hd Hin Hl Hu.
  destruct (__init__ pd tr) as [[p|e] tr'] eqn:E.
  - exfalso. destruct (init_inv _ _ _ _ E) as (props & tr1 & Hp & _).
    destruct (coverage_properties_inv _ _ _ _ _ _ _ _ Hp)
      as (d' & tv & yv & xv & Hd' & Hscan & _).
    rewrite Hd in Hd'. injection Hd' as <-.
    rewrite (scan_coords_without_units _ _ _ Hin Hl Hu) in Hscan.
    discriminate.
  - simpl. f_equal. exact (init_raises_connection_error _ _ _ _ E).
Qed.

(** A dataset with one sample on the time axis: the constructor returns, the
    properties have no time resolution, and the domain set of the provider
    cannot be had, [get_coverage_domainset] raising [TypeError]. *)
Theorem single_time_sample_has_no_domainset pd tr p tr'
    (d : Dataset sample) (ct : Coordinate sample) (g : general_grid) :
  __init__ pd tr = (Ok p, tr') ->
  _data p = Some d ->
  lookup_coord d (time_field p) = Ok ct ->
  List.length (values ct) = 1%nat ->
  restime (_coverage_properties p) = None
  /\ get_coverage_domainset (Ok g) p = Raise TypeError.
Proof.
  intros E Hd Hct Hlen.
  destruct (init_inv _ _ _ _ E) as (props & tr1 & Hp & ->).
  destruct (coverage_properties_inv _ _ _ _ _ _ _ _ Hp)
    as (d' & _ & _ & _ & Hd' & _ & _ & _ & _ & Hdesc).
  cbn [_data time_field _coverage_properties] in *.
  rewrite Hd' in Hd. injection Hd as ->.
  destruct Hdesc as (cx & cy & ct' & x0 & y0 & x1 & y1 & _ & _ & Hct' & _
                     & _ & _ & _ & _ & _ & _ & _ & _ & _ & _ & Hrt & _).
  rewrite Hct in Hct'. injection Hct' as <-.
  rewrite Hlen in Hrt. cbn in Hrt.
  split; [exact Hrt|].
  unfold get_coverage_domainset. cbn [_coverage_properties]. now rewrite Hrt.
Qed.

End Derived.

Section DerivedRuns.
#[local] Existing Instance Atlas.host.

Lemma constructed_provider_describes_dataset_witness :
  exists d,
    _data Atlas.on_rotated = Some d
    /\ axes Atlas.on_rotated = ["lon"; "lat"; "Time"; "percentile"].
Proof.
  destruct (constructed_provider_describes_dataset (H := Atlas.host)
              (Atlas.definition Atlas.rotated_nc) [] Atlas.on_rotated
              [OpenCall Atlas.rotated_nc] eq_refl)
    as (d & Hd & _ & _ & _ & _ & _ & _ & Haxes).
  exists d. split; [exact Hd | exact Haxes].
Defined.

Lemma field_names_given_or_detected_witness :
  in_degrees "degrees_east" Atlas.rotated (x_field Atlas.on_rotated)
  /\ PyStr.lower (time_field Atlas.on_rotated) = "time".
Proof.
  destruct (field_names_given_or_detected (H := Atlas.host)
              (Atlas.definition Atlas.rotated_nc) [] Atlas.on_rotated
              [OpenCall Atlas.rotated_nc] eq_refl)
    as (d & Hd & _ & _ & _ & Hx & _ & Ht).
  injection Hd as <-. split.
  - exact (Hx eq_refl).
  - exact (proj2 (Ht eq_refl)).
Defined.

Lemma coordinate_without_units_fails_construction_witness :
  fst (__init__ {| pd_data := Atlas.levels_nc; pd_x_field := Some "lon";
                   pd_y_field := Some "lat"; pd_time_field := Some "time" |}
                [])
  = Raise ProviderConnectionError.
Proof.
  apply (coordinate_without_units_fails_construction (H := Atlas.host)
           {| pd_data := Atlas.levels_nc; pd_x_field := Some "lon";
              pd_y_field := Some "lat"; pd_time_field := Some "time" |}
           [] Atlas.levels "height"
           {| values := [World.Number 2]; attrs := [] |}).
  - reflexivity.
  - simpl. tauto.
  - discriminate.
  - reflexivity.
Defined.

Lemma single_time_sample_has_no_domainset_witness :
  get_coverage_domainset (Ok Atlas.base_grid) Atlas.twenty_years
  = Raise TypeError.
Proof.
  apply (proj2 (single_time_sample_has_no_domainset (H := Atlas.host)
                  (Atlas.definition Atlas.averages_nc) [] Atlas.twenty_years
                  [OpenCall Atlas.averages_nc] Atlas.averages
                  Atlas.single_time Atlas.base_grid
                  eq_refl eq_refl eq_refl eq_refl)).
Defined.

End DerivedRuns.

(** ** What a query leaves as it was *)

Section Kept.
Context {H : Host}.

Local Abbreviation value := (pyval pyfloat).

Lemma same_cache_refl (s : state) : same_cache s s.
Proof. repeat split. Qed.

Lemma same_cache_trans (a b c : state) :
  same_cache a b -> same_cache b c -> same_cache a c.
Proof. unfold same_cache. intuition congruence. Qed.

Lemma same_cache_event (s : state) (e : event) :
  any_event e -> same_cache s (add_event s e).
Proof. repeat split. Qed.

Lemma same_cache_swap (s : state) locator new :
  open_events locator new -> same_cache s (relocated s locator new).
Proof. repeat split. Qed.

Lemma same_self_cache (s s' : state) : same_self s s' -> same_cache s s'.
Proof. unfold same_self, same_cache. intros ->. repeat split. Qed.

Lemma query_same_cache range_subset subsets bbox_ datetime_ format_ :
  respects same_cache (query range_subset subsets bbox_ datetime_ format_).
Proof.
  unfold query, query_body.
  apply (respects_bind same_cache same_cache_trans).
  - apply (facet_pass_respects same_cache any_event same_cache_refl
             same_cache_trans same_cache_event same_cache_swap
             any_log any_exn).
  - intros subsets'.
    apply (respects_weaken same_self); [apply same_self_cache|].
    apply after_facets_same_self.
Qed.

(** No query writes the field names, the properties, [axes] or [fields]:
    whatever was selected since, a provider has the ones that its
    constructor derived from the first dataset. *)
Theorem derived_properties_are_never_recomputed :
  (forall range_subset subsets bbox_ datetime_ format_ (s : state),
     same_cache s (snd (query range_subset subsets bbox_ datetime_
                              format_ s)))
  /\ (forall p, reachable p ->
        exists pd tr p0 tr',
          __init__ pd tr = (Ok p0, tr')
          /\ _coverage_properties p = _coverage_properties p0
          /\ x_field p = x_field p0 /\ y_field p = y_field p0
          /\ time_field p = time_field p0
          /\ axes p = axes p0 /\ fields p = fields p0).
Proof.
  split.
  - intros. apply query_same_cache.
  - induction 1 as [pd tr p tr' E | p tr rs subsets bbox_ dt fmt r s' _ IH E].
    + exists pd, tr, p, tr'. repeat split. exact E.
    + destruct IH as (pd & tr0 & p0 & tr' & E0 & Hp & Hx & Hy & Ht & Ha & Hf).
      pose proof (query_same_cache rs subsets bbox_ dt fmt
                    {| self := p; trace := tr |}) as Hq.
      rewrite E in Hq. destruct Hq as (Qx & Qy & Qt & Qp & Qa & Qf).
      cbn [fst snd self] in *.
      exists pd, tr0, p0, tr'. repeat split; congruence.
Qed.

(** A query whose [subsets] has none of the three facets leaves the provider
    as it was, locator and handle too, and opens nothing, whether it returns
    or raises. *)
Theorem query_without_facets_keeps_provider range_subset
    (subsets : dict (list value)) bbox_ datetime_ format_ (s : state) :
  Dict.get "scenario" subsets = None ->
  Dict.get "percentile" subsets = None ->
  Dict.get "season" subsets = None ->
  self (snd (query range_subset (Some subsets) bbox_ datetime_ format_ s))
  = self s
  /\ extends not_open_call s
       (snd (query range_subset (Some subsets) bbox_ datetime_ format_ s)).
Proof.
  intros Hc Hp Hs.
  assert (facet_pass subsets s = (Ok subsets, s)) as E.
  { rewrite (facet_pass_scenario_only subsets s Hp Hs).
    now apply scenario_block_absent. }
  exact (query_noop_outcome range_subset subsets subsets bbox_ datetime_
           format_ s E).
Qed.

End Kept.

Section KeptRuns.
#[local] Existing Instance World.host.

Lemma derived_properties_are_never_recomputed_witness :
  fields World.on_rcp85 = fields World.fresh
  /\ data World.on_rcp85 <> data World.fresh
  /\ exists pd tr p0 tr',
       __init__ pd tr = (Ok p0, tr')
       /\ _coverage_properties World.on_rcp85 = _coverage_properties p0.
Proof.
  destruct (derived_properties_are_never_recomputed (H := World.host))
    as (Hquery & Hreach).
  destruct (Hquery None (Some [("scenario", [PyStr "RCP8.5"])]) None None
                   None World.start) as (_ & _ & _ & _ & _ & Hf).
  destruct (Hreach World.on_rcp85 on_rcp85_reachable)
    as (pd & tr & p0 & tr' & E & Hp & _).
  split; [exact Hf | split; [discriminate|]].
  exists pd, tr, p0, tr'. split; [exact E | exact Hp].
Defined.

Lemma query_without_facets_keeps_provider_witness :
  self (snd (query None (Some [("lon", [PyInt 10; PyInt 20])]) None None None
                   World.start))
  = World.fresh.
Proof.
  exact (proj1 (query_without_facets_keeps_provider (H := World.host)
                  None [("lon", [PyInt 10; PyInt 20])] None None None
                  World.start eq_refl eq_refl eq_refl)).
Defined.

End KeptRuns.

(** ** The datetime and the bounding box *)

Lemma no_slash_head (c : ascii) (s : string) :
  PyStr.contains "/" (String c s) = false ->
  Ascii.eqb c "/" = false /\ PyStr.contains "/" s = false.
Proof.
  intros E.
  change (String.prefix "/" (String c s) || PyStr.contains "/" s = false)%bool
    in E.
  apply orb_false_iff in E. destruct E as [Hp Hc]. split; [|exact Hc].
  simpl in Hp. destruct (ascii_dec "/" c) as [<-|N].
  - destruct s; discriminate.
  - apply Ascii.eqb_neq. congruence.
Qed.

Lemma split_on_no_slash (s : string) :
  PyStr.contains "/" s = false -> split_on "/" s = [s].
Proof.
  induction s as [|c s IH]; intros E; [reflexivity|].
  apply no_slash_head in E. destruct E as [Hc Hs].
  simpl. rewrite Hc, (IH Hs). reflexivity.
Qed.

Lemma split_on_pair (a b : string) :
  PyStr.contains "/" a = false -> PyStr.contains "/" b = false ->
  split_on "/" (a ++ "/" ++ b) = [a; b].
Proof.
  intros Ha Hb. induction a as [|c a IH].
  - simpl. now rewrite (split_on_no_slash b Hb).
  - apply no_slash_head in Ha. destruct Ha as [Hc Ha].
    simpl. rewrite Hc. simpl in IH. rewrite (IH Ha). reflexivity.
Qed.

Lemma split_on_not_empty (sep : ascii) (s : string) : split_on sep s <> [].
Proof.
  destruct s as [|c s]; simpl; [discriminate|].
  destruct (Ascii.eqb c sep); [discriminate|].
  destruct (split_on sep s); discriminate.
Qed.

Lemma split_on_length (sep : ascii) (a r : string) :
  List.length (split_on sep (a ++ String sep r))
  = (List.length (split_on sep a) + List.length (split_on sep r))%nat.
Proof.
  induction a as [|c a IH]; simpl.
  - now rewrite Ascii.eqb_refl.
  - destruct (Ascii.eqb c sep); simpl; [now rewrite IH|].
    pose proof (split_on_not_empty sep (a ++ String sep r)) as N1.
    pose proof (split_on_not_empty sep a) as N2.
    destruct (split_on sep (a ++ String sep r)); [now elim N1|].
    destruct (split_on sep a); [now elim N2|].
    simpl in *. exact IH.
Qed.

Lemma contains_slash_app (a r : string) :
  PyStr.contains "/" (a ++ "/" ++ r) = true.
Proof.
  induction a as [|c a IH].
  - exact (contains_app_l "/" r).
  - apply contains_cons. exact IH.
Qed.

Lemma ltb_false_leb (a b : string) :
  String.ltb a b = false -> String.leb b a = true.
Proof.
  unfold String.ltb, String.leb. rewrite (String.compare_antisym a b).
  destruct (String.compare b a); simpl; congruence.
Qed.

Lemma ltb_true_leb (a b : string) :
  String.ltb a b = true -> String.leb a b = true.
Proof.
  unfold String.ltb, String.leb. destruct (String.compare a b); congruence.
Qed.

Section Steps.
Context {H : Host}.

Local Abbreviation value := (pyval pyfloat).
Local Abbreviation params := (dict (qparam pyfloat)).

(** A datetime, the time axis not being named in [subsets].  Without a
    slash it is the label selected on the time field.  Two parts around one
    slash give a slice whose start is not after its stop as strings
    compare, the parts being exchanged when the first is not before the
    second.  Two slashes or more raise [ValueError]. *)
Theorem datetime_becomes_ordered_slice (p : provider)
    (subsets : dict (list value)) (query_params : params) (s : state) :
  Dict.mem (time_axis_label (_coverage_properties p)) subsets = false ->
  (forall dt,
     PyStr.contains "/" dt = false ->
     datetime_step p subsets (Some dt) query_params s
     = (Ok (Dict.set (time_field p) (Point dt) query_params), s))
  /\ (forall a b,
        PyStr.contains "/" a = false -> PyStr.contains "/" b = false ->
        exists lo hi s',
          datetime_step p subsets (Some (a ++ "/" ++ b)) query_params s
          = (Ok (Dict.set (time_field p) (Slice (PyStr lo) (PyStr hi))
                          query_params), s')
          /\ String.leb lo hi = true
          /\ ((lo = a /\ hi = b) \/ (lo = b /\ hi = a))
          /\ self s' = self s)
  /\ (forall a b c,
        datetime_step p subsets (Some (a ++ "/" ++ b ++ "/" ++ c))
                      query_params s
        = (Raise ValueError, s)).
Proof.
  intros Hmem. unfold datetime_step. rewrite Hmem. split; [|split].
  - intros dt Hdt. now rewrite Hdt.
  - intros a b Ha Hb.
    rewrite contains_slash_app, (split_on_pair a b Ha Hb).
    destruct (String.ltb a b) eqn:Hlt.
    + exists a, b, s. repeat split; [now apply ltb_true_leb | now left].
    + exists b, a, (add_event s (Log DEBUG "Reversing slicing from high to low")).
      repeat split; [now apply ltb_false_leb | now right].
  - intros a b c. rewrite contains_slash_app.
    pose proof (split_on_length "/" a (b ++ "/" ++ c)) as L1.
    pose proof (split_on_length "/" b c) as L2.
    pose proof (split_on_not_empty "/" a) as Na.
    pose proof (split_on_not_empty "/" b) as Nb.
    pose proof (split_on_not_empty "/" c) as Nc.
    change (a ++ "/" ++ b ++ "/" ++ c) with (a ++ String "/" (b ++ "/" ++ c)).
    change (b ++ "/" ++ c) with (b ++ String "/" c) in L1, L2 |- *.
    destruct (split_on "/" (a ++ String "/" (b ++ String "/" c)))
      as [|x1 [|x2 [|x3 l]]]; try reflexivity.
    exfalso. rewrite L2 in L1.
    destruct (split_on "/" a); [now elim Na|].
    destruct (split_on "/" b); [now elim Nb|].
    destruct (split_on "/" c); [now elim Nc|].
    simpl in L1. lia.
Qed.

(** A bounding box when [subsets] does not name both the x and the y axis.
    With four entries or more the x axis gets [slice(bbox[0], bbox[2])] and
    the y axis [slice(bbox[3], bbox[1])], in place of what the loop over
    [subsets] had put there.  With one, two or three entries the step raises
    [IndexError]. *)
Theorem bbox_sets_both_slices (p : provider) (subsets : dict (list value))
    (bbox_ : list value) (query_params : params) (s : state) :
  truthy bbox_ = true ->
  (Dict.mem (x_axis_label (_coverage_properties p)) subsets
   && Dict.mem (y_axis_label (_coverage_properties p)) subsets)%bool = false ->
  ((List.length bbox_ < 4)%nat ->
   bbox_step p subsets bbox_ query_params s = (Raise IndexError, s))
  /\ (forall b0 b1 b2 b3 more, bbox_ = b0 :: b1 :: b2 :: b3 :: more ->
      exists query_params',
        bbox_step p subsets bbox_ query_params s = (Ok query_params', s)
        /\ Dict.get (y_axis_label (_coverage_properties p)) query_params'
           = Some (Slice b3 b1)
        /\ (x_axis_label (_coverage_properties p)
            <> y_axis_label (_coverage_properties p) ->
            Dict.get (x_axis_label (_coverage_properties p)) query_params'
            = Some (Slice b0 b2))
        /\ (forall key,
              key <> x_axis_label (_coverage_properties p) ->
              key <> y_axis_label (_coverage_properties p) ->
              Dict.get key query_params' = Dict.get key query_params)).
Proof.
  intros Hb Hnot. unfold bbox_step. rewrite Hb, Hnot. cbn [andb]. split.
  - intros Hlen.
    destruct bbox_ as [|b0 [|b1 [|b2 [|b3 more]]]];
      try discriminate; try reflexivity.
    simpl in Hlen. lia.
  - intros b0 b1 b2 b3 more ->.
    eexists. split; [reflexivity | split; [|split]].
    + apply get_set_same.
    + intros Hxy. rewrite get_set_other by exact Hxy. apply get_set_same.
    + intros key Hx Hy. now rewrite !get_set_other by assumption.
Qed.

End Steps.

Section StepsRuns.
#[local] Existing Instance World.host.

Lemma datetime_becomes_ordered_slice_witness :
  datetime_step World.fresh [] (Some "2050") [] World.start
  = (Ok [("time", Point "2050")], World.start)
  /\ (exists lo hi s',
        datetime_step World.fresh [] (Some "2050-01/2020-01") [] World.start
        = (Ok [("time", Slice (PyStr lo) (PyStr hi))], s')
        /\ String.leb lo hi = true)
  /\ datetime_step World.fresh [] (Some "2020/2030/2040") [] World.start
     = (Raise ValueError, World.start).
Proof.
  destruct (datetime_becomes_ordered_slice (H := World.host) World.fresh []
              [] World.start eq_refl) as (Hpoint & Hslice & Hmany).
  split; [|split].
  - exact (Hpoint "2050" eq_refl).
  - destruct (Hslice "2050-01" "2020-01" eq_refl eq_refl)
      as (lo & hi & s' & E & Hle & _).
    exists lo, hi, s'. split; [exact E | exact Hle].
  - exact (Hmany "2020" "2030" "2040").
Defined.

Lemma bbox_sets_both_slices_witness :
  bbox_step World.fresh [("lon", [PyInt 10; PyInt 20])]
            [PyInt 0; PyInt 0; PyInt 25] [] World.start
  = (Raise IndexError, World.start)
  /\ exists query_params',
       bbox_step World.fresh [("lon", [PyInt 10; PyInt 20])]
                 [PyInt 0; PyInt 40; PyInt 25; PyInt 55]
                 [("lon", Slice (PyInt 10) (PyInt 20))] World.start
       = (Ok query_params', World.start)
       /\ Dict.get "lon" query_params' = Some (Slice (PyInt 0) (PyInt 25))
       /\ Dict.get "lat" query_params' = Some (Slice (PyInt 55) (PyInt 40)).
Proof.
  split.
  - apply (proj1 (bbox_sets_both_slices (H := World.host) World.fresh
                    [("lon", [PyInt 10; PyInt 20])]
                    [PyInt 0; PyInt 0; PyInt 25] [] World.start
                    eq_refl eq_refl)).
    simpl. lia.
  - destruct (proj2 (bbox_sets_both_slices (H := World.host) World.fresh
                       [("lon", [PyInt 10; PyInt 20])]
                       [PyInt 0; PyInt 40; PyInt 25; PyInt 55]
                       [("lon", Slice (PyInt 10) (PyInt 20))] World.start
                       eq_refl eq_refl)
                    (PyInt 0) (PyInt 40) (PyInt 25) (PyInt 55) [] eq_refl)
      as (q & E & Hy & Hx & _).
    exists q. split; [exact E | split; [|exact Hy]].
    apply Hx. discriminate.
Defined.

End StepsRuns.

(** ** A datetime and a named time axis *)

Section Temporal.
Context {H : Host}.

Local Abbreviation value := (pyval pyfloat).

Lemma bbox_step_no_loc p (subsets : dict (list value)) bbox_ query_params :
  respects (extends not_loc_call) (bbox_step p subsets bbox_ query_params).
Proof.
  apply (bbox_step_respects (extends not_loc_call) not_loc_call
           (extends_refl _) (extends_trans _) (extends_event _)).
  intros; intros [].
Qed.

Lemma subset_data_temporal_run (p : provider) (d : Dataset sample)
    (subsets : dict (list value)) (bbox_ : list value) (dt : string)
    (s : state) :
  Dict.mem (time_axis_label (_coverage_properties p)) subsets = true ->
  subset_data p d subsets bbox_ (Some dt) s
  = match orient d subsets [] (add_event s creating_record) with
    | (Ok query_params, s2) =>
        match bbox_step p subsets bbox_ query_params s2 with
        | (Ok _, s3) =>
            (Raise ProviderQueryError, add_event s3 temporal_exclusive_record)
        | (Raise e, s3) => (Raise e, s3)
        end
    | (Raise e, s2) => (Raise e, s2)
    end.
Proof.
  intros Hmem.
  unfold subset_data, wants_subset. rewrite Hmem.
  rewrite orb_true_r. cbn [orb].
  unfold build_query_params, datetime_step. rewrite Hmem.
  unfold bind, log, emit, raise, add_event, creating_record,
    temporal_exclusive_record.
  cbn [self trace].
  destruct (orient d subsets [] _) as [[query_params|e] s2]; [|reflexivity].
  destruct (bbox_step p subsets bbox_ query_params s2) as [[q|e] s3];
    reflexivity.
Qed.

(** A query with a datetime and with a subset on the time axis never returns
    and never calls [data.loc].  When the facet blocks, the selection of the
    variables, the loop over [subsets] and the bounding box raise nothing,
    what it raises is the query error of line 359. *)
Theorem datetime_with_time_subset_rejected range_subset
    (subsets : dict (list value)) bbox_ (dt : string) format_ (s : state) :
  Dict.mem (time_axis_label (_coverage_properties (self s))) subsets = true ->
  is_facet (time_axis_label (_coverage_properties (self s))) = false ->
  let r := query range_subset (Some subsets) bbox_ (Some dt) format_ s in
  (forall out, fst r <> Ok out)
  /\ extends not_loc_call s (snd r)
  /\ (forall subsets' s1 d0 d1 query_params s2 query_params' s3,
        facet_pass subsets s = (Ok subsets', s1) ->
        _data (self s1) = Some d0 ->
        getitem d0 (or_default ["tas"] range_subset) = Ok d1 ->
        orient d1 subsets' [] (add_event s1 creating_record)
        = (Ok query_params, s2) ->
        bbox_step (self s1) subsets' (or_default [] bbox_) query_params s2
        = (Ok query_params', s3) ->
        r = (Raise ProviderQueryError,
             add_event s3 temporal_exclusive_record)).
Proof.
  intros Ht Hft. cbv zeta. rewrite query_unfold.
  pose proof (facet_pass_no_loc subsets s) as Hf.
  pose proof (facet_pass_same_fields subsets s) as Hsame.
  pose proof (facet_pass_result subsets s) as Hres.
  destruct (facet_pass subsets s) as [[subsets'|e] s1]; cbn [fst snd] in *.
  2:{ split; [intros out; discriminate | split; [exact Hf|]].
      intros; discriminate. }
  destruct Hsame as (_ & _ & _ & Hprops).
  assert (Dict.mem (time_axis_label (_coverage_properties (self s1))) subsets'
          = true) as Ht'.
  { rewrite Hprops. unfold is_facet in Hft.
    apply orb_false_iff in Hft. destruct Hft as [Hk Hk3].
    apply orb_false_iff in Hk. destruct Hk as [Hk1 Hk2].
    apply String.eqb_neq in Hk1, Hk2, Hk3.
    subst subsets'. now rewrite !mem_pop_other by assumption. }
  unfold after_facets, fast_path.
  rewrite (mem_truthy _ _ Ht'). cbn [negb].
  rewrite andb_false_r. cbn [andb].
  rewrite slow_path_unfold.
  destruct (_data (self s1)) as [d0|] eqn:Hd0; cbn [fst snd].
  2:{ split; [intros out; discriminate | split; [exact Hf|]].
      intros ? ? ? ? ? ? ? ? [= <- <-] Hd. congruence. }
  destruct (getitem d0 (or_default ["tas"] range_subset)) as [d1|e] eqn:Hg;
    cbn [fst snd].
  2:{ split; [intros out; discriminate | split; [exact Hf|]].
      intros ? ? ? ? ? ? ? ? [= <- <-] Hd Hg'. congruence. }
  rewrite (subset_data_temporal_run _ _ _ _ _ _ Ht').
  assert (not_loc_call creating_record) as Hc by (intros []).
  assert (not_loc_call temporal_exclusive_record) as He by (intros []).
  pose proof (orient_no_loc d1 subsets' [] (add_event s1 creating_record))
    as Ho.
  pose proof (extends_trans _ _ _ _ Hf
                (extends_trans _ _ _ _ (extends_event _ s1 _ Hc) Ho)) as Hso.
  destruct (orient d1 subsets' [] (add_event s1 creating_record))
    as [[query_params|e] s2] eqn:Eo; cbn [fst snd] in *.
  2:{ split; [intros out; discriminate | split; [exact Hso|]].
      intros ? ? ? ? ? ? ? ? [= <- <-] Hd Hg' Ho'.
      rewrite Hd0 in Hd. injection Hd as <-.
      rewrite Hg in Hg'. injection Hg' as <-. congruence. }
  pose proof (bbox_step_no_loc (self s1) subsets' (or_default [] bbox_)
                query_params s2) as Hb.
  destruct (bbox_step (self s1) subsets' (or_default [] bbox_) query_params
                      s2) as [[q|e] s3] eqn:Eb; cbn [fst snd] in *.
  - split; [intros out; discriminate | split].
    + exact (extends_trans _ _ _ _ Hso
               (extends_trans _ _ _ _ Hb (extends_event _ s3 _ He))).
    + intros ? ? ? ? ? ? ? ? [= <- <-] Hd Hg' Ho' Hb'.
      rewrite Hd0 in Hd. injection Hd as <-.
      rewrite Hg in Hg'. injection Hg' as <-.
      rewrite Eo in Ho'. injection Ho' as <- <-.
      rewrite Eb in Hb'. injection Hb' as _ <-. reflexivity.
  - split; [intros out; discriminate | split].
    + exact (extends_trans _ _ _ _ Hso Hb).
    + intros ? ? ? ? ? ? ? ? [= <- <-] Hd Hg' Ho' Hb'.
      rewrite Hd0 in Hd. injection Hd as <-.
      rewrite Hg in Hg'. injection Hg' as <-.
      rewrite Eo in Ho'. injection Ho' as <- <-.
      rewrite Eb in Hb'. discriminate.
Qed.

End Temporal.

Section TemporalRuns.
#[local] Existing Instance World.host.

Lemma datetime_with_time_subset_rejected_witness :
  query None (Some [("time", [PyStr "2020"; PyStr "2030"])]) None
        (Some "2020/2030") None World.start
  = (Raise ProviderQueryError,
     {| self := World.fresh;
        trace := [creating_record; temporal_exclusive_record] |}).
Proof.
  refine (proj2 (proj2 (datetime_with_time_subset_rejected (H := World.host)
                          None [("time", [PyStr "2020"; PyStr "2030"])]
                          None "2020/2030" None World.start
                          eq_refl eq_refl))
                [("time", [PyStr "2020"; PyStr "2030"])]
                World.start (World.grid "rcp26 pctl50 DJF")
                (match World.select_vars (World.grid "rcp26 pctl50 DJF")
                                         ["tas"] with
                 | Ok d => d
                 | Raise _ => World.grid ""
                 end)
                [("time", Slice (PyStr "2020") (PyStr "2030"))]
                {| self := World.fresh; trace := [creating_record] |}
                [("time", Slice (PyStr "2020") (PyStr "2030"))]
                {| self := World.fresh; trace := [creating_record] |}
                _ _ _ _ _); vm_compute; reflexivity.
Defined.

End TemporalRuns.

(** ** What a query returns and what it raises *)

Section Outcome.
Context {H : Host}.

Local Abbreviation value := (pyval pyfloat).
Local Abbreviation params := (dict (qparam pyfloat)).

Lemma respond_ok (p : provider) (d : Dataset sample) range_subset format_
    (s s' : state) (out : output) :
  respond p d range_subset format_ s = (Ok out, s') ->
  match out with
  | gen_covjson _ d' names =>
      format_ = "json" /\ names = range_subset /\ d' = d
  | _get_zarr_data handle => format_ = "zarr" /\ handle = Some d
  | read_data _ => False
  | to_netcdf d' => format_ <> "json" /\ format_ <> "zarr" /\ d' = d
  end.
Proof.
  unfold respond. intros E. do 3 step_ok E.
  destruct (String.eqb_spec format_ "json") as [Hj|Hj].
  - step_ok E. unfold ret in E. injection E as <- _. now repeat split.
  - destruct (String.eqb_spec format_ "zarr") as [Hz|Hz].
    + step_ok E. unfold ret in E. injection E as <- _. now split.
    + step_ok E. unfold ret in E. injection E as <- _. now repeat split.
Qed.

(** A query that returns: for json the result is the coverage object of the
    requested variables; for zarr it is the zarr encoding; for any other
    format it is the NetCDF encoding, or, on the fast path alone, the file
    of the locator as it is, which needs the empty list of variables. *)
Theorem result_encoder_follows_format range_subset subsets bbox_ datetime_
    format_ (s s' : state) (out : output) :
  query range_subset subsets bbox_ datetime_ format_ s = (Ok out, s') ->
  match out with
  | gen_covjson _ _ names =>
      or_default "json" format_ = "json"
      /\ names = or_default ["tas"] range_subset
  | _get_zarr_data _ => or_default "json" format_ = "zarr"
  | read_data locator =>
      or_default "json" format_ <> "json"
      /\ or_default "json" format_ <> "zarr"
      /\ range_subset = Some []
      /\ locator = data (self s')
  | to_netcdf _ =>
      or_default "json" format_ <> "json"
      /\ or_default "json" format_ <> "zarr"
  end.
Proof.
  unfold query, query_body. intros E. step_ok E. unfold after_facets in E.
  destruct (fast_path (or_default ["tas"] range_subset) a
                      (or_default "json" format_)) eqn:Hfast.
  - unfold fast_path in Hfast.
    apply andb_true_iff in Hfast. destruct Hfast as [Hfast Hj].
    apply andb_true_iff in Hfast. destruct Hfast as [Hrs _].
    apply negb_true_iff in Hj. apply String.eqb_neq in Hj.
    unfold bind, log, emit, get_self, ret in E. cbn [self trace] in E.
    destruct (String.eqb_spec (or_default "json" format_) "zarr") as [Hz|Hz];
      injection E as <- <-.
    + exact Hz.
    + repeat split; try assumption.
      destruct range_subset as [[|x l]|]; simpl in Hrs;
        [reflexivity | discriminate | discriminate].
  - unfold slow_path in E. do 3 step_ok E.
    apply respond_ok in E. destruct out; intuition.
Qed.

(** What the array library raises when the variables are selected reaches
    the caller as it is, the selection being outside every [try]; what
    [data.loc] raises reaches the caller as a query error, after a warning
    with the exception. *)
Theorem selection_errors_pass_loc_errors_wrapped range_subset
    (subsets subsets' : dict (list value)) bbox_ datetime_ format_
    (s s1 : state) (d0 : Dataset sample) :
  facet_pass subsets s = (Ok subsets', s1) ->
  fast_path (or_default ["tas"] range_subset) subsets'
            (or_default "json" format_) = false ->
  _data (self s1) = Some d0 ->
  (forall e,
     getitem d0 (or_default ["tas"] range_subset) = Raise e ->
     query range_subset (Some subsets) bbox_ datetime_ format_ s
     = (Raise e, s1))
  /\ (forall d1 query_params s2 e,
        getitem d0 (or_default ["tas"] range_subset) = Ok d1 ->
        wants_subset (self s1) subsets' (or_default [] bbox_) datetime_
        = true ->
        build_query_params (self s1) d1 subsets' (or_default [] bbox_)
                           datetime_ (add_event s1 creating_record)
        = (Ok query_params, s2) ->
        loc d1 query_params = Raise e ->
        query range_subset (Some subsets) bbox_ datetime_ format_ s
        = (Raise ProviderQueryError,
           add_event (add_event (add_event s2 (LogParams query_params))
                                (LocCall query_params))
                     (LogExn WARNING e))).
Proof.
  intros Hf Hfast Hd. split.
  - intros e Hg. rewrite query_unfold, Hf. unfold after_facets.
    rewrite Hfast, slow_path_unfold, Hd, Hg. reflexivity.
  - intros d1 query_params s2 e Hg Hw Hb Hl.
    rewrite query_unfold, Hf. unfold after_facets.
    rewrite Hfast, slow_path_unfold, Hd, Hg.
    rewrite (subset_data_unfold _ _ _ _ _ _ Hw), Hb. cbv zeta.
    now rewrite Hl.
Qed.

(** A scenario whose file cannot be opened: the facet block raises nothing
    and leaves the provider without a handle, and the query, off the fast
    path, raises [TypeError] where it selects the variables. *)
Theorem scenario_without_file_raises_type_error range_subset
    (subsets : dict (list value)) bbox_ datetime_ format_ (s : state)
    (v : string) :
  Dict.get "scenario" subsets = Some [PyStr v] ->
  v <> "RCP2.6" -> v <> "hist" ->
  Dict.get "percentile" subsets = None ->
  Dict.get "season" subsets = None ->
  resolve (PyStr.replace "2.6" (PyStr.replace "RCP" "" v) (data (self s)))
  = None ->
  fast_path (or_default ["tas"] range_subset) (Dict.pop "scenario" subsets)
            (or_default "json" format_) = false ->
  fst (query range_subset (Some subsets) bbox_ datetime_ format_ s)
  = Raise TypeError
  /\ _data (self (snd (query range_subset (Some subsets) bbox_ datetime_
                              format_ s)))
     = None
  /\ data (self (snd (query range_subset (Some subsets) bbox_ datetime_
                             format_ s)))
     = PyStr.replace "2.6" (PyStr.replace "RCP" "" v) (data (self s)).
Proof.
  intros Hget H26 Hhist Hp Hs Hnone Hfast.
  destruct (scenario_block_swap subsets v s Hget H26 Hhist)
    as [events [E _]].
  rewrite <- (facet_pass_scenario_only subsets s Hp Hs) in E.
  rewrite query_unfold, E. unfold after_facets.
  rewrite Hfast, slow_path_unfold.
  unfold relocated. cbn [self _data with_handle with_data data].
  rewrite Hnone. repeat split.
Qed.

End Outcome.

Section OutcomeRuns.
#[local] Existing Instance World.host.

Lemma result_encoder_follows_format_witness :
  or_default "json" (Some "zarr") = "zarr".
Proof.
  exact (result_encoder_follows_format (H := World.host)
           (Some []) None None None (Some "zarr") World.start
           (add_event World.start fast_path_record)
           (_get_zarr_data (_data World.fresh)) eq_refl).
Defined.

Lemma selection_errors_pass_loc_errors_wrapped_witness :
  query (Some ["pr"]) None None None None World.start
  = (Raise KeyError, World.start)
  /\ fst (query None (Some [("lon", [PyStr "a"; PyStr "b"])]) None None None
                World.start)
     = Raise ProviderQueryError.
Proof.
  split.
  - apply (proj1 (selection_errors_pass_loc_errors_wrapped (H := World.host)
                    (Some ["pr"]) [] [] None None None World.start
                    World.start (World.grid "rcp26 pctl50 DJF")
                    eq_refl eq_refl eq_refl)).
    reflexivity.
  - refine (f_equal fst
              (proj2 (selection_errors_pass_loc_errors_wrapped
                        (H := World.host)
                        None [("lon", [PyStr "a"; PyStr "b"])]
                        [("lon", [PyStr "a"; PyStr "b"])] None None None
                        World.start World.start
                        (World.grid "rcp26 pctl50 DJF")
                        eq_refl eq_refl eq_refl)
                     _ [("lon", Slice (PyStr "a") (PyStr "b"))]
                     (add_event World.start creating_record) LibraryError
                     _ _ _ _)); reflexivity.
Defined.

Lemma scenario_without_file_raises_type_error_witness :
  fst (query None (Some [("scenario", [PyStr "RCP4.5"])]) None None None
             World.start)
  = Raise TypeError.
Proof.
  refine (proj1 (scenario_without_file_raises_type_error (H := World.host)
                   None [("scenario", [PyStr "RCP4.5"])] None None None
                   World.start "RCP4.5" eq_refl _ _ eq_refl eq_refl
                   eq_refl eq_refl));
    discriminate.
Defined.

End OutcomeRuns.

(** ** The entries of [subsets] *)

Lemma filter_absent {A} (k : string) (d : dict A) :
  ~ In k (Dict.keys d) ->
  filter (fun entry => negb (String.eqb k (fst entry))) d = d.
Proof.
  induction d as [|[k0 v0] d IH]; simpl; [reflexivity|].
  intros Hn. destruct (String.eqb_spec k k0) as [->|N]; simpl.
  - exfalso. apply Hn. now left.
  - rewrite IH; [reflexivity|]. intros Hin. apply Hn. now right.
Qed.

Lemma pop_filter {A} (k : string) (d : dict A) :
  NoDup (Dict.keys d) ->
  Dict.pop k d = filter (fun entry => negb (String.eqb k (fst entry))) d.
Proof.
  induction d as [|[k0 v0] d IH]; simpl; [reflexivity|].
  intros Hnd. inversion Hnd as [|? ? Hnotin Hnd']; subst.
  destruct (String.eqb_spec k k0) as [->|N]; simpl.
  - symmetry. now apply filter_absent.
  - now rewrite IH.
Qed.

Lemma keys_filter_nodup {A} (f : string * A -> bool) (d : dict A) :
  NoDup (Dict.keys d) -> NoDup (Dict.keys (filter f d)).
Proof.
  induction d as [|[k0 v0] d IH]; simpl; [trivial|].
  intros Hnd. inversion Hnd as [|? ? Hnotin Hnd']; subst.
  destruct (f (k0, v0)); [|now apply IH].
  simpl. constructor; [|now apply IH].
  intros Hin. apply Hnotin. unfold Dict.keys in *.
  apply in_map_iff in Hin. destruct Hin as ([k v] & <- & Hin).
  apply filter_In in Hin. apply in_map_iff. exists (k, v). now split.
Qed.

Lemma filter_twice {A} (f g : A -> bool) (l : list A) :
  filter f (filter g l) = filter (fun x => (g x && f x)%bool) l.
Proof.
  induction l as [|x l IH]; simpl; [reflexivity|].
  destruct (g x); simpl; [destruct (f x)|]; now rewrite IH.
Qed.

Section Entries.
Context {H : Host}.

Local Abbreviation value := (pyval pyfloat).
Local Abbreviation params := (dict (qparam pyfloat)).

(** The facet blocks raise query errors only, and when they raise nothing
    they hand on [subsets] without the three facet keys, the other entries
    as they were and in their order: the loop over [subsets.items()] never
    sees a facet. *)
Theorem facet_keys_never_reach_the_loop (subsets : dict (list value))
    (s : state) :
  NoDup (Dict.keys subsets) ->
  match facet_pass subsets s with
  | (Ok subsets', _) =>
      subsets' = axis_entries subsets
      /\ forall key, is_facet key = true -> Dict.mem key subsets' = false
  | (Raise e, _) => e = ProviderQueryError
  end.
Proof.
  intros Hnd. pose proof (facet_pass_result subsets s) as R.
  destruct (facet_pass subsets s) as [[subsets'|e] s']; [|exact R].
  assert (subsets' = axis_entries subsets) as ->.
  { subst subsets'. unfold axis_entries, is_facet.
    rewrite (pop_filter "scenario") by exact Hnd.
    rewrite (pop_filter "percentile") by now apply keys_filter_nodup.
    rewrite (pop_filter "season")
      by now apply keys_filter_nodup, keys_filter_nodup.
    rewrite !filter_twice. apply filter_ext. intros [k v].
    cbn [fst]. rewrite !negb_orb.
    rewrite (String.eqb_sym k "scenario"), (String.eqb_sym k "percentile"),
      (String.eqb_sym k "season").
    now rewrite andb_assoc. }
  split; [reflexivity|].
  intros key Hkey. unfold Dict.mem.
  destruct (Dict.get key (axis_entries subsets)) as [v|] eqn:Hget;
    [|reflexivity].
  apply dict_get_in in Hget. unfold axis_entries in Hget.
  apply filter_In in Hget. destruct Hget as [_ Hf]. simpl in Hf.
  rewrite Hkey in Hf. discriminate.
Qed.

(** When the loop over [subsets.items()] has finished, every key of
    [subsets] is a coordinate of the selected data and every range has two
    values at least: a range on a name that is no coordinate, or a range of
    one value, stops every query that comes to the loop. *)
Theorem orientation_needs_coordinates_and_pairs (d : Dataset sample)
    (items : dict (list value)) (query_params query_params' : params)
    (s s' : state) (key : string) (val : list value) :
  orient d items query_params s = (Ok query_params', s') ->
  In (key, val) items ->
  Dict.mem key (coords d) = true
  /\ (2 <= List.length val)%nat
  /\ Dict.mem key query_params' = true.
Proof.
  revert query_params s key val.
  induction items as [|[k v] rest IH]; intros qp s key val E Hin;
    [destruct Hin|].
  simpl in E. do 4 step_ok E.
  apply lift_ok in E0. destruct E0 as [Hc ->].
  apply orient_entry in E3. destruct E3 as (lo & hi & _ & Hhi & ->).
  destruct Hin as [[= -> ->]|Hin].
  - split; [|split].
    + unfold lookup_coord in Hc. unfold Dict.mem.
      now destruct (Dict.get key (coords d)).
    + now apply item_ok_length in Hhi.
    + destruct (in_dec string_dec key (Dict.keys rest)) as [Hk|Hk].
      * unfold Dict.keys in Hk. apply in_map_iff in Hk.
        destruct Hk as ([k' v'] & <- & Hk).
        exact (proj2 (proj2 (IH _ _ _ _ E Hk))).
      * unfold Dict.mem.
        rewrite (orient_frame d rest key Hk _ _ _ _ E), get_set_same.
        reflexivity.
  - exact (IH _ _ _ _ E Hin).
Qed.

(** A range on an axis that is neither the x, the y nor the time axis, in a
    request without bbox and datetime: the query is the query without the
    range, which is never applied to the data. *)
Theorem ranges_on_other_axes_are_ignored range_subset
    (subsets : dict (list value)) bbox_ datetime_ format_ (s : state) :
  Dict.get "scenario" subsets = None ->
  Dict.get "percentile" subsets = None ->
  Dict.get "season" subsets = None ->
  wants_subset (self s) subsets (or_default [] bbox_) datetime_ = false ->
  fast_path (or_default ["tas"] range_subset) []
            (or_default "json" format_) = false ->
  query range_subset (Some subsets) bbox_ datetime_ format_ s
  = query range_subset (Some []) bbox_ datetime_ format_ s.
Proof.
  intros Hsc Hpc Hse Hw Hfast.
  assert (fast_path (or_default ["tas"] range_subset) subsets
                    (or_default "json" format_) = false) as Hfast'.
  { revert Hfast. unfold fast_path.
    destruct (truthy (or_default ["tas"] range_subset)); simpl;
      [reflexivity|].
    destruct (truthy subsets); simpl; [reflexivity | trivial]. }
  assert (wants_subset (self s) [] (or_default [] bbox_) datetime_ = false)
    as Hw'.
  { revert Hw. unfold wants_subset. simpl.
    intros Hw. apply orb_false_iff in Hw. destruct Hw as [Hw ->].
    apply orb_false_iff in Hw. destruct Hw as [_ ->]. reflexivity. }
  etransitivity; [apply (query_unfold range_subset subsets)|].
  symmetry. etransitivity; [apply (query_unfold range_subset [])|].
  symmetry.
  assert (facet_pass subsets s = (Ok subsets, s)) as ->.
  { unfold facet_pass, bind.
    rewrite (scenario_block_absent _ _ Hsc),
      (percentile_block_absent _ _ Hpc).
    now apply season_block_absent. }
  assert (facet_pass ([] : dict (list value)) s = (Ok [], s)) as ->
    by reflexivity.
  unfold after_facets. rewrite Hfast, Hfast', !slow_path_unfold.
  unfold subset_data. rewrite Hw, Hw'. reflexivity.
Qed.

End Entries.

Section EntriesRuns.
#[local] Existing Instance World.host.

Lemma facet_keys_never_reach_the_loop_witness :
  NoDup (Dict.keys ([("lon", [PyInt 10; PyInt 20]);
                     ("scenario", [PyStr "RCP8.5"]);
                     ("lat", [PyInt 40; PyInt 50])]
                    : dict (list (pyval Z))))
  /\ match facet_pass [("lon", [PyInt 10; PyInt 20]);
                       ("scenario", [PyStr "RCP8.5"]);
                       ("lat", [PyInt 40; PyInt 50])] World.start with
     | (Ok subsets', _) =>
         subsets' = axis_entries [("lon", [PyInt 10; PyInt 20]);
                                  ("scenario", [PyStr "RCP8.5"]);
                                  ("lat", [PyInt 40; PyInt 50])]
         /\ forall key, is_facet key = true -> Dict.mem key subsets' = false
     | (Raise e, _) => e = ProviderQueryError
     end.
Proof.
  assert (NoDup (Dict.keys
                   ([("lon", [PyInt 10; PyInt 20]);
                     ("scenario", [PyStr "RCP8.5"]);
                     ("lat", [PyInt 40; PyInt 50])]
                    : dict (list (pyval Z))))) as Hnd.
  { repeat constructor; simpl; intuition discriminate. }
  split; [exact Hnd|].
  exact (facet_keys_never_reach_the_loop (H := World.host)
           [("lon", [PyInt 10; PyInt 20]);
            ("scenario", [PyStr "RCP8.5"]);
            ("lat", [PyInt 40; PyInt 50])] World.start Hnd).
Defined.

Lemma orientation_needs_coordinates_and_pairs_witness :
  Dict.mem "lon" (coords (World.grid "rcp26 pctl50 DJF")) = true
  /\ (2 <= List.length [PyInt 10; PyInt 20 : pyval Z])%nat
  /\ Dict.mem "lon"
       ([("lat", Slice (PyInt 50) (PyInt 40));
         ("lon", Slice (PyInt 10) (PyInt 20))] : dict (qparam Z))
     = true.
Proof.
  apply (orientation_needs_coordinates_and_pairs (H := World.host)
           (World.grid "rcp26 pctl50 DJF")
           [("lat", [PyInt 40; PyInt 50]); ("lon", [PyInt 10; PyInt 20])]
           [] [("lat", Slice (PyInt 50) (PyInt 40));
               ("lon", Slice (PyInt 10) (PyInt 20))]
           World.start
           (add_event World.start (Log DEBUG "Reversing slicing low/high"))
           "lon" [PyInt 10; PyInt 20]).
  - reflexivity.
  - right. now left.
Defined.

Lemma ranges_on_other_axes_are_ignored_witness :
  query None (Some [("height", [PyInt 2; PyInt 10])]) None None None
        World.start
  = query None (Some []) None None None World.start.
Proof.
  apply (ranges_on_other_axes_are_ignored (H := World.host)
           None [("height", [PyInt 2; PyInt 10])] None None None
           World.start);
    reflexivity.
Defined.

End EntriesRuns.
